(** * jovian-py: the commit flow and its transport wrapper

    A shallow embedding of [jovian/utils/api.py] and
    [jovian/utils/commit.py].  Python values are a small dynamic value type,
    exceptions are data, and every function that touches the outside world
    is a computation over an explicit [World]: the trace of observable
    effects, the responses the HTTP transport is going to return, the
    credentials store, the [.jovianrc] mapping and the module global
    [_current_slug].  Collaborators that are not part of the two modules
    (notebook detection, environment capture, git, the file system, the
    record buffer) are read from an immutable [Env]. *)

From Stdlib Require Import ZArith Ascii String.
From stdpp Require Import base strings list gmap pretty.

Set Warnings "-register-all".

Local Open Scope string_scope.
Local Open Scope Z_scope.

(** ** Python values *)

Inductive pyval : Type :=
| PNone
| PBool (b : bool)
| PInt (z : Z)
| PStr (s : string)
| PList (items : list pyval)
| PTuple (items : list pyval)
| PDict (kvs : list (string * pyval))
| PFile (path : string).

(** Python truthiness ([if x:], [not x]). *)
Definition truthy (v : pyval) : bool :=
  match v with
  | PNone => false
  | PBool b => b
  | PInt z => negb (z =? 0)
  | PStr s => negb (String.eqb s "")
  | PList l | PTuple l => negb (Nat.eqb (length l) 0)
  | PDict kvs => negb (Nat.eqb (length kvs) 0)
  | PFile _ => true
  end.

Fixpoint assoc (k : string) (kvs : list (string * pyval)) : option pyval :=
  match kvs with
  | [] => None
  | (k', v) :: rest => if String.eqb k k' then Some v else assoc k rest
  end.

(** [needle in haystack] for strings. *)
Fixpoint is_prefix (p s : string) : bool :=
  match p, s with
  | EmptyString, _ => true
  | String a p', String b s' => Ascii.eqb a b && is_prefix p' s'
  | String _ _, EmptyString => false
  end.

Fixpoint substring_of (needle s : string) : bool :=
  is_prefix needle s ||
  match s with
  | EmptyString => false
  | String _ s' => substring_of needle s'
  end.

(** The double-quote character, for messages that quote a name. *)
Definition dq : string := String (Ascii.ascii_of_nat 34) EmptyString.

(** ** Exceptions *)

Inductive exn_class : Type :=
| CondaError | ApiError | Exception | TypeError | AttributeError | KeyError
| IndexError | ValueError | OSError | ConnectionError | RecursionError
| KeyboardInterrupt.

Record exn : Type := Exn { exn_cls : exn_class; exn_msg : string }.

(** [except Exception] catches every class but the ones that derive from
    [BaseException] directly. *)
Definition is_Exception (e : exn) : bool :=
  match exn_cls e with KeyboardInterrupt => false | _ => true end.

Definition is_CondaError (e : exn) : bool :=
  match exn_cls e with CondaError => true | _ => false end.

Inductive Res (A : Type) : Type :=
| Ret (a : A)
| Raise (e : exn).
Arguments Ret {A} a.
Arguments Raise {A} e.

(** ** The world *)

Record Response : Type := mkResponse {
  status_code : Z;
  json_body : option pyval;      (* [None]: [res.json()] raises *)
  text : string
}.

Inductive event : Type :=
| EvLog (msg : string) (error : bool)
| EvSaveNotebook
| EvSleep (secs : nat)
| EvGet (url : pyval) (params : pyval) (kwargs : gmap string pyval)
| EvPost (url : pyval) (data json : pyval) (kwargs : gmap string pyval)
| EvKeyPrompt (again : bool)
| EvCondaCapture (slug version : pyval)
| EvPipCapture (slug version : pyval)
| EvResetRecords (kind : string)
| EvGitCommit (msg : pyval)
| EvLogGit (info : pyval) (verbose : bool).

Record World : Type := mkWorld {
  w_trace : list event;             (* effects so far, oldest first *)
  w_responses : list Response;      (* what the transport will answer *)
  w_creds : gmap string string;     (* the credentials store *)
  w_rc : gmap string pyval;         (* .jovianrc: filename -> slug *)
  w_current_slug : pyval            (* the global [_current_slug] *)
}.

Inductive fsnode : Type :=
| FsFile
| FsDir (entries : list (string * fsnode)).

Record Env : Type := mkEnv {
  env_in_script : bool;
  env_in_notebook : bool;
  env_script_filename : option string;
  env_notebook_name : option string;
  env_file_extension : string -> string;
  env_is_uuid : pyval -> bool;
  env_webapp_url : string;
  env_api_url : string;
  env_token_key : string;                 (* API_TOKEN_KEY *)
  env_version : string;                   (* __version__ *)
  env_guest_key : pyval;
  env_org_id : pyval;
  env_first_key : string;                 (* read_or_request_api_key() *)
  env_second_key : string;                (* request_api_key() *)
  env_filename_msg : string;              (* FILENAME_MSG *)
  env_conda : option exn;                 (* how upload_conda_env ends *)
  env_pip : option exn;                   (* how upload_pip_env ends *)
  env_record_slugs : exn + list pyval;    (* how get_record_slugs ends *)
  env_fs : string -> option fsnode;       (* what a path names on disk *)
  env_open_error : string -> option string; (* OSError text of open() *)
  env_dirname : string -> string;
  env_basename : string -> string;
  env_repr : pyval -> string;             (* str() of a container *)
  env_is_git : bool;
  env_git_remote : pyval;
  env_git_commit_hash : pyval;
  env_git_relative_path : pyval
}.

(** ** Computations: state and exceptions *)

Definition M (A : Type) : Type := World -> Res A * World.

Definition ret {A} (a : A) : M A := fun w => (Ret a, w).
Definition raise {A} (e : exn) : M A := fun w => (Raise e, w).
Definition bind {A B} (c : M A) (k : A -> M B) : M B :=
  fun w => match c w with
           | (Ret a, w') => k a w'
           | (Raise e, w') => (Raise e, w')
           end.
Definition lift {A} (r : Res A) : M A := fun w => (r, w).

Notation "'let*' x ':=' c 'in' k" := (bind c (fun x => k))
  (at level 10, x name, c at level 100, k at level 200).
Notation "c '>>' k" := (bind c (fun _ => k))
  (at level 100, k at level 200, right associativity).

(** [try: c except <classes matched by catches> as e: handler e] *)
Definition try_except {A} (c : M A) (catches : exn -> bool) (handler : exn -> M A) : M A :=
  fun w => match c w with
           | (Ret a, w') => (Ret a, w')
           | (Raise e, w') => if catches e then handler e w' else (Raise e, w')
           end.

Fixpoint for_each {A} (l : list A) (body : A -> M unit) : M unit :=
  match l with
  | [] => ret tt
  | x :: rest => body x >> for_each rest body
  end.

Definition emit (e : event) : M unit :=
  fun w => (Ret tt, mkWorld (w_trace w ++ [e])%list (w_responses w) (w_creds w)
                            (w_rc w) (w_current_slug w)).

(** [jovian.utils.logger.log(msg, error=False)] *)
Definition log (msg : string) (error : bool) : M unit := emit (EvLog msg error).

(** ** Dynamic operations *)

Definition type_error {A} (msg : string) : Res A := Raise (Exn TypeError msg).

(** [a + b] *)
Definition py_add (a b : pyval) : Res pyval :=
  match a, b with
  | PStr x, PStr y => Ret (PStr (x ++ y))
  | PInt x, PInt y => Ret (PInt (x + y))
  | PList x, PList y => Ret (PList (x ++ y)%list)
  | PTuple x, PTuple y => Ret (PTuple (x ++ y)%list)
  | _, _ => type_error "unsupported operand type(s) for +"
  end.

(** [v[k]] with a string key *)
Definition getitem (v : pyval) (k : string) : Res pyval :=
  match v with
  | PDict kvs => match assoc k kvs with
                 | Some x => Ret x
                 | None => Raise (Exn KeyError k)
                 end
  | _ => type_error "object is not subscriptable with a str key"
  end.

(** [v[0]] *)
Definition getitem0 (v : pyval) : Res pyval :=
  match v with
  | PList (x :: _) | PTuple (x :: _) => Ret x
  | PList [] | PTuple [] => Raise (Exn IndexError "index out of range")
  | PStr (String a _) => Ret (PStr (String a EmptyString))
  | PStr EmptyString => Raise (Exn IndexError "string index out of range")
  | PDict _ => Raise (Exn KeyError "0")
  | _ => type_error "object is not subscriptable"
  end.

(** [k in v] with a string on the left *)
Definition py_contains (k : string) (v : pyval) : Res bool :=
  match v with
  | PStr s => Ret (substring_of k s)
  | PDict kvs => Ret (match assoc k kvs with Some _ => true | None => false end)
  | PList l | PTuple l =>
      Ret (existsb (fun x => match x with PStr s => String.eqb s k | _ => false end) l)
  | _ => type_error "argument is not iterable"
  end.

(** [len(v)] *)
Definition py_len (v : pyval) : Res nat :=
  match v with
  | PStr s => Ret (String.length s)
  | PList l | PTuple l => Ret (length l)
  | PDict kvs => Ret (length kvs)
  | _ => type_error "object has no len()"
  end.

Section Api.
Context (E : Env).

(** [str(v)] *)
Definition py_str (v : pyval) : string :=
  match v with
  | PNone => "None"
  | PBool true => "True"
  | PBool false => "False"
  | PInt z => pretty z
  | PStr s => s
  | _ => env_repr E v
  end.

(** ** api.py *)

(** [requests.get(url, params, **kwargs)]: the transport answers with the
    next scripted response, or fails with a connection error. *)
Definition mkget (url params : pyval) (kwargs : gmap string pyval) : M Response :=
  fun w =>
    let tr := (w_trace w ++ [EvGet url params kwargs])%list in
    match w_responses w with
    | r :: rest => (Ret r, mkWorld tr rest (w_creds w) (w_rc w) (w_current_slug w))
    | [] => (Raise (Exn ConnectionError "connection failed"),
             mkWorld tr [] (w_creds w) (w_rc w) (w_current_slug w))
    end.

(** [requests.post(url, data, json, **kwargs)] *)
Definition mkpost (url data json : pyval) (kwargs : gmap string pyval) : M Response :=
  fun w =>
    let tr := (w_trace w ++ [EvPost url data json kwargs])%list in
    match w_responses w with
    | r :: rest => (Ret r, mkWorld tr rest (w_creds w) (w_rc w) (w_current_slug w))
    | [] => (Raise (Exn ConnectionError "connection failed"),
             mkWorld tr [] (w_creds w) (w_rc w) (w_current_slug w))
    end.

Definition _u (path : string) : string := env_api_url E ++ path.

(** The [try] body of [_msg]; any exception in it reaches the bare
    [except]. *)
Definition _msg_body (res : Response) : Res pyval :=
  match json_body res with
  | None => Raise (Exn ValueError "Expecting value")
  | Some data =>
      let by_key (k : string) (otherwise : Res pyval) : Res pyval :=
        match py_contains k data with
        | Raise e => Raise e
        | Ret true => getitem data k
        | Ret false => otherwise
        end in
      let rest := by_key "message" (by_key "msg" (Ret PNone)) in
      match py_contains "errors" data with
      | Raise e => Raise e
      | Ret false => rest
      | Ret true =>
          match getitem data "errors" with
          | Raise e => Raise e
          | Ret errs =>
              match py_len errs with
              | Raise e => Raise e
              | Ret O => rest
              | Ret (S _) =>
                  match getitem0 errs with
                  | Raise e => Raise e
                  | Ret first => getitem first "message"
                  end
              end
          end
      end
  end.

Definition _msg (res : Response) : pyval :=
  match _msg_body res with
  | Ret v => v
  | Raise _ =>
      if negb (String.eqb (text res) "") then PStr (text res)
      else PStr "Something went wrong"
  end.

Definition _pretty (res : Response) : Res pyval :=
  py_add (PStr ("(HTTP " ++ py_str (PInt (status_code res)) ++ ") ")) (_msg res).

(** Modelled from the spec: [jovian.utils.credentials] is not among the
    sources; purging removes the cached token from the store. *)
Definition purge_api_key : M unit :=
  fun w => (Ret tt, mkWorld (w_trace w) (w_responses w)
                            (delete (env_token_key E) (w_creds w))
                            (w_rc w) (w_current_slug w)).

(** Modelled from the spec: writes the validated token back to the store. *)
Definition write_api_key (key : string) : M unit :=
  fun w => (Ret tt, mkWorld (w_trace w) (w_responses w)
                            (<[env_token_key E := key]> (w_creds w))
                            (w_rc w) (w_current_slug w)).

Definition read_creds : M (gmap string string) := fun w => (Ret (w_creds w), w).

Definition read_or_request_api_key : M string :=
  emit (EvKeyPrompt false) >> ret (env_first_key E).

Definition request_api_key : M string :=
  emit (EvKeyPrompt true) >> ret (env_second_key E).

Definition validate_api_key (key : string) : M bool :=
  let* res := mkget (PStr (_u "/user/profile")) PNone
                    {[ "headers" := PDict [("Authorization", PStr ("Bearer " ++ key))] ]} in
  ret (status_code res =? 200).

Definition get_api_key : M string :=
  let* creds := read_creds in
  match creds !! env_token_key E with
  | None =>
      let* key := read_or_request_api_key in
      let* ok := validate_api_key key in
      let* key :=
        (if negb ok then
           log "The current API key is invalid or expired." true >>
           let* key := request_api_key in
           let* ok := validate_api_key key in
           if negb ok then
             raise (Exn ApiError "The API key provided is invalid or expired.")
           else ret key
         else ret key) in
      write_api_key key >>
      ret key
  | Some key => ret key
  end.

Definition _h : M pyval :=
  let* key := get_api_key in
  ret (PDict [("Authorization", PStr ("Bearer " ++ key));
              ("x-jovian-source", PStr "library");
              ("x-jovian-library-version", PStr (env_version E));
              ("x-jovian-guest", env_guest_key E);
              ("x-jovian-org", env_org_id E)]).

Definition _v (version : pyval) : string :=
  match version with
  | PNone => ""
  | _ => "?gist_version=" ++ py_str version
  end.

(** How Python binds a call [(args, kwargs)] to the positional-or-keyword
    parameters [names] of a function that also takes [**kwargs]: the value
    given for each name ([None] when the default applies) and the keyword
    arguments left over. *)
Fixpoint bind_params (fname : string) (names : list string) (args : list pyval)
         (kwargs : gmap string pyval)
  : Res (list (option pyval) * gmap string pyval) :=
  match names with
  | [] =>
      match args with
      | [] => Ret ([], kwargs)
      | _ :: _ => type_error (fname ++ "() takes too many positional arguments")
      end
  | n :: names' =>
      match args with
      | a :: args' =>
          match kwargs !! n with
          | Some _ => type_error (fname ++ "() got multiple values for argument '" ++ n ++ "'")
          | None =>
              match bind_params fname names' args' kwargs with
              | Ret (vs, rest) => Ret (Some a :: vs, rest)
              | Raise e => Raise e
              end
          end
      | [] =>
          match bind_params fname names' [] (delete n kwargs) with
          | Ret (vs, rest) => Ret (kwargs !! n :: vs, rest)
          | Raise e => Raise e
          end
      end
  end.

Definition missing_url {A} (fname : string) : M A :=
  raise (Exn TypeError (fname ++ "() missing 1 required positional argument: 'url'")).

(** The body of [get], before the decorator:
    [return mkget(url, params=None, **kwargs)] *)
Definition get_undecorated (args : list pyval) (kwargs : gmap string pyval) : M Response :=
  let* bound := lift (bind_params "get" ["url"; "params"] args kwargs) in
  match bound with
  | (Some url :: _, rest) => mkget url PNone rest
  | _ => missing_url "get"
  end.

(** The body of [post], before the decorator:
    [return mkpost(url, data=None, json=None, **kwargs)] *)
Definition post_undecorated (args : list pyval) (kwargs : gmap string pyval) : M Response :=
  let* bound := lift (bind_params "post" ["url"; "data"; "json"] args kwargs) in
  match bound with
  | (Some url :: _, rest) => mkpost url PNone PNone rest
  | _ => missing_url "post"
  end.

(** The loop of [_request_wrapper] over the remaining iterations of
    [range(2)]; [last] is the binding of [res] so far. *)
Fixpoint retry_loop (iterations : nat) (last : option Response)
         (request : list pyval -> gmap string pyval -> M Response)
         (args : list pyval) (kwargs : gmap string pyval) : M Response :=
  match iterations with
  | O =>
      match last with
      | Some res => ret res
      | None => raise (Exn Exception "local variable 'res' referenced before assignment")
      end
  | S n =>
      let* res := request args kwargs in
      if status_code res =? 401 then
        log "The current API key is invalid or expired." true >>
        purge_api_key >>
        let* h := _h in
        retry_loop n (Some res) request args (<["headers" := h]> kwargs)
      else ret res
  end.

Definition retry (request : list pyval -> gmap string pyval -> M Response)
  : list pyval -> gmap string pyval -> M Response :=
  retry_loop 2 None request.

Definition get := retry get_undecorated.
Definition post := retry post_undecorated.

(** [res.json()] *)
Definition res_json (res : Response) : Res pyval :=
  match json_body res with
  | Some v => Ret v
  | None => Raise (Exn ValueError "Expecting value")
  end.

(** [raise cls(prefix + _pretty(res))] *)
Definition raise_pretty {A} (cls : exn_class) (prefix : pyval) (res : Response) : M A :=
  let* detail := lift (_pretty res) in
  let* msg := lift (py_add prefix detail) in
  raise (Exn cls (py_str msg)).

Definition get_gist (slug : pyval) : M pyval :=
  let* path := lift (py_add (PStr "/gist/") slug) in
  let url := PStr (_u (py_str path)) in
  let* h := _h in
  let* res := get [] {[ "url" := url; "headers" := h ]} in
  if status_code res =? 200 then
    let* body := lift (res_json res) in
    lift (getitem body "data")
  else
    let* m := lift (py_add (PStr ("Failed to retrieve metadata for notebook " ++ dq)) slug) in
    let* m := lift (py_add m (PStr (dq ++ ": "))) in
    raise_pretty Exception m res.

Definition get_gist_access (slug : pyval) : M pyval :=
  let* path := lift (py_add (PStr "/gist/") slug) in
  let* path := lift (py_add path (PStr "/check-access")) in
  let url := PStr (_u (py_str path)) in
  let* h := _h in
  let* res := get [] {[ "url" := url; "headers" := h ]} in
  if status_code res =? 200 then
    let* body := lift (res_json res) in
    lift (getitem body "data")
  else
    let* m := lift (py_add (PStr ("Failed to retrieve access permission for notebook " ++ dq)) slug) in
    let* m := lift (py_add m (PStr (dq ++ " (retry with create_new=True to create a new notebook): "))) in
    raise_pretty Exception m res.

Definition upload_file (gist_slug file version artifact : pyval) : M pyval :=
  let data := if truthy artifact then PDict [("artifact", PStr "true")] else PDict [] in
  let* path := lift (py_add (PStr "/gist/") gist_slug) in
  let* path := lift (py_add path (PStr "/upload")) in
  let* path := lift (py_add path (PStr (_v version))) in
  let url := PStr (_u (py_str path)) in
  let* h := _h in
  let* res := post [] {[ "url" := url; "files" := PDict [("files", file)];
                         "data" := data; "headers" := h ]} in
  if status_code res =? 200 then
    let* body := lift (res_json res) in
    lift (getitem body "data")
  else raise_pretty ApiError (PStr "File upload failed: ") res.

(** A call of the four-parameter [upload_file] with positional arguments
    only. *)
Definition call_upload_file (args : list pyval) : M pyval :=
  match args with
  | [gist_slug; file] => upload_file gist_slug file PNone (PBool false)
  | [gist_slug; file; version] => upload_file gist_slug file version (PBool false)
  | [gist_slug; file; version; artifact] => upload_file gist_slug file version artifact
  | [] | [_] =>
      raise (Exn TypeError "upload_file() missing required positional arguments")
  | _ =>
      raise (Exn TypeError "upload_file() takes from 2 to 4 positional arguments but 5 were given")
  end.

Definition create_gist_simple (filename : string) (gist_slug secret : pyval) : M pyval :=
  let* auth_headers := _h in
  match env_open_error E filename with
  | Some m => raise (Exn OSError m)
  | None =>
      let nb_file := PTuple [PStr filename; PFile filename] in
      log "Uploading notebook.." false >>
      if truthy gist_slug then upload_file gist_slug nb_file PNone (PBool false)
      else
        let* res := post [] {[ "url" := PStr (_u "/gist/create");
                               "data" := PDict [("public", PInt (if truthy secret then 0 else 1))];
                               "files" := PDict [("files", nb_file)];
                               "headers" := auth_headers ]} in
        if status_code res =? 200 then
          let* body := lift (res_json res) in
          lift (getitem body "data")
        else raise_pretty ApiError (PStr "File upload failed: ") res
  end.

Definition commit_records (gist_slug : pyval) (tracking_slugs : pyval) (version : pyval) : M pyval :=
  let* path := lift (py_add (PStr "/data/") gist_slug) in
  let* path := lift (py_add path (PStr "/commit")) in
  let* path := lift (py_add path (PStr (_v version))) in
  let url := PStr (_u (py_str path)) in
  let* h := _h in
  let* res := post [url] {[ "json" := tracking_slugs; "headers" := h ]} in
  if status_code res =? 200 then
    let* body := lift (res_json res) in
    lift (getitem body "data")
  else raise_pretty ApiError (PStr "Data logging failed: ") res.

(** An attribute of the module [api] that [api.py] does not define:
    looking it up raises before anything is called.  The module binds
    [ApiError], [_u], [_msg], [_pretty], [retry], [get], [post],
    [validate_api_key], [get_api_key], [_h], [_v], [get_gist],
    [get_gist_access], [create_gist_simple], [upload_file], [post_blocks],
    [post_block], [commit_records], [post_slack_message] and the names it
    imports; [commit.py] also asks it for [get_current_user] and
    [post_records]. *)
Definition api_undefined {A} (name : string) : M A :=
  raise (Exn AttributeError
             ("module 'jovian.utils.api' has no attribute '" ++ name ++ "'")).

End Api.

(** ** commit.py *)

(** What the caller passes as [files] or [outputs]: a list of paths, or a
    single path as a string. *)
Inductive paths_arg : Type :=
| PathStr (s : string)
| PathList (l : list string).

Fixpoint ends_with_slash (s : string) : bool :=
  match s with
  | EmptyString => false
  | String c EmptyString => Ascii.eqb c "/"%char
  | String _ rest => ends_with_slash rest
  end.

(** [os.path.join(a, p)] *)
Definition os_path_join (a p : string) : string :=
  if is_prefix "/" p then p
  else if String.eqb a "" || ends_with_slash a then a ++ p
  else a ++ "/" ++ p.

(** [os.walk(top)] over a directory tree, top-down: one
    [(folder, subdirectories, files)] triple per directory. *)
Fixpoint os_walk (top : string) (n : fsnode) : list (string * list string * list string) :=
  match n with
  | FsFile => []
  | FsDir entries =>
      let is_dir (e : string * fsnode) :=
        match snd e with FsDir _ => true | FsFile => false end in
      let below :=
        (fix go (es : list (string * fsnode)) :=
           match es with
           | [] => []
           | (name, child) :: rest =>
               (os_walk (os_path_join top name) child ++ go rest)%list
           end) entries in
      (top, map fst (filter (fun e => is_dir e = true) entries),
            map fst (filter (fun e => is_dir e = false) entries)) :: below
  end.

Section Commit.
Context (E : Env).

Definition get_notebook_slug (filename : string) : M pyval :=
  fun w => (Ret (default PNone (w_rc w !! filename)), w).

Definition set_notebook_slug (filename : string) (slug : pyval) : M unit :=
  fun w => (Ret tt, mkWorld (w_trace w) (w_responses w) (w_creds w)
                            (<[filename := slug]> (w_rc w)) (w_current_slug w)).

Definition read_current_slug : M pyval := fun w => (Ret (w_current_slug w), w).

Definition write_current_slug (slug : pyval) : M unit :=
  fun w => (Ret tt, mkWorld (w_trace w) (w_responses w) (w_creds w) (w_rc w) slug).

Definition is_none (v : pyval) : bool :=
  match v with PNone => true | _ => false end.

(** Modelled from the spec: [upload_conda_env] ([jovian.utils.anaconda])
    is not among the sources.  The spec names it a collaborator that
    snapshots the environment and raises a typed capture error; the event
    stands for the whole call with its arguments, whatever it sends
    included, and [env_conda] says how it ends.  Its traffic over the
    transport is not modelled, so nothing is stated here about the
    responses or the credentials a capture leaves. *)
Definition upload_conda_env (gist_slug version : pyval) : M unit :=
  emit (EvCondaCapture gist_slug version) >>
  match env_conda E with Some e => raise e | None => ret tt end.

(** Modelled from the spec: [upload_pip_env] ([jovian.utils.pip]) is not
    among the sources; it is taken like [upload_conda_env], the event
    standing for the call and [env_pip] for how it ends. *)
Definition upload_pip_env (gist_slug version : pyval) : M unit :=
  emit (EvPipCapture gist_slug version) >>
  match env_pip E with Some e => raise e | None => ret tt end.

(** Modelled from the spec: [get_record_slugs] ([jovian.utils.records])
    is not among the sources.  The spec has it post the accumulated
    records in one batch and return the tracking identifiers;
    [env_record_slugs] is what the call returns or raises, and the batch
    request itself is not modelled. *)
Definition get_record_slugs : M (list pyval) :=
  match env_record_slugs E with inl e => raise e | inr l => ret l end.

(** [os.path.dirname(p)] *)
Definition os_path_dirname (p : pyval) : Res pyval :=
  match p with
  | PStr s => Ret (PStr (env_dirname E s))
  | _ => type_error "expected str, bytes or os.PathLike object"
  end.

Definition _parse_filename (filename : option string) : option string :=
  match filename with
  | None =>
      if env_in_script E then env_script_filename E
      else if env_in_notebook E then env_notebook_name E
      else None
  | Some f =>
      let ext := env_file_extension E f in
      if negb (String.eqb ext ".py" || String.eqb ext ".ipynb") then
        Some (f ++ (if env_in_script E then ".py" else ".ipynb"))
      else Some f
  end.

Definition _parse_project (project : pyval) (filename : string) (new_project : bool)
  : M (pyval * pyval) :=
  let* project :=
    (if negb new_project && is_none project then
       let* current := read_current_slug in
       if negb (is_none current) then ret current
       else get_notebook_slug filename
     else ret project) in
  if is_none project then ret (PNone, PNone) else
  let* direct :=
    (if env_is_uuid E project then ret true
     else lift (py_contains "/" project)) in
  let* metadata :=
    (if direct then get_gist E project
     else
       let* user := api_undefined "get_current_user" in
       let* username := lift (getitem user "username") in
       let* owner_prefix := lift (py_add username (PStr "/")) in
       let* ident := lift (py_add owner_prefix project) in
       get_gist E ident) in
  if negb (truthy metadata) then
    let* m := lift (py_add (PStr ("Failed to retrieve metadata for the project " ++ dq)) project) in
    let* m := lift (py_add m (PStr dq)) in
    log (py_str E m) false >>
    ret (PNone, PNone)
  else
    let* owner := lift (getitem metadata "owner") in
    let* username := lift (getitem owner "username") in
    let* title := lift (getitem metadata "title") in
    let* project_name := lift (py_add username title) in
    let* project_id := lift (getitem metadata "slug") in
    let* permissions := get_gist_access E project_id in
    let* can_write := lift (getitem permissions "write") in
    if negb (truthy can_write) then ret (PNone, PNone) else
    (if is_none project_id then
       log ("Creating a new notebook on " ++ env_webapp_url E) false
     else
       let* m := lift (py_add (PStr ("Updating notebook " ++ dq)) project) in
       let* m := lift (py_add m (PStr (dq ++ " on "))) in
       let* m := lift (py_add m (PStr (env_webapp_url E))) in
       log (py_str E m) false) >>
    ret (project_name, project_id).

Definition _attach_file (path : string) (gist_slug version : pyval) (output : bool) : M unit :=
  try_except
    (match env_open_error E path with
     | Some m => raise (Exn OSError m)
     | None =>
         let f := PFile path in
         let file_obj := PTuple [PStr (env_basename E path); f] in
         let* folder := lift (os_path_dirname f) in
         let* _ := call_upload_file E [gist_slug; file_obj; folder; version; PBool output] in
         ret tt
     end)
    is_Exception
    (fun e => log (exn_msg e) true).

(** [depth] is the room left on the interpreter's call stack: a call
    with none left raises [RecursionError]. *)
Fixpoint _attach_files (depth : nat) (paths : paths_arg) (gist_slug version : pyval)
         (output : bool) : M unit :=
  match depth with
  | O => raise (Exn RecursionError "maximum recursion depth exceeded")
  | S depth' =>
      let empty := match paths with
                   | PathStr s => String.eqb s ""
                   | PathList l => Nat.eqb (length l) 0
                   end in
      if empty then ret tt else
      log ("Uploading additional " ++ (if output then "outputs" else "files") ++ "...") false >>
      let paths := match paths with PathStr s => [s] | PathList l => l end in
      for_each paths (fun path =>
        match env_fs E path with
        | Some (FsDir entries) =>
            for_each (os_walk path (FsDir entries)) (fun '(folder, _, files) =>
              for_each files (fun fname =>
                let fpath := os_path_join folder fname in
                _attach_file fpath gist_slug version output))
        | Some FsFile =>
            _attach_files depth' (PathStr path) gist_slug version output
        | None =>
            log ("Ignoring " ++ dq ++ path ++ dq ++ " (not found)") true
        end)
  end.

Definition _capture_environment (environment : option string) (gist_slug version : pyval)
  : M unit :=
  match environment with
  | None => ret tt
  | Some environment =>
      log "Capturing environment.." false >>
      let* captured :=
        (if String.eqb environment "auto" || String.eqb environment "conda" then
           try_except (upload_conda_env gist_slug version >> ret true)
                      is_CondaError
                      (fun e => log (exn_msg e) true >> ret false)
         else ret false) in
      if negb captured && (String.eqb environment "pip" || String.eqb environment "auto") then
        try_except (upload_pip_env gist_slug version)
                   is_Exception
                   (fun e => log (exn_msg e) true)
      else ret tt
  end.

Definition _perform_git_commit (filename : string) (git_commit : bool) (git_message : pyval)
  : M unit :=
  if git_commit && env_is_git E then
    emit (EvResetRecords "git") >>
    emit (EvGitCommit git_message) >>
    log "Git repository identified. Performing git commit..." false >>
    let git_info := PDict [("repository", env_git_remote E);
                           ("commit", env_git_commit_hash E);
                           ("filename", PStr filename);
                           ("path", env_git_relative_path E)] in
    emit (EvLogGit git_info false)
  else ret tt.

Definition _attach_records (gist_slug version : pyval) : M unit :=
  let* tracking_slugs := get_record_slugs in
  if Nat.ltb 0 (length tracking_slugs) then
    log "Attaching records (metrics, hyperparameters, datasets, git etc.)" false >>
    api_undefined "post_records"
  else ret tt.

(** [depth] is the room left on the call stack when the attachments
    start (see [_attach_files]); the other arguments are those of the
    Python function. *)
Definition commit (depth : nat) (message : pyval) (files outputs : paths_arg)
           (environment : option string) (privacy : pyval) (filename : option string)
           (project : pyval) (new_project git_commit : bool) (git_message : pyval)
  : M unit :=
  if negb (env_in_script E) && negb (env_in_notebook E) then
    log "Failed to detect Jupyter notebook or Python script. Skipping.." true
  else
    (if env_in_notebook E then
       log "Attempting to save notebook.." false >>
       emit EvSaveNotebook >>
       emit (EvSleep 1)
     else ret tt) >>
    match _parse_filename filename with
    | None => log (env_filename_msg E) false
    | Some filename =>
        let* resolved := _parse_project project filename new_project in
        let '(project_title, project_id) := resolved in
        let* res := create_gist_simple E filename project_id privacy in
        let* slug := lift (getitem res "slug") in
        let* owner := lift (getitem res "owner") in
        let* version := lift (getitem res "version") in
        let* title := lift (getitem res "title") in
        write_current_slug slug >>
        set_notebook_slug filename slug >>
        _capture_environment environment slug version >>
        _attach_files depth files slug version false >>
        _attach_files depth outputs slug version false >>
        _attach_records slug version >>
        let* username := lift (getitem owner "username") in
        let* m := lift (py_add (PStr ("Committed successfully! " ++ env_webapp_url E)) username) in
        let* m := lift (py_add m (PStr "/")) in
        let* m := lift (py_add m title) in
        log (py_str E m) false
    end.

End Commit.

(** * Vocabulary of the statements *)

(** [emits P c]: whatever [c] does, it only appends events that satisfy
    [P] to the trace. *)
Definition emits (P : event -> Prop) {A} (c : M A) : Prop :=
  forall w, exists evs, w_trace (snd (c w)) = (w_trace w ++ evs)%list /\ Forall P evs.

(** The events the transport layer can produce: log lines, key prompts,
    and requests whose [params], [data] and [json] arguments are [None]. *)
Definition payload_free (e : event) : Prop :=
  match e with
  | EvLog _ _ | EvKeyPrompt _ => True
  | EvGet _ params _ => params = PNone
  | EvPost _ data json _ => data = PNone /\ json = PNone
  | _ => False
  end.

(** The 401 branch of [_request_wrapper]: report, purge the cached key,
    rebuild the headers. *)
Definition reauthenticate (E : Env) : M pyval :=
  log "The current API key is invalid or expired." true >>
  purge_api_key E >>
  _h E.

(** The identifier [_parse_project] goes on with after looking at the
    module global and the rc file (the first [if] of the function). *)
Definition local_project (project : pyval) (filename : string) (new_project : bool)
           (w : World) : pyval :=
  if negb new_project && is_none project then
    if negb (is_none (w_current_slug w)) then w_current_slug w
    else default PNone (w_rc w !! filename)
  else project.

(** The world after the save-checkpoint prelude of [commit]. *)
Definition after_save (E : Env) (w : World) : World :=
  if env_in_notebook E then
    mkWorld (w_trace w ++ [EvLog "Attempting to save notebook.." false;
                           EvSaveNotebook; EvSleep 1])%list
            (w_responses w) (w_creds w) (w_rc w) (w_current_slug w)
  else w.

Definition git_event (e : event) : bool :=
  match e with
  | EvResetRecords _ | EvGitCommit _ | EvLogGit _ _ => true
  | _ => false
  end.

(** A POST whose form data carries the artifact marker. *)
Definition artifact_marked (e : event) : bool :=
  match e with
  | EvPost _ (PDict kvs) _ _ =>
      match assoc "artifact" kvs with Some _ => true | None => false end
  | _ => false
  end.

Definition is_request (e : event) : bool :=
  match e with
  | EvGet _ _ _ | EvPost _ _ _ _ => true
  | _ => false
  end.

(** The headers [_h] builds around a key. *)
Definition auth_headers (E : Env) (key : string) : pyval :=
  PDict [("Authorization", PStr ("Bearer " ++ key));
         ("x-jovian-source", PStr "library");
         ("x-jovian-library-version", PStr (env_version E));
         ("x-jovian-guest", env_guest_key E);
         ("x-jovian-org", env_org_id E)].

(** A POST to the endpoint that creates a new project. *)
Definition creates_project (E : Env) (e : event) : bool :=
  match e with
  | EvPost (PStr url) _ _ _ => String.eqb url (_u E "/gist/create")
  | _ => false
  end.

(** The world with one more log line. *)
Definition logged (msg : string) (error : bool) (w : World) : World :=
  mkWorld (w_trace w ++ [EvLog msg error])%list (w_responses w) (w_creds w)
          (w_rc w) (w_current_slug w).

(** [extends P pre c w]: run from [w], [c] leaves a trace that starts with
    [pre] and goes on with events that satisfy [P]. *)
Definition extends (P : event -> Prop) (pre : list event) {A} (c : M A) (w : World) : Prop :=
  exists evs, w_trace (snd (c w)) = (pre ++ evs)%list /\ Forall P evs.

(** ** A concrete setting *)

Definition demo_fs (p : string) : option fsnode :=
  if String.eqb p "README.md" then Some FsFile
  else if String.eqb p "data" then
    Some (FsDir [("a.csv", FsFile); ("raw", FsDir [("b.csv", FsFile)])])
  else None.

(** A script [train.py] run from a git repository; the three arguments
    say how conda capture, pip capture and the record flush end. *)
Definition demo_env_with (conda pip : option exn) (records : exn + list pyval) : Env :=
  {| env_in_script := true; env_in_notebook := false;
     env_script_filename := Some "train.py"; env_notebook_name := None;
     env_file_extension := fun f => if substring_of ".py" f then ".py" else "";
     env_is_uuid := fun _ => false;
     env_webapp_url := "https://jovian.ml/"; env_api_url := "https://api.jovian.ai";
     env_token_key := "API_KEY"; env_version := "0.1.0";
     env_guest_key := PNone; env_org_id := PStr "public";
     env_first_key := "k1"; env_second_key := "k2";
     env_filename_msg := "Failed to detect notebook filename.";
     env_conda := conda; env_pip := pip; env_record_slugs := records;
     env_fs := demo_fs; env_open_error := fun _ => None;
     env_dirname := fun s => s; env_basename := fun s => s;
     env_repr := fun _ => "<object>";
     env_is_git := true; env_git_remote := PStr "origin";
     env_git_commit_hash := PStr "abc123"; env_git_relative_path := PStr "." |}.

Definition demo_env : Env := demo_env_with None None (inr []).

Definition status_only (code : Z) : Response := mkResponse code None "".

Definition ok_json (data : pyval) : Response :=
  mkResponse 200 (Some (PDict [("data", data)])) "".

Definition gist_data : pyval :=
  PDict [("slug", PStr "s1"); ("owner", PDict [("username", PStr "alice")]);
         ("version", PInt 3); ("title", PStr "demo")].

(** A world with a cached API key and the given transport script. *)
Definition demo_world (rs : list Response) : World :=
  mkWorld [] rs {[ "API_KEY" := "tok" ]} ∅ PNone.

(** The transport script of a run in which the key typed in after the
    first 401 validates and the request is refused again. *)
Definition two_refusals : list Response :=
  [status_only 401; status_only 200; status_only 401; status_only 200].

(** The wrapped request is refused twice; the key typed in after the
    first refusal validates, the keys typed in after the second do not. *)
Definition second_reauth_fails : list Response :=
  [status_only 401; status_only 200; status_only 401; status_only 401; status_only 401].

Definition read_only : pyval := PDict [("write", PBool false)].

Definition read_write : pyval := PDict [("write", PBool true)].

(** The paths of an attachment argument that name no regular file: each is
    a directory or missing. *)
Definition dirs_or_missing (E : Env) (paths : paths_arg) : Prop :=
  Forall (fun p => env_fs E p <> Some FsFile)
         (match paths with PathStr s => [s] | PathList l => l end).

Definition not_found : Response :=
  mkResponse 404 (Some (PDict [("message", PStr "Gist not found")])) "".

(** ** The rest of api.py *)

Section ApiRecords.
Context (E : Env).

Definition post_blocks (blocks version : pyval) : M pyval :=
  let url := PStr (_u E ("/data/record" ++ _v E version)) in
  let* h := _h E in
  let* res := post E [url] {[ "json" := blocks; "headers" := h ]} in
  if status_code res =? 200 then
    let* body := lift (res_json res) in
    lift (getitem body "data")
  else raise_pretty E ApiError (PStr "Data logging failed: ") res.

(** [timestamp] is what [timestamp_ms()] returns at the call. *)
Definition post_block (timestamp data data_type version : pyval) : M pyval :=
  let blocks := PList [PDict [("localTimestamp", timestamp);
                              ("data", data);
                              ("recordType", data_type)]] in
  post_blocks blocks version.

Definition post_slack_message (data : pyval) (safe : bool) : M pyval :=
  let url := PStr (_u E "/slack/notify") in
  let* h := _h E in
  let* res := post E [url] {[ "json" := data; "headers" := h ]} in
  if status_code res =? 200 then lift (res_json res)
  else if safe then ret (PDict [("data", PDict [("messageSent", PBool false)])])
  else raise_pretty E ApiError (PStr "Slack trigger failed: ") res.

End ApiRecords.

(** ** More vocabulary *)

(** [only_logs c]: [c] changes nothing of the world but the trace. *)
Definition only_logs {A} (c : M A) : Prop :=
  forall w, exists evs,
    snd (c w) = mkWorld (w_trace w ++ evs)%list (w_responses w) (w_creds w)
                        (w_rc w) (w_current_slug w).

(** The log line of the branch of [_parse_project] for a project without
    an id. *)
Definition creating_line (e : event) : bool :=
  match e with
  | EvLog msg _ => is_prefix "Creating a new notebook" msg
  | _ => false
  end.

(** The world after one request: the event is appended and the first
    scripted response is consumed. *)
Definition requested (e : event) (w : World) : World :=
  mkWorld (w_trace w ++ [e])%list (tail (w_responses w)) (w_creds w)
          (w_rc w) (w_current_slug w).

(** A response with a JSON body and one that is not JSON. *)
Definition json_response (code : Z) (body : pyval) : Response :=
  mkResponse code (Some body) "".

Definition text_response (code : Z) (body : string) : Response :=
  mkResponse code None body.

(** A notebook whose name cannot be detected (as in Jupyter Lab), and a
    process that is neither a script nor a notebook. *)
Definition nameless_notebook_env : Env :=
  {| env_in_script := false; env_in_notebook := true;
     env_script_filename := None; env_notebook_name := None;
     env_file_extension := fun f => if substring_of ".ipynb" f then ".ipynb" else "";
     env_is_uuid := fun _ => false;
     env_webapp_url := "https://jovian.ml/"; env_api_url := "https://api.jovian.ai";
     env_token_key := "API_KEY"; env_version := "0.1.0";
     env_guest_key := PNone; env_org_id := PStr "public";
     env_first_key := "k1"; env_second_key := "k2";
     env_filename_msg := "Failed to detect notebook filename.";
     env_conda := None; env_pip := None; env_record_slugs := inr [];
     env_fs := demo_fs; env_open_error := fun _ => None;
     env_dirname := fun s => s; env_basename := fun s => s;
     env_repr := fun _ => "<object>";
     env_is_git := false; env_git_remote := PNone;
     env_git_commit_hash := PNone; env_git_relative_path := PNone |}.

(** The world with more events on the trace. *)
Definition appended (evs : list event) (w : World) : World :=
  mkWorld (w_trace w ++ evs)%list (w_responses w) (w_creds w) (w_rc w) (w_current_slug w).

(** How a collaborator's outcome is seen through [try ... except cls]:
    what is returned or raised, and the error line logged if it is
    caught. *)
Definition caught_outcome (catches : exn -> bool) (outcome : option exn) : Res unit :=
  match outcome with
  | None => Ret tt
  | Some e => if catches e then Ret tt else Raise e
  end.

Definition caught_line (catches : exn -> bool) (outcome : option exn) : list event :=
  match outcome with
  | None => []
  | Some e => if catches e then [EvLog (exn_msg e) true] else []
  end.

(** The line logged for a path that does not exist. *)
Definition ignoring_line (path : string) : event :=
  EvLog ("Ignoring " ++ dq ++ path ++ dq ++ " (not found)") true.

(** The files [os.walk] yields under a directory, as the paths
    [_attach_files] builds for them, in the order of the walk. *)
Definition walked_files (top : string) (n : fsnode) : list string :=
  flat_map (fun '(folder, _, files) => map (os_path_join folder) files) (os_walk top n).

(** The text logged for an attachment: the error of [open], or the
    [TypeError] of [os.path.dirname] on the file object. *)
Definition attach_error (E : Env) (path : string) : string :=
  match env_open_error E path with
  | Some m => m
  | None => "expected str, bytes or os.PathLike object"
  end.

(** The events that are lines of the log. *)
Definition is_log_line (e : event) : Prop :=
  match e with EvLog _ _ => True | _ => False end.

(** ** What the later steps of a commit leave on the trace *)

(** The mode asks for conda capture. *)
Definition tries_conda (environment : option string) : bool :=
  match environment with
  | Some mode => String.eqb mode "auto" || String.eqb mode "conda"
  | None => false
  end.

(** Pip capture runs: the mode allows it and conda capture has not been
    tried with success. *)
Definition tries_pip (E : Env) (environment : option string) : bool :=
  match environment with
  | Some mode =>
      negb (tries_conda environment && bool_decide (env_conda E = None))
      && (String.eqb mode "pip" || String.eqb mode "auto")
  | None => false
  end.

(** The failures of the capture collaborators that [_capture_environment]
    catches: [CondaError] from conda capture, any [Exception] from pip
    capture, each where the capture runs. *)
Definition capture_caught (E : Env) (environment : option string) : Prop :=
  (tries_conda environment = true ->
   forall e, env_conda E = Some e -> is_CondaError e = true)
  /\ (tries_pip E environment = true ->
      forall e, env_pip E = Some e -> is_Exception e = true).

(** The events of an environment capture whose failures are caught: the
    announcement, then each capture that runs, followed by the error line
    of its failure. *)
Definition capture_trace (E : Env) (environment : option string) (gist_slug version : pyval)
  : list event :=
  match environment with
  | None => []
  | Some _ =>
      EvLog "Capturing environment.." false
      :: ((if tries_conda environment
           then EvCondaCapture gist_slug version :: caught_line is_CondaError (env_conda E)
           else [])
          ++ (if tries_pip E environment
              then EvPipCapture gist_slug version :: caught_line is_Exception (env_pip E)
              else []))%list
  end.

(** The lines logged for one path of an attachment argument: the error
    of every file found in a directory, or the line for a missing path.
    (The call for a regular file does not return, so no lines are given
    for it.) *)
Definition path_lines (E : Env) (path : string) : list event :=
  match env_fs E path with
  | Some (FsDir entries) =>
      map (fun f => EvLog (attach_error E f) true) (walked_files path (FsDir entries))
  | Some FsFile => []
  | None => [ignoring_line path]
  end.

(** The lines logged by [_attach_files] for directories and missing
    paths: nothing for an empty argument, else the announcement and the
    lines of each path in turn. *)
Definition attach_lines (E : Env) (paths : paths_arg) (output : bool) : list event :=
  match paths with
  | PathStr "" | PathList [] => []
  | _ =>
      EvLog ("Uploading additional " ++ (if output then "outputs" else "files") ++ "...") false
      :: flat_map (path_lines E) (match paths with PathStr s => [s] | PathList l => l end)
  end.

(** * Reasoning about computations *)

Lemma append_assoc (a b c : string) : ((a ++ b) ++ c)%string = (a ++ (b ++ c))%string.
Proof.
  induction a as [|x a IH]; [reflexivity |].
  change (String x ((a ++ b) ++ c) = String x (a ++ (b ++ c)))%string.
  now rewrite IH.
Qed.

Lemma bind_Ret {A B} (c : M A) (k : A -> M B) w a w' :
  c w = (Ret a, w') -> bind c k w = k a w'.
Proof. intros H. unfold bind. now rewrite H. Qed.

Lemma bind_Raise {A B} (c : M A) (k : A -> M B) w e w' :
  c w = (Raise e, w') -> bind c k w = (Raise e, w').
Proof. intros H. unfold bind. now rewrite H. Qed.

Lemma bind_lift_Ret {A B} (a : A) (k : A -> M B) w : bind (lift (Ret a)) k w = k a w.
Proof. reflexivity. Qed.

Lemma run_log {A} msg err (k : unit -> M A) w :
  bind (log msg err) k w = k tt (logged msg err w).
Proof. reflexivity. Qed.

(** [run H] takes one step of a computation with the outcome [H] of its
    first action; [run_pure H] does the same for a pure operation. *)
Ltac run H := first [rewrite (bind_Ret _ _ _ _ _ H) | rewrite (bind_Raise _ _ _ _ _ H)].
Ltac run_pure H := rewrite H, bind_lift_Ret.

Section Emits.
Context (P : event -> Prop).

Lemma emits_ret {A} (a : A) : emits P (ret a).
Proof. intros w. exists []. simpl. now rewrite app_nil_r. Qed.

Lemma emits_raise {A} (e : exn) : emits P (@raise A e).
Proof. intros w. exists []. simpl. now rewrite app_nil_r. Qed.

Lemma emits_lift {A} (r : Res A) : emits P (lift r).
Proof. intros w. exists []. simpl. now rewrite app_nil_r. Qed.

Lemma emits_bind_lift {A B} (r : Res A) (k : A -> M B) :
  (forall a, r = Ret a -> emits P (k a)) -> emits P (bind (lift r) k).
Proof.
  intros Hk w. unfold bind, lift. destruct r as [a|e].
  - now apply Hk.
  - exists []. simpl. now rewrite app_nil_r.
Qed.

Lemma emits_bind {A B} (c : M A) (k : A -> M B) :
  emits P c -> (forall a, emits P (k a)) -> emits P (bind c k).
Proof.
  intros Hc Hk w. unfold bind.
  destruct (Hc w) as (evs1 & Ht1 & HP1).
  destruct (c w) as [[a|e] w1]; simpl in *.
  - destruct (Hk a w1) as (evs2 & Ht2 & HP2).
    exists (evs1 ++ evs2)%list. split.
    + now rewrite Ht2, Ht1, app_assoc.
    + now apply Forall_app.
  - now exists evs1.
Qed.

Lemma emits_try_except {A} (c : M A) catches handler :
  emits P c -> (forall e, emits P (handler e)) -> emits P (try_except c catches handler).
Proof.
  intros Hc Hh w. unfold try_except.
  destruct (Hc w) as (evs1 & Ht1 & HP1).
  destruct (c w) as [[a|e] w1]; simpl in *.
  - now exists evs1.
  - destruct (catches e); simpl.
    + destruct (Hh e w1) as (evs2 & Ht2 & HP2).
      exists (evs1 ++ evs2)%list. split.
      * now rewrite Ht2, Ht1, app_assoc.
      * now apply Forall_app.
    + now exists evs1.
Qed.

Lemma emits_for_each {A} (l : list A) (body : A -> M unit) :
  (forall x, emits P (body x)) -> emits P (for_each l body).
Proof.
  intros Hb. induction l as [|x l IH]; simpl.
  - apply emits_ret.
  - apply emits_bind; [apply Hb | intros _; exact IH].
Qed.

Lemma emits_emit (e : event) : P e -> emits P (emit e).
Proof. intros He w. exists [e]. simpl. split; [reflexivity | now constructor]. Qed.

Lemma emits_silent {A} (c : M A) :
  (forall w, w_trace (snd (c w)) = w_trace w) -> emits P c.
Proof. intros H w. exists []. now rewrite H, app_nil_r. Qed.

End Emits.

Section ApiEvents.
Context (E : Env) (P : event -> Prop).
Hypothesis P_log : forall msg err, P (EvLog msg err).
Hypothesis P_prompt : forall again, P (EvKeyPrompt again).
Hypothesis P_get : forall url kwargs, P (EvGet url PNone kwargs).

Lemma emits_log msg err : emits P (log msg err).
Proof. apply emits_emit, P_log. Qed.

Lemma emits_mkget url kwargs : emits P (mkget url PNone kwargs).
Proof.
  intros w. exists [EvGet url PNone kwargs]. unfold mkget.
  destruct (w_responses w); simpl; (split; [reflexivity |]);
    constructor; auto.
Qed.

Lemma emits_mkpost url kwargs :
  P (EvPost url PNone PNone kwargs) -> emits P (mkpost url PNone PNone kwargs).
Proof.
  intros HP w. exists [EvPost url PNone PNone kwargs]. unfold mkpost.
  destruct (w_responses w); simpl; (split; [reflexivity |]);
    constructor; auto.
Qed.

Lemma emits_validate_api_key key : emits P (validate_api_key E key).
Proof.
  unfold validate_api_key. apply emits_bind; [apply emits_mkget | intros; apply emits_ret].
Qed.

Lemma emits_get_api_key : emits P (get_api_key E).
Proof.
  unfold get_api_key. apply emits_bind; [now apply emits_silent | intros creds].
  destruct (creds !! env_token_key E); [apply emits_ret |].
  apply emits_bind.
  { apply emits_bind; [apply emits_emit, P_prompt | intros; apply emits_ret]. }
  intros key. apply emits_bind; [apply emits_validate_api_key | intros ok].
  apply emits_bind.
  - destruct ok; simpl; [apply emits_ret |].
    apply emits_bind; [apply emits_log | intros _].
    apply emits_bind.
    { apply emits_bind; [apply emits_emit, P_prompt | intros; apply emits_ret]. }
    intros key2. apply emits_bind; [apply emits_validate_api_key | intros ok2].
    destruct ok2; simpl; [apply emits_ret | apply emits_raise].
  - intros k. apply emits_bind; [now apply emits_silent | intros; apply emits_ret].
Qed.

Lemma emits_h : emits P (_h E).
Proof. unfold _h. apply emits_bind; [apply emits_get_api_key | intros; apply emits_ret]. Qed.

Lemma emits_get_undecorated args kwargs : emits P (get_undecorated args kwargs).
Proof.
  unfold get_undecorated, missing_url. apply emits_bind; [apply emits_lift |].
  intros [[|[url|] vs] rest]; try apply emits_raise. apply emits_mkget.
Qed.

(** The retry loop keeps whatever the request and the header rebuild
    keep; [Inv] is what the loop preserves of the keyword arguments. *)
Lemma emits_retry_loop (Inv : gmap string pyval -> Prop) request args :
  (forall kwargs, Inv kwargs -> emits P (request args kwargs)) ->
  (forall kwargs h, Inv kwargs -> Inv (<["headers" := h]> kwargs)) ->
  forall n last kwargs, Inv kwargs -> emits P (retry_loop E n last request args kwargs).
Proof.
  intros Hreq Hinv n. induction n as [|n IH]; intros last kwargs HI; simpl.
  - destruct last; [apply emits_ret | apply emits_raise].
  - apply emits_bind; [now apply Hreq | intros res].
    destruct (status_code res =? 401); [| apply emits_ret].
    apply emits_bind; [apply emits_log | intros _].
    apply emits_bind; [now apply emits_silent | intros _].
    apply emits_bind; [apply emits_h | intros h]. apply IH. now apply Hinv.
Qed.

Lemma emits_get args kwargs : emits P (get E args kwargs).
Proof.
  apply (emits_retry_loop (fun _ => True)); auto.
  intros; apply emits_get_undecorated.
Qed.

Lemma emits_post_undecorated args kwargs :
  (forall url vs rest,
      bind_params "post" ["url"; "data"; "json"] args kwargs = Ret (Some url :: vs, rest) ->
      P (EvPost url PNone PNone rest)) ->
  emits P (post_undecorated args kwargs).
Proof.
  intros HP. unfold post_undecorated, missing_url, bind, lift. intros w.
  destruct (bind_params "post" ["url"; "data"; "json"] args kwargs)
    as [[[|[url|] vs] rest]|e] eqn:Hb; try (exists []; simpl; now rewrite app_nil_r).
  apply emits_mkpost. eapply HP; reflexivity.
Qed.

Lemma emits_post_any args kwargs :
  (forall url rest, P (EvPost url PNone PNone rest)) -> emits P (post E args kwargs).
Proof.
  intros HP. apply (emits_retry_loop (fun _ => True)); auto.
  intros; apply emits_post_undecorated; auto.
Qed.

(** A POST made with keyword arguments only goes to the [url] keyword. *)
Lemma emits_post_url kwargs url :
  kwargs !! "url" = Some url ->
  (forall rest, P (EvPost url PNone PNone rest)) ->
  emits P (post E [] kwargs).
Proof.
  intros Hurl HP.
  apply (emits_retry_loop (fun kw => kw !! "url" = Some url)); auto.
  - intros kw Hkw. apply emits_post_undecorated. simpl.
    intros u vs rest Heq. rewrite Hkw in Heq. injection Heq as <- _ _. apply HP.
  - intros kw h Hkw. now rewrite lookup_insert_ne.
Qed.

Lemma emits_raise_pretty {A} cls prefix res : emits P (@raise_pretty E A cls prefix res).
Proof.
  unfold raise_pretty. apply emits_bind; [apply emits_lift | intros].
  apply emits_bind; [apply emits_lift | intros]. apply emits_raise.
Qed.

Lemma emits_get_gist slug : emits P (get_gist E slug).
Proof.
  unfold get_gist. apply emits_bind; [apply emits_lift | intros path].
  apply emits_bind; [apply emits_h | intros h].
  apply emits_bind; [apply emits_get | intros res].
  destruct (status_code res =? 200).
  - apply emits_bind; [apply emits_lift | intros; apply emits_lift].
  - apply emits_bind; [apply emits_lift | intros].
    apply emits_bind; [apply emits_lift | intros]. apply emits_raise_pretty.
Qed.

Lemma emits_get_gist_access slug : emits P (get_gist_access E slug).
Proof.
  unfold get_gist_access. apply emits_bind; [apply emits_lift | intros path].
  apply emits_bind; [apply emits_lift | intros path'].
  apply emits_bind; [apply emits_h | intros h].
  apply emits_bind; [apply emits_get | intros res].
  destruct (status_code res =? 200).
  - apply emits_bind; [apply emits_lift | intros; apply emits_lift].
  - apply emits_bind; [apply emits_lift | intros].
    apply emits_bind; [apply emits_lift | intros]. apply emits_raise_pretty.
Qed.

(** The one request of [upload_file] goes to the upload endpoint of the
    slug it is given. *)
Lemma emits_upload_file gist_slug file version artifact :
  (forall s rest, gist_slug = PStr s ->
      P (EvPost (PStr (_u E ("/gist/" ++ s ++ "/upload" ++ _v E version))) PNone PNone rest)) ->
  emits P (upload_file E gist_slug file version artifact).
Proof.
  intros HP. unfold upload_file.
  apply emits_bind_lift. intros p1 H1.
  apply emits_bind_lift. intros p2 H2.
  apply emits_bind_lift. intros p3 H3.
  apply emits_bind; [apply emits_h | intros h].
  apply emits_bind.
  - eapply emits_post_url; [reflexivity |]. intros rest.
    destruct gist_slug; try discriminate H1.
    injection H1 as <-. injection H2 as <-. injection H3 as <-.
    specialize (HP s rest eq_refl). simpl py_str.
    rewrite !append_assoc. exact HP.
  - intros res. destruct (status_code res =? 200).
    + apply emits_bind; [apply emits_lift | intros; apply emits_lift].
    + apply emits_raise_pretty.
Qed.

End ApiEvents.

(** * The transport wrapper *)

(** C1, the general fact behind the defect: whatever [get] and [post] are
    called with, every request they hand to the transport has [params]
    (for GET) or [data] and [json] (for POST) equal to [None]; the query
    parameters and the form or JSON payload of the caller are dropped. *)
Theorem get_post_drop_payload (E : Env) (args : list pyval) (kwargs : gmap string pyval) :
  emits payload_free (get E args kwargs) /\ emits payload_free (post E args kwargs).
Proof.
  split.
  - apply emits_get; simpl; auto.
  - apply emits_post_any; simpl; auto.
Qed.

(** [post(url, data={'artifact': 'true'}, headers={})] answered with 200:
    the transport is called with [data=None]. *)
Example post_data_dropped :
  post demo_env [PStr "https://api.jovian.ai/gist/s1/upload"]
       {[ "data" := PDict [("artifact", PStr "true")]; "headers" := PDict [] ]}
       (demo_world [status_only 200])
  = (Ret (status_only 200),
     mkWorld [EvPost (PStr "https://api.jovian.ai/gist/s1/upload") PNone PNone
                     {[ "headers" := PDict [] ]}]
             [] {[ "API_KEY" := "tok" ]} ∅ PNone).
Proof. vm_compute. reflexivity. Qed.

(** [get(url, params={'q': 'x'}, headers={})] answered with 200: the
    transport is called with [params=None]. *)
Example get_params_dropped :
  get demo_env [PStr "https://api.jovian.ai/user/profile"]
      {[ "params" := PDict [("q", PStr "x")]; "headers" := PDict [] ]}
      (demo_world [status_only 200])
  = (Ret (status_only 200),
     mkWorld [EvGet (PStr "https://api.jovian.ai/user/profile") PNone
                    {[ "headers" := PDict [] ]}]
             [] {[ "API_KEY" := "tok" ]} ∅ PNone).
Proof. vm_compute. reflexivity. Qed.

Lemma reauthenticate_step (E : Env) {A} (k : pyval -> M A) w h w' :
  reauthenticate E w = (Ret h, w') ->
  (log "The current API key is invalid or expired." true >>
   purge_api_key E >> let* h := _h E in k h) w = k h w'.
Proof.
  unfold reauthenticate, bind. simpl.
  destruct (_h E _) as [[h0|e] w0]; intros H; inversion H; subst; reflexivity.
Qed.

Lemma reauthenticate_step_raise (E : Env) {A} (k : pyval -> M A) w e w' :
  reauthenticate E w = (Raise e, w') ->
  (log "The current API key is invalid or expired." true >>
   purge_api_key E >> let* h := _h E in k h) w = (Raise e, w').
Proof.
  unfold reauthenticate, bind. simpl.
  destruct (_h E _) as [[h0|e0] w0]; intros H; inversion H; subst; reflexivity.
Qed.

(** C4, as the code has it.  When the wrapped request is answered 401
    twice and the re-authentication after each of them (report, purge the
    key, rebuild the headers) completes, the wrapper runs exactly request,
    re-authentication, request with the fresh headers, re-authentication,
    and returns the second response as it is.  A response with any other
    status is returned at once, with nothing further done.  When a
    re-authentication raises, after the first 401 or after the second,
    the wrapper stops there and that exception reaches the caller in
    place of a response. *)
Theorem retry_twice_on_401 (E : Env)
        (request : list pyval -> gmap string pyval -> M Response)
        (args : list pyval) (kwargs : gmap string pyval) :
  (forall w0 r1 w1 h1 w2 r2 w3 h2 w4,
      request args kwargs w0 = (Ret r1, w1) -> status_code r1 = 401 ->
      reauthenticate E w1 = (Ret h1, w2) ->
      request args (<["headers" := h1]> kwargs) w2 = (Ret r2, w3) -> status_code r2 = 401 ->
      reauthenticate E w3 = (Ret h2, w4) ->
      retry E request args kwargs w0 = (Ret r2, w4))
  /\
  (forall w0 r w1,
      request args kwargs w0 = (Ret r, w1) -> status_code r <> 401 ->
      retry E request args kwargs w0 = (Ret r, w1))
  /\
  (forall w0 r1 w1 e w2,
      request args kwargs w0 = (Ret r1, w1) -> status_code r1 = 401 ->
      reauthenticate E w1 = (Raise e, w2) ->
      retry E request args kwargs w0 = (Raise e, w2))
  /\
  (forall w0 r1 w1 h1 w2 r2 w3 e w4,
      request args kwargs w0 = (Ret r1, w1) -> status_code r1 = 401 ->
      reauthenticate E w1 = (Ret h1, w2) ->
      request args (<["headers" := h1]> kwargs) w2 = (Ret r2, w3) -> status_code r2 = 401 ->
      reauthenticate E w3 = (Raise e, w4) ->
      retry E request args kwargs w0 = (Raise e, w4)).
Proof.
  split; [| split; [| split]].
  - intros w0 r1 w1 h1 w2 r2 w3 h2 w4 Hq1 Hs1 Ha1 Hq2 Hs2 Ha2.
    unfold retry. simpl retry_loop.
    rewrite (bind_Ret _ _ _ _ _ Hq1), Hs1, Z.eqb_refl.
    rewrite (reauthenticate_step E _ _ _ _ Ha1).
    rewrite (bind_Ret _ _ _ _ _ Hq2), Hs2, Z.eqb_refl.
    rewrite (reauthenticate_step E _ _ _ _ Ha2).
    reflexivity.
  - intros w0 r w1 Hq Hs.
    unfold retry. simpl retry_loop.
    rewrite (bind_Ret _ _ _ _ _ Hq).
    destruct (Z.eqb_spec (status_code r) 401); [contradiction | reflexivity].
  - intros w0 r1 w1 e w2 Hq1 Hs1 Ha1.
    unfold retry. simpl retry_loop.
    rewrite (bind_Ret _ _ _ _ _ Hq1), Hs1, Z.eqb_refl.
    now rewrite (reauthenticate_step_raise E _ _ _ _ Ha1).
  - intros w0 r1 w1 h1 w2 r2 w3 e w4 Hq1 Hs1 Ha1 Hq2 Hs2 Ha2.
    unfold retry. simpl retry_loop.
    rewrite (bind_Ret _ _ _ _ _ Hq1), Hs1, Z.eqb_refl.
    rewrite (reauthenticate_step E _ _ _ _ Ha1).
    rewrite (bind_Ret _ _ _ _ _ Hq2), Hs2, Z.eqb_refl.
    now rewrite (reauthenticate_step_raise E _ _ _ _ Ha2).
Qed.

Lemma retry_twice_on_401_witness :
  exists w4,
    get demo_env [PStr "https://api.jovian.ai/gist/s1"] {[ "headers" := PDict [] ]}
        (demo_world two_refusals)
    = (Ret (status_only 401), w4)
    /\ filter (fun e => bool_decide (is_request e = true)) (w_trace w4)
       = [EvGet (PStr "https://api.jovian.ai/gist/s1") PNone {[ "headers" := PDict [] ]};
          EvGet (PStr "https://api.jovian.ai/user/profile") PNone
                {[ "headers" := PDict [("Authorization", PStr "Bearer k1")] ]};
          EvGet (PStr "https://api.jovian.ai/gist/s1") PNone
                {[ "headers" := PDict [("Authorization", PStr "Bearer k1");
                                       ("x-jovian-source", PStr "library");
                                       ("x-jovian-library-version", PStr "0.1.0");
                                       ("x-jovian-guest", PNone);
                                       ("x-jovian-org", PStr "public")] ]};
          EvGet (PStr "https://api.jovian.ai/user/profile") PNone
                {[ "headers" := PDict [("Authorization", PStr "Bearer k1")] ]}].
Proof.
  pose (url := [PStr "https://api.jovian.ai/gist/s1"]).
  pose (kw := ({[ "headers" := PDict [] ]} : gmap string pyval)).
  pose (h := PDict [("Authorization", PStr "Bearer k1");
                    ("x-jovian-source", PStr "library");
                    ("x-jovian-library-version", PStr "0.1.0");
                    ("x-jovian-guest", PNone);
                    ("x-jovian-org", PStr "public")]).
  pose (w1 := snd (get_undecorated url kw (demo_world two_refusals))).
  pose (w2 := snd (reauthenticate demo_env w1)).
  pose (w3 := snd (get_undecorated url (<["headers" := h]> kw) w2)).
  exists (snd (reauthenticate demo_env w3)). split.
  - apply (proj1 (retry_twice_on_401 demo_env get_undecorated url kw))
      with (r1 := status_only 401) (w1 := w1) (h1 := h) (w2 := w2) (w3 := w3) (h2 := h);
      vm_compute; reflexivity.
  - vm_compute. reflexivity.
Defined.

(** C4, as stated, fails: the underlying request is answered 401 twice in
    a row, and the wrapper does not return the second response; the
    re-authentication that follows it raises [ApiError]. *)
Lemma retry_raises_after_second_401 :
  let args := [PStr "https://api.jovian.ai/gist/s1"] in
  let kw : gmap string pyval := {[ "headers" := PDict [] ]} in
  let w0 := demo_world second_reauth_fails in
  exists r1 w1 h1 w2 r2 w3,
    get_undecorated args kw w0 = (Ret r1, w1) /\ status_code r1 = 401 /\
    reauthenticate demo_env w1 = (Ret h1, w2) /\
    get_undecorated args (<["headers" := h1]> kw) w2 = (Ret r2, w3) /\
    status_code r2 = 401 /\
    fst (get demo_env args kw w0)
    = Raise (Exn ApiError "The API key provided is invalid or expired.").
Proof.
  intros args kw w0.
  pose (w1 := snd (get_undecorated args kw w0)).
  pose (h := PDict [("Authorization", PStr "Bearer k1");
                    ("x-jovian-source", PStr "library");
                    ("x-jovian-library-version", PStr "0.1.0");
                    ("x-jovian-guest", PNone);
                    ("x-jovian-org", PStr "public")]).
  pose (w2 := snd (reauthenticate demo_env w1)).
  exists (status_only 401), w1, h, w2, (status_only 401),
         (snd (get_undecorated args (<["headers" := h]> kw) w2)).
  repeat split; vm_compute; reflexivity.
Qed.

(** * Attaching files *)

(** One level of [_attach_files] on a non-empty list of paths. *)
Lemma attach_files_unfold (E : Env) d q qs gist_slug version output :
  _attach_files E (S d) (PathList (q :: qs)) gist_slug version output
  = (log ("Uploading additional " ++ (if output then "outputs" else "files") ++ "...") false >>
     for_each (q :: qs) (fun path =>
       match env_fs E path with
       | Some (FsDir entries) =>
           for_each (os_walk path (FsDir entries)) (fun '(folder, _, files) =>
             for_each files (fun fname =>
               _attach_file E (os_path_join folder fname) gist_slug version output))
       | Some FsFile => _attach_files E d (PathStr path) gist_slug version output
       | None => log ("Ignoring " ++ dq ++ path ++ dq ++ " (not found)") true
       end)).
Proof. reflexivity. Qed.

Lemma for_each_returns {A} (l : list A) (body : A -> M unit) :
  (forall x w, fst (body x w) = Ret tt) -> forall w, fst (for_each l body w) = Ret tt.
Proof.
  intros Hb. induction l as [|x l IH]; intros w; simpl; [reflexivity |].
  unfold bind. specialize (Hb x w). destruct (body x w) as [[[]|e] w']; simpl in Hb.
  - apply IH.
  - discriminate.
Qed.

Lemma for_each_raises {A} (l : list A) (body : A -> M unit) (e0 : exn) (p : A) :
  (forall x w, fst (body x w) = Ret tt \/ fst (body x w) = Raise e0) ->
  (forall w, fst (body p w) = Raise e0) ->
  In p l ->
  forall w, fst (for_each l body w) = Raise e0.
Proof.
  intros Hb Hp. induction l as [|x l IH]; intros Hin w; [destruct Hin |].
  simpl. unfold bind.
  destruct Hin as [-> | Hin].
  - specialize (Hp w). destruct (body p w) as [[[]|e] w']; simpl in Hp;
      [discriminate | exact Hp].
  - destruct (Hb x w) as [H | H]; destruct (body x w) as [[[]|e] w']; simpl in H;
      try discriminate; [now apply IH | exact H].
Qed.

(** An attachment never reaches the upload: [open] fails, or
    [os.path.dirname] is applied to the file object and raises
    [TypeError]; either way the error is caught and logged. *)
Lemma attach_file_logs (E : Env) path gist_slug version output w :
  exists msg,
    _attach_file E path gist_slug version output w
    = (Ret tt, mkWorld (w_trace w ++ [EvLog msg true])%list (w_responses w) (w_creds w)
                       (w_rc w) (w_current_slug w)).
Proof.
  unfold _attach_file, try_except.
  destruct (env_open_error E path) as [m|]; simpl; eexists; reflexivity.
Qed.

Lemma attach_files_of_file_overflows (E : Env) p gist_slug version output :
  env_fs E p = Some FsFile -> p <> "" ->
  forall depth w,
    fst (_attach_files E depth (PathStr p) gist_slug version output w)
    = Raise (Exn RecursionError "maximum recursion depth exceeded").
Proof.
  intros Hfs Hne depth. induction depth as [|d IH]; intros w; [reflexivity |].
  simpl. destruct (String.eqb_spec p ""); [contradiction |].
  unfold bind at 1. simpl. unfold bind at 1. rewrite Hfs.
  specialize (IH (mkWorld
     (w_trace w ++ [EvLog ("Uploading additional " ++ (if output then "outputs" else "files") ++ "...") false])%list
     (w_responses w) (w_creds w) (w_rc w) (w_current_slug w))).
  destruct (_attach_files E d (PathStr p) gist_slug version output _) as [[[]|e] w'];
    simpl in IH; [discriminate | exact IH].
Qed.

(** C2 (code defect).  A list of paths that names an existing regular file
    is never attached: for a regular file [_attach_files] calls itself,
    not [_attach_file], with the same path, so whatever room the call
    stack has, the call ends in [RecursionError]. *)
Theorem attach_files_regular_file_overflows (E : Env) (depth : nat) (paths : list string)
        (p : string) (gist_slug version : pyval) (output : bool) (w : World) :
  In p paths -> env_fs E p = Some FsFile -> p <> "" ->
  fst (_attach_files E depth (PathList paths) gist_slug version output w)
  = Raise (Exn RecursionError "maximum recursion depth exceeded").
Proof.
  intros Hin Hfs Hne. destruct depth as [|d]; [reflexivity |].
  destruct paths as [|q qs]; [destruct Hin |].
  rewrite attach_files_unfold. unfold bind at 1, log at 1, emit at 1.
  apply for_each_raises with (p := p); [| | exact Hin].
  - intros x w0. destruct (env_fs E x) as [[|entries]|] eqn:Hx.
    + destruct d as [|d']; [right; reflexivity |].
      destruct (String.eqb_spec x "") as [-> | Hx0].
      * left. reflexivity.
      * right. now apply attach_files_of_file_overflows.
    + left. apply for_each_returns. intros [[folder dirs] files] w1.
      apply for_each_returns. intros fname w2.
      destruct (attach_file_logs E (os_path_join folder fname) gist_slug version output w2)
        as [msg ->]. reflexivity.
    + left. reflexivity.
  - intros w0. rewrite Hfs. now apply attach_files_of_file_overflows.
Qed.

Lemma attach_files_regular_file_overflows_witness :
  fst (_attach_files demo_env 1000 (PathList ["data"; "README.md"; "missing.txt"])
                     (PStr "s1") (PInt 3) false (demo_world []))
  = Raise (Exn RecursionError "maximum recursion depth exceeded").
Proof.
  apply attach_files_regular_file_overflows with (p := "README.md").
  - simpl. tauto.
  - reflexivity.
  - discriminate.
Defined.

(** * What a commit can emit *)

Ltac emits_step :=
  first
    [ apply emits_ret
    | apply emits_raise
    | apply emits_lift
    | solve [apply emits_silent; intros; reflexivity]
    | solve [apply emits_emit; auto]
    | solve [apply emits_log; auto]
    | solve [apply emits_h; auto]
    | solve [apply emits_get_gist; auto]
    | solve [apply emits_get_gist_access; auto]
    | solve [apply emits_raise_pretty; auto]
    | apply emits_bind; [| intros ?]
    | match goal with
      | |- emits _ (if ?b then _ else _) => destruct b
      | |- emits _ (match ?x with _ => _ end) => destruct x
      end ].

Section CommitEvents.
Context (E : Env) (P : event -> Prop).
Hypothesis P_log : forall msg err, P (EvLog msg err).
Hypothesis P_prompt : forall again, P (EvKeyPrompt again).
Hypothesis P_get : forall url kwargs, P (EvGet url PNone kwargs).
Hypothesis P_save : P EvSaveNotebook.
Hypothesis P_sleep : forall n, P (EvSleep n).
Hypothesis P_conda : forall s v, P (EvCondaCapture s v).
Hypothesis P_pip : forall s v, P (EvPipCapture s v).

Lemma emits_parse_project project filename new_project :
  emits P (_parse_project E project filename new_project).
Proof. unfold _parse_project, api_undefined. repeat emits_step. Qed.

Lemma emits_attach_file path gist_slug version output :
  emits P (_attach_file E path gist_slug version output).
Proof.
  intros w. destruct (attach_file_logs E path gist_slug version output w) as [msg ->].
  exists [EvLog msg true]. simpl. split; [reflexivity | constructor; auto].
Qed.

Lemma emits_attach_files depth :
  forall paths gist_slug version output,
    emits P (_attach_files E depth paths gist_slug version output).
Proof.
  induction depth as [|d IH]; intros paths gist_slug version output.
  - apply emits_raise.
  - cbn [_attach_files].
    match goal with |- emits _ (if ?b then _ else _) => destruct b end;
      [apply emits_ret |].
    apply emits_bind; [apply emits_log; auto | intros _].
    apply emits_for_each. intros path.
    destruct (env_fs E path) as [[|entries]|].
    + apply IH.
    + apply emits_for_each. intros [[folder dirs] files].
      apply emits_for_each. intros fname. apply emits_attach_file.
    + apply emits_log; auto.
Qed.

Lemma emits_capture_environment environment gist_slug version :
  emits P (_capture_environment E environment gist_slug version).
Proof.
  unfold _capture_environment, upload_conda_env, upload_pip_env.
  destruct environment as [environment|]; [| apply emits_ret].
  apply emits_bind; [apply emits_log; auto | intros _].
  apply emits_bind.
  - destruct (_ || _); [| apply emits_ret].
    apply emits_try_except; [| intros e]; repeat emits_step.
  - intros captured. destruct (_ && _); [| apply emits_ret].
    apply emits_try_except; [| intros e]; repeat emits_step.
Qed.

Lemma emits_attach_records gist_slug version :
  emits P (_attach_records E gist_slug version).
Proof. unfold _attach_records, get_record_slugs, api_undefined. repeat emits_step. Qed.

Lemma emits_create_gist_simple filename gist_slug secret :
  (forall s rest, gist_slug = PStr s ->
      P (EvPost (PStr (_u E ("/gist/" ++ s ++ "/upload"))) PNone PNone rest)) ->
  (truthy gist_slug = false ->
   forall rest, P (EvPost (PStr (_u E "/gist/create")) PNone PNone rest)) ->
  emits P (create_gist_simple E filename gist_slug secret).
Proof.
  intros Hup Hcreate. unfold create_gist_simple.
  apply emits_bind; [apply emits_h; auto | intros h].
  destruct (env_open_error E filename); [apply emits_raise |].
  apply emits_bind; [apply emits_log; auto | intros _].
  destruct (truthy gist_slug) eqn:Ht.
  - apply emits_upload_file; auto; intros s rest ->; exact (Hup s rest eq_refl).
  - apply emits_bind.
    + eapply emits_post_url; auto; reflexivity.
    + intros res. repeat emits_step.
Qed.

Lemma emits_commit depth message files outputs environment privacy filename project
      new_project git_commit git_message :
  (forall url rest, P (EvPost url PNone PNone rest)) ->
  emits P (commit E depth message files outputs environment privacy filename project
                  new_project git_commit git_message).
Proof.
  intros P_post. unfold commit.
  destruct (_ && _); [apply emits_log; auto |].
  apply emits_bind; [repeat emits_step | intros _].
  destruct (_parse_filename E filename) as [f|]; [| apply emits_log; auto].
  apply emits_bind; [apply emits_parse_project | intros [title id]].
  apply emits_bind; [apply emits_create_gist_simple; auto | intros res].
  do 4 (apply emits_bind; [apply emits_lift | intros ?]).
  do 2 (apply emits_bind; [solve [apply emits_silent; intros; reflexivity] | intros _]).
  apply emits_bind; [apply emits_capture_environment | intros _].
  do 2 (apply emits_bind; [apply emits_attach_files | intros _]).
  apply emits_bind; [apply emits_attach_records | intros _].
  repeat emits_step.
Qed.

End CommitEvents.

(** * Git and artifacts *)

(** The helper does what the docstring of [commit] promises, when it is
    called inside a git repository with the option on. *)
Lemma perform_git_commit_effects (E : Env) filename git_message w :
  env_is_git E = true ->
  _perform_git_commit E filename true git_message w
  = (Ret tt,
     mkWorld (w_trace w ++
                [EvResetRecords "git"; EvGitCommit git_message;
                 EvLog "Git repository identified. Performing git commit..." false;
                 EvLogGit (PDict [("repository", env_git_remote E);
                                  ("commit", env_git_commit_hash E);
                                  ("filename", PStr filename);
                                  ("path", env_git_relative_path E)]) false])%list
             (w_responses w) (w_creds w) (w_rc w) (w_current_slug w)).
Proof.
  intros Hgit. unfold _perform_git_commit. rewrite Hgit. simpl.
  unfold bind, log, emit. simpl. now rewrite <- !app_assoc.
Qed.

(** C6 (code defect).  [commit] never calls [_perform_git_commit]: whatever
    its arguments, also with [git_commit=True] inside a git repository, it
    performs no git commit, resets no git records and logs no git record. *)
Theorem commit_never_commits_to_git (E : Env) (depth : nat) (message : pyval)
        (files outputs : paths_arg) (environment : option string) (privacy : pyval)
        (filename : option string) (project : pyval) (new_project git_commit : bool)
        (git_message : pyval) :
  emits (fun e => git_event e = false)
        (commit E depth message files outputs environment privacy filename project
                new_project git_commit git_message).
Proof. apply emits_commit; intros; reflexivity. Qed.

(** A commit with [git_commit=True] in a git repository that runs to its
    success message: the trace holds no git event. *)
Example commit_in_git_repository :
  env_is_git demo_env = true /\
  commit demo_env 100 (PStr "v1") (PathList []) (PathList []) (Some "pip") (PStr "auto")
         None PNone false true (PStr "auto") (demo_world [ok_json gist_data])
  = (Ret tt,
     mkWorld [EvLog "Uploading notebook.." false;
              EvPost (PStr "https://api.jovian.ai/gist/create") PNone PNone
                     {[ "files" := PDict [("files", PTuple [PStr "train.py"; PFile "train.py"])];
                        "headers" := PDict [("Authorization", PStr "Bearer tok");
                                            ("x-jovian-source", PStr "library");
                                            ("x-jovian-library-version", PStr "0.1.0");
                                            ("x-jovian-guest", PNone);
                                            ("x-jovian-org", PStr "public")] ]};
              EvLog "Capturing environment.." false;
              EvPipCapture (PStr "s1") (PInt 3);
              EvLog "Committed successfully! https://jovian.ml/alice/demo" false]
             [] {[ "API_KEY" := "tok" ]} {[ "train.py" := PStr "s1" ]} (PStr "s1")).
Proof. split; vm_compute; reflexivity. Qed.

(** C7 (code defect).  No attachment is uploaded as an artifact: attaching
    paths issues no request at all, whatever [output] is, and no request
    of a whole [commit] carries the artifact marker in its form data. *)
Theorem commit_never_marks_artifacts (E : Env) (depth : nat) (message : pyval)
        (files outputs : paths_arg) (environment : option string) (privacy : pyval)
        (filename : option string) (project : pyval) (new_project git_commit : bool)
        (git_message : pyval) :
  (forall paths gist_slug version output,
      emits (fun e => is_request e = false)
            (_attach_files E depth paths gist_slug version output))
  /\
  emits (fun e => artifact_marked e = false)
        (commit E depth message files outputs environment privacy filename project
                new_project git_commit git_message).
Proof.
  split.
  - intros. apply emits_attach_files. reflexivity.
  - apply emits_commit; intros; reflexivity.
Qed.

(** [commit(outputs=["data"])] where [data] is a directory with two files:
    every attachment attempt ends in a logged [TypeError], and the only
    request is the upload of the script itself. *)
Example commit_with_outputs :
  commit demo_env 100 PNone (PathList []) (PathList ["data"]) None (PStr "auto")
         None PNone false true (PStr "auto") (demo_world [ok_json gist_data])
  = (Ret tt,
     mkWorld [EvLog "Uploading notebook.." false;
              EvPost (PStr "https://api.jovian.ai/gist/create") PNone PNone
                     {[ "files" := PDict [("files", PTuple [PStr "train.py"; PFile "train.py"])];
                        "headers" := PDict [("Authorization", PStr "Bearer tok");
                                            ("x-jovian-source", PStr "library");
                                            ("x-jovian-library-version", PStr "0.1.0");
                                            ("x-jovian-guest", PNone);
                                            ("x-jovian-org", PStr "public")] ]};
              EvLog "Uploading additional files..." false;
              EvLog "expected str, bytes or os.PathLike object" true;
              EvLog "expected str, bytes or os.PathLike object" true;
              EvLog "Committed successfully! https://jovian.ml/alice/demo" false]
             [] {[ "API_KEY" := "tok" ]} {[ "train.py" := PStr "s1" ]} (PStr "s1")).
Proof. vm_compute. reflexivity. Qed.

(** * The project resolver *)

(** C8 (code defect).  A bare title (no owner separator, not an id) is
    never looked up: the resolver asks the module [api] for
    [get_current_user], which [api.py] does not define, so it raises
    [AttributeError] before any request is made and the world is left as
    it was. *)
Theorem parse_project_bare_title_raises (E : Env) (p filename : string)
        (new_project : bool) (w : World) :
  env_is_uuid E (PStr p) = false ->
  substring_of "/" p = false ->
  _parse_project E (PStr p) filename new_project w
  = (Raise (Exn AttributeError
                "module 'jovian.utils.api' has no attribute 'get_current_user'"), w).
Proof.
  intros Huuid Hslash. unfold _parse_project.
  replace (negb new_project && is_none (PStr p)) with false
    by (destruct new_project; reflexivity).
  cbv beta iota delta [bind ret lift is_none py_contains].
  rewrite Huuid. cbv beta iota. rewrite Hslash. reflexivity.
Qed.

Lemma parse_project_bare_title_raises_witness :
  _parse_project demo_env (PStr "jovian-example") "train.py" false
                 (demo_world [ok_json gist_data])
  = (Raise (Exn AttributeError
                "module 'jovian.utils.api' has no attribute 'get_current_user'"),
     demo_world [ok_json gist_data]).
Proof.
  apply parse_project_bare_title_raises; reflexivity.
Defined.

(** The first [if] of [_parse_project] reads the world and leaves it as it
    is. *)
Lemma local_lookup_run (project : pyval) (filename : string) (new_project : bool) w :
  (if negb new_project && is_none project then
     let* current := read_current_slug in
     if negb (is_none current) then ret current
     else get_notebook_slug filename
   else ret project) w
  = (Ret (local_project project filename new_project w), w).
Proof.
  unfold local_project. destruct (negb new_project && is_none project); [| reflexivity].
  unfold bind, read_current_slug. destruct (negb (is_none (w_current_slug w))); reflexivity.
Qed.

Lemma direct_run (E : Env) (pj : pyval) w :
  (if env_is_uuid E pj then Ret true else py_contains "/" pj) = Ret true ->
  (if env_is_uuid E pj then ret true else lift (py_contains "/" pj)) w = (Ret true, w).
Proof. destruct (env_is_uuid E pj); [reflexivity |]. intros ->. reflexivity. Qed.

(** C9.  Whatever identifier the resolver goes on with (the explicit
    name, the last slug used or the rc entry), once its metadata has been
    fetched and the check-access query for the slug in that metadata
    reports a false [write], the resolver returns [(None, None)]. *)
Theorem parse_project_without_write_access (E : Env) (project : pyval) (filename : string)
        (new_project : bool) (w w1 w2 : World)
        (pj md owner username title name id perms can_write : pyval) :
  local_project project filename new_project w = pj ->
  is_none pj = false ->
  (if env_is_uuid E pj then Ret true else py_contains "/" pj) = Ret true ->
  get_gist E pj w = (Ret md, w1) ->
  truthy md = true ->
  getitem md "owner" = Ret owner ->
  getitem owner "username" = Ret username ->
  getitem md "title" = Ret title ->
  py_add username title = Ret name ->
  getitem md "slug" = Ret id ->
  get_gist_access E id w1 = (Ret perms, w2) ->
  getitem perms "write" = Ret can_write ->
  truthy can_write = false ->
  _parse_project E project filename new_project w = (Ret (PNone, PNone), w2).
Proof.
  intros Hpj Hnone Hdirect Hmd Htruthy Howner Huser Htitle Hname Hid Hacc Hwrite Hno.
  unfold _parse_project.
  run (local_lookup_run project filename new_project w). rewrite Hpj, Hnone.
  run (direct_run E pj w Hdirect).
  run Hmd. rewrite Htruthy. cbn [negb].
  run_pure Howner. run_pure Huser. run_pure Htitle. run_pure Hname. run_pure Hid.
  run Hacc. run_pure Hwrite. rewrite Hno. reflexivity.
Qed.

Lemma parse_project_without_write_access_witness :
  exists w2,
    _parse_project demo_env (PStr "alice/demo") "train.py" false
                   (demo_world [ok_json gist_data; ok_json read_only])
    = (Ret (PNone, PNone), w2)
    /\ w_responses w2 = [].
Proof.
  pose (w := demo_world [ok_json gist_data; ok_json read_only]).
  pose (w1 := snd (get_gist demo_env (PStr "alice/demo") w)).
  exists (snd (get_gist_access demo_env (PStr "s1") w1)). split.
  - apply parse_project_without_write_access
      with (w1 := w1) (pj := PStr "alice/demo") (md := gist_data)
           (owner := PDict [("username", PStr "alice")]) (username := PStr "alice")
           (title := PStr "demo") (name := PStr "alicedemo") (id := PStr "s1")
           (perms := read_only) (can_write := PBool false);
      vm_compute; reflexivity.
  - vm_compute. reflexivity.
Defined.

(** What the resolver does handle: metadata that was fetched but is
    falsy (a 200 response whose [data] is null or empty) is logged and
    answered with [(None, None)]. *)
Lemma parse_project_falsy_metadata (E : Env) (project : pyval) (filename p : string)
      (new_project : bool) (w w1 : World) (md : pyval) :
  local_project project filename new_project w = PStr p ->
  (if env_is_uuid E (PStr p) then Ret true else py_contains "/" (PStr p)) = Ret true ->
  get_gist E (PStr p) w = (Ret md, w1) ->
  truthy md = false ->
  _parse_project E project filename new_project w
  = (Ret (PNone, PNone),
     logged (("Failed to retrieve metadata for the project " ++ dq) ++ p ++ dq) false w1).
Proof.
  intros Hpj Hdirect Hmd Hfalsy. unfold _parse_project.
  run (local_lookup_run project filename new_project w). rewrite Hpj. cbn [is_none].
  run (direct_run E (PStr p) w Hdirect).
  run Hmd. rewrite Hfalsy. cbn [negb py_add]. rewrite !bind_lift_Ret. cbn [py_add].
  rewrite bind_lift_Ret. cbn [py_str]. rewrite run_log, append_assoc. reflexivity.
Qed.

Lemma raise_pretty_raises (E : Env) {A} cls prefix res w :
  exists e, @raise_pretty E A cls (PStr prefix) res w = (Raise e, w)
            /\ (exn_cls e = cls \/ exn_cls e = TypeError).
Proof.
  unfold raise_pretty, _pretty, bind, lift.
  destruct (_msg res); simpl; eexists; (split; [reflexivity |]); simpl; auto.
Qed.

(** C5 (code defect).  When the metadata request for the identifier is
    answered with a status other than 200 (404 for a project that does not
    exist), [get_gist] raises and the resolver lets the exception through:
    it does not log and return [(None, None)]. *)
Theorem parse_project_not_found_raises (E : Env) (project : pyval) (filename p : string)
        (new_project : bool) (w w1 w2 : World) (h : pyval) (res : Response) :
  local_project project filename new_project w = PStr p ->
  (if env_is_uuid E (PStr p) then Ret true else py_contains "/" (PStr p)) = Ret true ->
  _h E w = (Ret h, w1) ->
  get E [] {[ "url" := PStr (_u E ("/gist/" ++ p)); "headers" := h ]} w1 = (Ret res, w2) ->
  status_code res <> 200 ->
  exists e,
    _parse_project E project filename new_project w = (Raise e, w2)
    /\ (exn_cls e = Exception \/ exn_cls e = TypeError).
Proof.
  intros Hpj Hdirect Hh Hget Hstatus.
  assert (Hgist : exists e, get_gist E (PStr p) w = (Raise e, w2)
                            /\ (exn_cls e = Exception \/ exn_cls e = TypeError)).
  { unfold get_gist. cbn [py_add]. rewrite bind_lift_Ret. cbn [py_str].
    run Hh. run Hget.
    destruct (Z.eqb_spec (status_code res) 200); [contradiction |].
    rewrite !bind_lift_Ret. apply raise_pretty_raises. }
  destruct Hgist as (e & Hgist & Hcls). exists e. split; [| exact Hcls].
  unfold _parse_project.
  run (local_lookup_run project filename new_project w). rewrite Hpj. cbn [is_none].
  run (direct_run E (PStr p) w Hdirect).
  now run Hgist.
Qed.

Lemma parse_project_not_found_raises_witness :
  exists e,
    _parse_project demo_env (PStr "alice/missing") "train.py" false (demo_world [not_found])
    = (Raise e, snd (get_gist demo_env (PStr "alice/missing") (demo_world [not_found])))
    /\ (exn_cls e = Exception \/ exn_cls e = TypeError).
Proof.
  apply (parse_project_not_found_raises demo_env (PStr "alice/missing") "train.py"
           "alice/missing" false (demo_world [not_found]) (demo_world [not_found])
           (snd (get_gist demo_env (PStr "alice/missing") (demo_world [not_found])))
           (PDict [("Authorization", PStr "Bearer tok");
                   ("x-jovian-source", PStr "library");
                   ("x-jovian-library-version", PStr "0.1.0");
                   ("x-jovian-guest", PNone);
                   ("x-jovian-org", PStr "public")])
           not_found).
  - vm_compute. reflexivity.
  - vm_compute. reflexivity.
  - vm_compute. reflexivity.
  - vm_compute. reflexivity.
  - vm_compute. discriminate.
Defined.

(** The same failure seen from [commit]: the exception leaves [commit]
    and no project is created. *)
Example commit_to_missing_project :
  commit demo_env 100 PNone (PathList []) (PathList []) None (PStr "auto") None
         (PStr "alice/missing") false true (PStr "auto")
         (demo_world [not_found; ok_json gist_data])
  = (Raise (Exn Exception
       ("Failed to retrieve metadata for notebook " ++ dq ++ "alice/missing" ++ dq ++
        ": (HTTP 404) Gist not found")),
     mkWorld [EvGet (PStr "https://api.jovian.ai/gist/alice/missing") PNone
                    {[ "headers" := PDict [("Authorization", PStr "Bearer tok");
                                           ("x-jovian-source", PStr "library");
                                           ("x-jovian-library-version", PStr "0.1.0");
                                           ("x-jovian-guest", PNone);
                                           ("x-jovian-org", PStr "public")] ]}]
             [ok_json gist_data] {[ "API_KEY" := "tok" ]} ∅ PNone).
Proof. vm_compute. reflexivity. Qed.

(** * Committing to a named project *)

Lemma extends_bind (P : event -> Prop) pre {A B} (c : M A) (k : A -> M B) w :
  extends P pre c w -> (forall a, emits P (k a)) -> extends P pre (bind c k) w.
Proof.
  intros (evs & Ht & HP) Hk. unfold extends, bind.
  destruct (c w) as [[a|e] w']; simpl in *.
  - destruct (Hk a w') as (evs2 & Ht2 & HP2).
    exists (evs ++ evs2)%list. split.
    + now rewrite Ht2, Ht, app_assoc.
    + now apply Forall_app.
  - now exists evs.
Qed.

Lemma h_cached (E : Env) key w :
  w_creds w !! env_token_key E = Some key -> _h E w = (Ret (auth_headers E key), w).
Proof.
  intros H. unfold _h, get_api_key, bind, read_creds. rewrite H. reflexivity.
Qed.

Lemma prelude_run (E : Env) w :
  (if env_in_notebook E then
     log "Attempting to save notebook.." false >> emit EvSaveNotebook >> emit (EvSleep 1)
   else ret tt) w
  = (Ret tt, after_save E w).
Proof.
  unfold after_save. destruct (env_in_notebook E); [| reflexivity].
  unfold bind, log, emit, ret. simpl. now rewrite <- !app_assoc.
Qed.

Lemma length_append (a b : string) :
  String.length (a ++ b) = (String.length a + String.length b)%nat.
Proof.
  induction a as [|c a IH]; [reflexivity |].
  change (S (String.length (a ++ b)) = S (String.length a + String.length b)).
  now rewrite IH.
Qed.

Lemma upload_is_not_create (E : Env) s url data json rest :
  url = PStr (_u E ("/gist/" ++ s ++ "/upload")) ->
  creates_project E (EvPost url data json rest) = false.
Proof.
  intros ->. unfold creates_project, _u.
  destruct (String.eqb_spec (env_api_url E ++ "/gist/" ++ s ++ "/upload")
                            (env_api_url E ++ "/gist/create")) as [Heq|]; [| reflexivity].
  apply String.app_inj in Heq.
  change ("/gist/" ++ (s ++ "/upload") = "/gist/" ++ "create")%string in Heq.
  apply String.app_inj in Heq.
  apply (f_equal String.length) in Heq. rewrite length_append in Heq.
  simpl in Heq. lia.
Qed.

Lemma retry_loop_S (E : Env) n last request args kwargs :
  retry_loop E (S n) last request args kwargs
  = (let* res := request args kwargs in
     if status_code res =? 401 then
       log "The current API key is invalid or expired." true >>
       purge_api_key E >>
       let* h := _h E in
       retry_loop E n (Some res) request args (<["headers" := h]> kwargs)
     else ret res).
Proof. reflexivity. Qed.

Section Attach.
Context (E : Env) (P : event -> Prop).
Hypothesis P_log : forall msg err, P (EvLog msg err).
Hypothesis P_prompt : forall again, P (EvKeyPrompt again).
Hypothesis P_get : forall url kwargs, P (EvGet url PNone kwargs).

(** A GET with keyword arguments only starts with the request to its
    [url]. *)
Lemma get_first_event kwargs url w :
  kwargs !! "url" = Some url ->
  extends P (w_trace w ++ [EvGet url PNone (delete "params" (delete "url" kwargs))])%list
          (get E [] kwargs) w.
Proof.
  intros Hurl.
  unfold get, retry. rewrite retry_loop_S. apply extends_bind.
  - unfold get_undecorated, extends. cbn [bind_params]. rewrite bind_lift_Ret, Hurl.
    exists []. unfold mkget. destruct (w_responses w); simpl;
      (split; [now rewrite app_nil_r | constructor]).
  - intros res. destruct (status_code res =? 401); [| apply emits_ret].
    apply emits_bind; [apply emits_log; auto | intros _].
    apply emits_bind; [now apply emits_silent | intros _].
    apply emits_bind; [apply emits_h; auto | intros h].
    apply (emits_retry_loop E P P_log P_prompt P_get (fun _ => True)); auto.
    intros; apply emits_get_undecorated; auto.
Qed.

End Attach.

(** The half of C8 that holds: a name with an owner separator, or an id,
    is fetched as it is; with a cached key the first thing the resolver
    does is the GET of [/gist/<name>]. *)
Lemma parse_project_qualified_name_fetched_directly (E : Env) (p filename key : string)
      (new_project : bool) (w : World) :
  (if env_is_uuid E (PStr p) then Ret true else py_contains "/" (PStr p)) = Ret true ->
  w_creds w !! env_token_key E = Some key ->
  exists evs,
    w_trace (snd (_parse_project E (PStr p) filename new_project w))
    = (w_trace w ++ EvGet (PStr (_u E ("/gist/" ++ p))) PNone
                          {[ "headers" := auth_headers E key ]} :: evs)%list.
Proof.
  intros Hdirect Hkey.
  assert (Hext : extends (fun _ => True)
                         (w_trace w ++ [EvGet (PStr (_u E ("/gist/" ++ p))) PNone
                                              {[ "headers" := auth_headers E key ]}])%list
                         (_parse_project E (PStr p) filename new_project) w).
  { unfold _parse_project, extends.
    run (local_lookup_run (PStr p) filename new_project w).
    replace (local_project (PStr p) filename new_project w) with (PStr p)
      by (unfold local_project; destruct new_project; reflexivity).
    cbn [is_none]. run (direct_run E (PStr p) w Hdirect).
    fold (extends (fun _ : event => True)). apply extends_bind.
    - unfold get_gist, extends. cbn [py_add]. rewrite bind_lift_Ret. cbn [py_str].
      run (h_cached E key w Hkey).
      fold (extends (fun _ : event => True)). apply extends_bind.
      + replace ({[ "headers" := auth_headers E key ]} : gmap string pyval)
          with (delete "params" (delete "url"
                  ({[ "url" := PStr (_u E ("/gist/" ++ p));
                      "headers" := auth_headers E key ]} : gmap string pyval))).
        * apply get_first_event; auto; reflexivity.
        * rewrite delete_insert_eq, !delete_singleton_ne by discriminate. reflexivity.
      + intros res. destruct (status_code res =? 200).
        * apply emits_bind; [apply emits_lift | intros; apply emits_lift].
        * apply emits_bind; [apply emits_lift | intros].
          apply emits_bind; [apply emits_lift | intros]. apply emits_raise_pretty.
    - intros metadata. unfold api_undefined. repeat emits_step. }
  destruct Hext as (evs & Ht & _). exists evs. rewrite Ht. now rewrite <- app_assoc.
Qed.

Lemma parse_project_bare_title_run (E : Env) (p filename : string) (new_project : bool) w :
  env_is_uuid E (PStr p) = false ->
  substring_of "/" p = false ->
  _parse_project E (PStr p) filename new_project w
  = (Raise (Exn AttributeError
                "module 'jovian.utils.api' has no attribute 'get_current_user'"), w).
Proof.
  intros Huuid Hslash. unfold _parse_project.
  replace (negb new_project && is_none (PStr p)) with false
    by (destruct new_project; reflexivity).
  cbv beta iota delta [bind ret lift is_none py_contains].
  rewrite Huuid. cbv beta iota. rewrite Hslash. reflexivity.
Qed.

(** C10 (code defect).  An explicit project name given as a bare title
    (no owner separator, not an id) together with [new_project=True]: the
    commit does not resolve the name against the service and attaches to
    nothing.  After the save prelude the resolver asks the module [api]
    for [get_current_user], which [api.py] does not define, and the
    [AttributeError] leaves [commit] before any request is made.  This is
    the defect of C8, met from [commit]. *)
Theorem commit_new_project_bare_title_raises (E : Env) (depth : nat) (message : pyval)
        (files outputs : paths_arg) (environment : option string) (privacy : pyval)
        (filename : option string) (f p : string) (git_commit : bool)
        (git_message : pyval) (w : World) :
  env_in_script E || env_in_notebook E = true ->
  _parse_filename E filename = Some f ->
  env_is_uuid E (PStr p) = false ->
  substring_of "/" p = false ->
  commit E depth message files outputs environment privacy filename (PStr p) true
         git_commit git_message w
  = (Raise (Exn AttributeError
                "module 'jovian.utils.api' has no attribute 'get_current_user'"),
     after_save E w).
Proof.
  intros Hctx Hfn Huuid Hslash. unfold commit.
  replace (negb (env_in_script E) && negb (env_in_notebook E)) with false
    by (destruct (env_in_script E), (env_in_notebook E); simpl in *; congruence).
  run (prelude_run E w). rewrite Hfn.
  now run (parse_project_bare_title_run E p f true (after_save E w) Huuid Hslash).
Qed.

Lemma commit_new_project_bare_title_raises_witness :
  commit demo_env 100 PNone (PathList []) (PathList []) None (PStr "auto") None
         (PStr "demo") true true (PStr "auto")
         (demo_world [ok_json gist_data; ok_json read_write; ok_json gist_data])
  = (Raise (Exn AttributeError
                "module 'jovian.utils.api' has no attribute 'get_current_user'"),
     demo_world [ok_json gist_data; ok_json read_write; ok_json gist_data]).
Proof.
  exact (commit_new_project_bare_title_raises demo_env 100 PNone (PathList []) (PathList [])
           None (PStr "auto") None "train.py" "demo" true (PStr "auto")
           (demo_world [ok_json gist_data; ok_json read_write; ok_json gist_data])
           eq_refl eq_refl eq_refl eq_refl).
Defined.

(** * Failures of the later steps *)

(** C3, as stated, fails.  A failing record flush is not caught: the
    exception leaves [commit] and the success message is never logged.
    The same holds for a conda capture that fails with anything but
    [CondaError], and for the attach call made when a record is pending. *)
Lemma commit_uncaught_step_failures :
  commit (demo_env_with None None (inl (Exn ApiError "Data logging failed: (HTTP 500) oops")))
         100 PNone (PathList []) (PathList []) None (PStr "auto") None PNone false true
         (PStr "auto") (demo_world [ok_json gist_data])
  = (Raise (Exn ApiError "Data logging failed: (HTTP 500) oops"),
     mkWorld [EvLog "Uploading notebook.." false;
              EvPost (PStr "https://api.jovian.ai/gist/create") PNone PNone
                     {[ "files" := PDict [("files", PTuple [PStr "train.py"; PFile "train.py"])];
                        "headers" := PDict [("Authorization", PStr "Bearer tok");
                                            ("x-jovian-source", PStr "library");
                                            ("x-jovian-library-version", PStr "0.1.0");
                                            ("x-jovian-guest", PNone);
                                            ("x-jovian-org", PStr "public")] ]}]
             [] {[ "API_KEY" := "tok" ]} {[ "train.py" := PStr "s1" ]} (PStr "s1"))
  /\
  commit (demo_env_with (Some (Exn ApiError "File upload failed: (HTTP 500) oops")) None (inr []))
         100 PNone (PathList ["data"]) (PathList []) (Some "conda") (PStr "auto") None PNone
         false true (PStr "auto") (demo_world [ok_json gist_data])
  = (Raise (Exn ApiError "File upload failed: (HTTP 500) oops"),
     mkWorld [EvLog "Uploading notebook.." false;
              EvPost (PStr "https://api.jovian.ai/gist/create") PNone PNone
                     {[ "files" := PDict [("files", PTuple [PStr "train.py"; PFile "train.py"])];
                        "headers" := PDict [("Authorization", PStr "Bearer tok");
                                            ("x-jovian-source", PStr "library");
                                            ("x-jovian-library-version", PStr "0.1.0");
                                            ("x-jovian-guest", PNone);
                                            ("x-jovian-org", PStr "public")] ]};
              EvLog "Capturing environment.." false;
              EvCondaCapture (PStr "s1") (PInt 3)]
             [] {[ "API_KEY" := "tok" ]} {[ "train.py" := PStr "s1" ]} (PStr "s1"))
  /\
  fst (commit (demo_env_with None None (inr [PStr "record-1"]))
              100 PNone (PathList []) (PathList []) None (PStr "auto") None PNone false true
              (PStr "auto") (demo_world [ok_json gist_data]))
  = Raise (Exn AttributeError "module 'jovian.utils.api' has no attribute 'post_records'").
Proof. repeat split; vm_compute; reflexivity. Qed.

Lemma attach_records_nothing (E : Env) gist_slug version w :
  env_record_slugs E = inr [] -> _attach_records E gist_slug version w = (Ret tt, w).
Proof. intros H. unfold _attach_records, get_record_slugs. rewrite H. reflexivity. Qed.

(** * Further properties: the error surface *)

(** X1.  Which message [_msg] extracts from a JSON object: the message of
    the first entry of a non-empty [errors] list; failing that entry's
    message, the raw text (the top-level [message] is not consulted);
    with no or an empty [errors], the top-level [message], then [msg]. *)
Theorem msg_precedence (res : Response) (kvs : list (string * pyval)) :
  json_body res = Some (PDict kvs) ->
  (forall first others m,
      assoc "errors" kvs = Some (PList (PDict first :: others)) ->
      assoc "message" first = Some m -> _msg res = m)
  /\ (forall first others,
         assoc "errors" kvs = Some (PList (PDict first :: others)) ->
         assoc "message" first = None ->
         _msg res = PStr (if String.eqb (text res) "" then "Something went wrong"
                          else text res))
  /\ (assoc "errors" kvs = None \/ assoc "errors" kvs = Some (PList []) ->
      forall m, assoc "message" kvs = Some m -> _msg res = m)
  /\ (assoc "errors" kvs = None \/ assoc "errors" kvs = Some (PList []) ->
      assoc "message" kvs = None ->
      forall m, assoc "msg" kvs = Some m -> _msg res = m).
Proof.
  intros Hbody. unfold _msg, _msg_body. rewrite Hbody. cbn [py_contains getitem].
  repeat split.
  - intros first others m He Hm. rewrite He. cbn. now rewrite Hm.
  - intros first others He Hm. rewrite He. cbn. rewrite Hm.
    now destruct (String.eqb (text res) "").
  - intros [He | He] m Hm; rewrite He; cbn; now rewrite Hm.
  - intros [He | He] Hm m Hmsg; rewrite He; cbn; now rewrite Hm, Hmsg.
Qed.

Lemma msg_precedence_witness :
  _msg (json_response 422
          (PDict [("errors", PList [PDict [("message", PStr "Title is taken")]]);
                  ("message", PStr "Validation failed")]))
  = PStr "Title is taken".
Proof.
  exact (proj1 (msg_precedence
                  (json_response 422
                     (PDict [("errors", PList [PDict [("message", PStr "Title is taken")]]);
                             ("message", PStr "Validation failed")]))
                  [("errors", PList [PDict [("message", PStr "Title is taken")]]);
                   ("message", PStr "Validation failed")] eq_refl)
               [("message", PStr "Title is taken")] [] (PStr "Title is taken")
               eq_refl eq_refl).
Defined.

(** X2.  For a response that is not JSON, [_pretty] gives the status and
    the raw text, or a fixed phrase when the text is empty. *)
Theorem pretty_of_text_response (E : Env) (res : Response) :
  json_body res = None ->
  _pretty E res
  = Ret (PStr (("(HTTP " ++ pretty (status_code res) ++ ") ")
               ++ (if String.eqb (text res) "" then "Something went wrong" else text res))).
Proof.
  intros Hbody. unfold _pretty, _msg, _msg_body. rewrite Hbody.
  now destruct (String.eqb (text res) "").
Qed.

Lemma pretty_of_text_response_witness :
  _pretty demo_env (text_response 502 "Bad Gateway") = Ret (PStr "(HTTP 502) Bad Gateway")
  /\ _pretty demo_env (text_response 500 "") = Ret (PStr "(HTTP 500) Something went wrong").
Proof.
  split.
  - exact (pretty_of_text_response demo_env (text_response 502 "Bad Gateway") eq_refl).
  - exact (pretty_of_text_response demo_env (text_response 500 "") eq_refl).
Defined.

(** X3.  A JSON object with none of [errors], [message] and [msg] makes
    [_msg] return [None], so building the error message fails: what is
    raised is a [TypeError], not the error class of the caller. *)
Theorem raise_pretty_without_message (E : Env) (cls : exn_class) (prefix : string)
        (res : Response) (kvs : list (string * pyval)) (w : World) :
  json_body res = Some (PDict kvs) ->
  assoc "errors" kvs = None ->
  assoc "message" kvs = None ->
  assoc "msg" kvs = None ->
  _msg res = PNone
  /\ @raise_pretty E pyval cls (PStr prefix) res w
     = (Raise (Exn TypeError "unsupported operand type(s) for +"), w).
Proof.
  intros Hbody He Hm Hmsg.
  assert (H : _msg res = PNone).
  { unfold _msg, _msg_body. rewrite Hbody. cbn [py_contains]. now rewrite He, Hm, Hmsg. }
  split; [exact H |]. unfold raise_pretty, _pretty. rewrite H. reflexivity.
Qed.

Lemma raise_pretty_without_message_witness :
  @raise_pretty demo_env pyval ApiError (PStr "File upload failed: ")
                (json_response 500 (PDict [("status", PStr "error")])) (demo_world [])
  = (Raise (Exn TypeError "unsupported operand type(s) for +"), demo_world []).
Proof.
  exact (proj2 (raise_pretty_without_message demo_env ApiError "File upload failed: "
                  (json_response 500 (PDict [("status", PStr "error")]))
                  [("status", PStr "error")] (demo_world [])
                  eq_refl eq_refl eq_refl eq_refl)).
Defined.

(** * Further properties: the API key *)

(** X4.  A cached key is returned as it is: no prompt, no validation
    request, nothing changed; the headers are built around it. *)
Theorem get_api_key_cached (E : Env) (key : string) (w : World) :
  w_creds w !! env_token_key E = Some key ->
  get_api_key E w = (Ret key, w) /\ _h E w = (Ret (auth_headers E key), w).
Proof.
  intros H. split; [| now apply h_cached].
  unfold get_api_key, bind, read_creds. now rewrite H.
Qed.

Lemma get_api_key_cached_witness :
  get_api_key demo_env (demo_world [status_only 401]) = (Ret "tok", demo_world [status_only 401]).
Proof.
  exact (proj1 (get_api_key_cached demo_env "tok" (demo_world [status_only 401]) eq_refl)).
Defined.

Ltac key_cases H :=
  cbv beta iota delta [get_api_key bind read_creds read_or_request_api_key request_api_key
                         validate_api_key mkget write_api_key log emit ret raise] in H;
  cbn [w_trace w_responses w_creds w_rc w_current_slug] in H.

(** X5.  When [get_api_key] returns a key, that key is in the store
    afterwards, so asking again returns the same key and changes nothing;
    and if no key was cached before, the key is one of the two the user
    was asked for and the store has gained exactly that entry. *)
Theorem get_api_key_settles (E : Env) (key : string) (w w' : World) :
  get_api_key E w = (Ret key, w') ->
  w_creds w' !! env_token_key E = Some key
  /\ get_api_key E w' = (Ret key, w')
  /\ (w_creds w !! env_token_key E = None ->
      (key = env_first_key E \/ key = env_second_key E)
      /\ w_creds w' = <[env_token_key E := key]> (w_creds w)).
Proof.
  intros H.
  assert (Hgoal : w_creds w' !! env_token_key E = Some key
                  /\ (w_creds w !! env_token_key E = None ->
                      (key = env_first_key E \/ key = env_second_key E)
                      /\ w_creds w' = <[env_token_key E := key]> (w_creds w))).
  { key_cases H.
    destruct (w_creds w !! env_token_key E) as [k|] eqn:Hc.
    { injection H as <- <-. split; [exact Hc | discriminate]. }
    destruct (w_responses w) as [|r1 rs]; [discriminate |].
    cbn [w_trace w_responses w_creds w_rc w_current_slug] in H.
    destruct (status_code r1 =? 200); cbn [negb] in H.
    { injection H as <- <-. cbn [w_creds]. rewrite lookup_insert_eq. auto. }
    cbn [w_trace w_responses w_creds w_rc w_current_slug] in H.
    destruct rs as [|r2 rs]; [discriminate |].
    cbn [w_trace w_responses w_creds w_rc w_current_slug] in H.
    destruct (status_code r2 =? 200); cbn [negb] in H; [| discriminate].
    injection H as <- <-. cbn [w_creds]. rewrite lookup_insert_eq. auto. }
  destruct Hgoal as [Hin Hnew]. repeat split; try exact Hin; try apply Hnew; auto.
  unfold get_api_key, bind, read_creds. now rewrite Hin.
Qed.

Lemma get_api_key_settles_witness :
  let w := mkWorld [] [status_only 401; status_only 200] ∅ ∅ PNone in
  get_api_key demo_env (snd (get_api_key demo_env w))
  = (Ret "k2", snd (get_api_key demo_env w)).
Proof.
  intros w.
  apply (get_api_key_settles demo_env "k2" w (snd (get_api_key demo_env w))).
  vm_compute. reflexivity.
Defined.

(** X6.  When [get_api_key] raises (both keys refused, or the transport
    failing), the store is left as it was: a key is only stored after it
    has validated. *)
Theorem get_api_key_failure_keeps_store (E : Env) (e : exn) (w w' : World) :
  get_api_key E w = (Raise e, w') -> w_creds w' = w_creds w.
Proof.
  intros H. key_cases H.
  destruct (w_creds w !! env_token_key E) as [k|]; [discriminate |].
  destruct (w_responses w) as [|r1 rs].
  { injection H as _ <-. reflexivity. }
  cbn [w_trace w_responses w_creds w_rc w_current_slug] in H.
  destruct (status_code r1 =? 200); cbn [negb] in H; [discriminate |].
  cbn [w_trace w_responses w_creds w_rc w_current_slug] in H.
  destruct rs as [|r2 rs].
  { injection H as _ <-. reflexivity. }
  cbn [w_trace w_responses w_creds w_rc w_current_slug] in H.
  destruct (status_code r2 =? 200); cbn [negb] in H; [discriminate |].
  injection H as _ <-. reflexivity.
Qed.

Lemma get_api_key_failure_keeps_store_witness :
  let w := mkWorld [] [status_only 401; status_only 403] ∅ ∅ PNone in
  fst (get_api_key demo_env w)
  = Raise (Exn ApiError "The API key provided is invalid or expired.")
  /\ w_creds (snd (get_api_key demo_env w)) = ∅.
Proof.
  intros w. split; [vm_compute; reflexivity |].
  apply (get_api_key_failure_keeps_store demo_env
           (Exn ApiError "The API key provided is invalid or expired.") w).
  vm_compute. reflexivity.
Defined.

(** * Further properties: requests *)

(** X7.  The path the wrapper exists for: the first answer is 401, the
    re-authentication completes, and the second attempt, made with the
    rebuilt headers in place of the caller's, ends in anything but a 401
    (a response with another status, or an exception); that outcome is
    the wrapper's outcome and nothing is done after it. *)
Theorem retry_recovers_after_401 (E : Env)
        (request : list pyval -> gmap string pyval -> M Response)
        (args : list pyval) (kwargs : gmap string pyval)
        (w0 w1 w2 w3 : World) (r1 : Response) (h : pyval) (out : Res Response) :
  request args kwargs w0 = (Ret r1, w1) ->
  status_code r1 = 401 ->
  reauthenticate E w1 = (Ret h, w2) ->
  request args (<["headers" := h]> kwargs) w2 = (out, w3) ->
  (forall r2, out = Ret r2 -> status_code r2 <> 401) ->
  retry E request args kwargs w0 = (out, w3).
Proof.
  intros Hq1 Hs1 Ha Hq2 Hout. unfold retry. rewrite retry_loop_S.
  run Hq1. rewrite Hs1, Z.eqb_refl.
  rewrite (reauthenticate_step E _ _ _ _ Ha). rewrite retry_loop_S.
  destruct out as [r2|e].
  - run Hq2. destruct (Z.eqb_spec (status_code r2) 401); [| reflexivity].
    now destruct (Hout r2 eq_refl).
  - now run Hq2.
Qed.

Lemma retry_recovers_after_401_witness :
  let args := [PStr "https://api.jovian.ai/gist/s1"] in
  let kw : gmap string pyval := {[ "headers" := PDict [("Authorization", PStr "Bearer old")] ]} in
  let w0 := demo_world [status_only 401; status_only 200; ok_json gist_data] in
  exists w3,
    get demo_env args kw w0 = (Ret (ok_json gist_data), w3)
    /\ last (w_trace w3)
       = Some (EvGet (PStr "https://api.jovian.ai/gist/s1") PNone
                     {[ "headers" := auth_headers demo_env "k1" ]}).
Proof.
  intros args kw w0.
  pose (w1 := snd (get_undecorated args kw w0)).
  pose (w2 := snd (reauthenticate demo_env w1)).
  pose (w3 := snd (get_undecorated args (<["headers" := auth_headers demo_env "k1"]> kw) w2)).
  exists w3. split; [| vm_compute; reflexivity].
  apply (retry_recovers_after_401 demo_env get_undecorated args kw w0 w1 w2 w3
           (status_only 401) (auth_headers demo_env "k1") (Ret (ok_json gist_data)));
    try (vm_compute; reflexivity).
  intros r2 Hr2. injection Hr2 as <-. vm_compute. discriminate.
Defined.

(** X8.  A call without a [url] is refused as Python refuses it, before
    anything is sent: [TypeError], and the world is untouched. *)
Theorem request_without_url (E : Env) (kwargs : gmap string pyval) (w : World) :
  kwargs !! "url" = None ->
  get E [] kwargs w
  = (Raise (Exn TypeError "get() missing 1 required positional argument: 'url'"), w)
  /\ post E [] kwargs w
     = (Raise (Exn TypeError "post() missing 1 required positional argument: 'url'"), w).
Proof.
  intros Hurl.
  assert (Hg : get_undecorated [] kwargs w
               = (Raise (Exn TypeError "get() missing 1 required positional argument: 'url'"), w)).
  { unfold get_undecorated. cbn [bind_params]. now rewrite bind_lift_Ret, Hurl. }
  assert (Hp : post_undecorated [] kwargs w
               = (Raise (Exn TypeError "post() missing 1 required positional argument: 'url'"), w)).
  { unfold post_undecorated. cbn [bind_params]. now rewrite bind_lift_Ret, Hurl. }
  unfold get, post, retry. rewrite !retry_loop_S. split; [now run Hg | now run Hp].
Qed.

Lemma request_without_url_witness :
  post demo_env [] {[ "json" := PList []; "headers" := PDict [] ]} (demo_world [status_only 200])
  = (Raise (Exn TypeError "post() missing 1 required positional argument: 'url'"),
     demo_world [status_only 200]).
Proof.
  exact (proj2 (request_without_url demo_env {[ "json" := PList []; "headers" := PDict [] ]}
                  (demo_world [status_only 200]) eq_refl)).
Defined.

(** X9.  What does get through the wrappers: called with keywords, the
    first request goes to the [url] keyword and carries every other
    keyword (headers, files, ...) unchanged; only [params], and for POST
    [data] and [json], are taken out. *)
Theorem keywords_are_forwarded (E : Env) (kwargs : gmap string pyval) (url : pyval)
        (w : World) :
  kwargs !! "url" = Some url ->
  (exists evs,
      w_trace (snd (get E [] kwargs w))
      = (w_trace w ++ EvGet url PNone (delete "params" (delete "url" kwargs)) :: evs)%list)
  /\ (exists evs,
         w_trace (snd (post E [] kwargs w))
         = (w_trace w ++ EvPost url PNone PNone
                                (delete "json" (delete "data" (delete "url" kwargs)))
                    :: evs)%list).
Proof.
  intros Hurl. split.
  - destruct (get_first_event E (fun _ => True) (fun _ _ => I) (fun _ => I) (fun _ _ => I)
                kwargs url w Hurl) as (evs & Ht & _).
    exists evs. rewrite Ht. now rewrite <- app_assoc.
  - unfold post, retry. rewrite retry_loop_S.
    assert (Hext : extends (fun _ => True)
                     (w_trace w ++ [EvPost url PNone PNone
                                      (delete "json" (delete "data" (delete "url" kwargs)))])%list
                     (post E [] kwargs) w).
    { unfold post, retry. rewrite retry_loop_S. apply extends_bind.
      - unfold post_undecorated, extends. cbn [bind_params]. rewrite bind_lift_Ret, Hurl.
        exists []. unfold mkpost. destruct (w_responses w); simpl;
          (split; [now rewrite app_nil_r | constructor]).
      - intros res. destruct (status_code res =? 401); [| apply emits_ret].
        apply emits_bind; [apply emits_log; auto | intros _].
        apply emits_bind; [now apply emits_silent | intros _].
        apply emits_bind; [apply emits_h; auto | intros h].
        apply (emits_retry_loop E (fun _ => True) (fun _ _ => I) (fun _ => I)
                 (fun _ _ => I) (fun _ => True)); auto.
        intros; apply emits_post_undecorated; auto. }
    destruct Hext as (evs & Ht & _). exists evs.
    unfold post, retry in Ht. rewrite retry_loop_S in Ht. rewrite Ht.
    now rewrite <- app_assoc.
Qed.

Lemma keywords_are_forwarded_witness :
  exists evs,
    w_trace (snd (post demo_env []
                       {[ "url" := PStr "https://api.jovian.ai/gist/create";
                          "data" := PDict [("public", PInt 1)];
                          "files" := PDict [("files", PFile "train.py")];
                          "headers" := PDict [] ]}
                       (demo_world [])))
    = EvPost (PStr "https://api.jovian.ai/gist/create") PNone PNone
             {[ "files" := PDict [("files", PFile "train.py")]; "headers" := PDict [] ]}
      :: evs.
Proof.
  assert (Hurl : ({[ "url" := PStr "https://api.jovian.ai/gist/create";
                     "data" := PDict [("public", PInt 1)];
                     "files" := PDict [("files", PFile "train.py")];
                     "headers" := PDict [] ]} : gmap string pyval) !! "url"
                 = Some (PStr "https://api.jovian.ai/gist/create"))
    by (vm_compute; reflexivity).
  destruct (proj2 (keywords_are_forwarded demo_env _ _ (demo_world []) Hurl)) as [evs Ht].
  exists evs. rewrite Ht. vm_compute. reflexivity.
Defined.

Lemma mkget_run url params kwargs r rest w :
  w_responses w = r :: rest ->
  mkget url params kwargs w = (Ret r, requested (EvGet url params kwargs) w).
Proof. intros H. unfold mkget, requested. now rewrite H. Qed.

Lemma mkpost_run url data json kwargs r rest w :
  w_responses w = r :: rest ->
  mkpost url data json kwargs w = (Ret r, requested (EvPost url data json kwargs) w).
Proof. intros H. unfold mkpost, requested. now rewrite H. Qed.

(** One request, answered with anything but 401: the wrapper returns the
    answer and has done nothing else. *)
Lemma get_run (E : Env) kwargs url r rest w :
  kwargs !! "url" = Some url ->
  w_responses w = r :: rest ->
  status_code r <> 401 ->
  get E [] kwargs w
  = (Ret r, requested (EvGet url PNone (delete "params" (delete "url" kwargs))) w).
Proof.
  intros Hurl Hresp Hstatus. unfold get, retry. rewrite retry_loop_S.
  assert (H : get_undecorated [] kwargs w
              = (Ret r, requested (EvGet url PNone (delete "params" (delete "url" kwargs))) w)).
  { unfold get_undecorated. cbn [bind_params]. rewrite bind_lift_Ret, Hurl.
    now apply mkget_run with (rest := rest). }
  run H. destruct (Z.eqb_spec (status_code r) 401); [contradiction | reflexivity].
Qed.

Lemma post_run (E : Env) kwargs url r rest w :
  kwargs !! "url" = None ->
  w_responses w = r :: rest ->
  status_code r <> 401 ->
  post E [url] kwargs w
  = (Ret r, requested (EvPost url PNone PNone (delete "json" (delete "data" kwargs))) w).
Proof.
  intros Hurl Hresp Hstatus. unfold post, retry. rewrite retry_loop_S.
  assert (H : post_undecorated [url] kwargs w
              = (Ret r, requested (EvPost url PNone PNone
                                          (delete "json" (delete "data" kwargs))) w)).
  { unfold post_undecorated. cbn [bind_params]. rewrite Hurl. rewrite bind_lift_Ret.
    now apply mkpost_run with (rest := rest). }
  run H. destruct (Z.eqb_spec (status_code r) 401); [contradiction | reflexivity].
Qed.

Lemma url_of_lookup (url h : pyval) :
  ({[ "url" := url; "headers" := h ]} : gmap string pyval) !! "url" = Some url.
Proof. apply lookup_insert_eq. Qed.

Lemma headers_only (url h : pyval) :
  delete "params" (delete "url" ({[ "url" := url; "headers" := h ]} : gmap string pyval))
  = {[ "headers" := h ]}.
Proof. rewrite delete_insert_eq, !delete_singleton_ne by discriminate. reflexivity. Qed.

(** X10.  With a cached key, a metadata or access lookup answered 200
    costs exactly one request, sent with the headers built around that
    key, and consumes exactly one response.  It returns the [data] field
    of the body; a body that is not JSON raises [ValueError] and a JSON
    object without [data] raises [KeyError], neither of them the
    descriptive error of the non-200 case. *)
Theorem gist_lookup_on_200 (E : Env) (s key : string) (r : Response) (rest : list Response)
        (w : World) :
  w_creds w !! env_token_key E = Some key ->
  w_responses w = r :: rest ->
  status_code r = 200 ->
  let answer := match json_body r with
                | None => Raise (Exn ValueError "Expecting value")
                | Some body => getitem body "data"
                end in
  get_gist E (PStr s) w
  = (answer, requested (EvGet (PStr (_u E ("/gist/" ++ s))) PNone
                              {[ "headers" := auth_headers E key ]}) w)
  /\ get_gist_access E (PStr s) w
     = (answer, requested (EvGet (PStr (_u E (("/gist/" ++ s) ++ "/check-access"))) PNone
                                 {[ "headers" := auth_headers E key ]}) w)
  /\ (forall kvs, json_body r = Some (PDict kvs) -> assoc "data" kvs = None ->
                  answer = Raise (Exn KeyError "data")).
Proof.
  intros Hkey Hresp Hstatus answer.
  assert (H401 : status_code r <> 401) by (rewrite Hstatus; discriminate).
  assert (Htail : forall A (k : pyval -> M A) w',
             bind (lift (res_json r)) k w'
             = match json_body r with
               | None => (Raise (Exn ValueError "Expecting value"), w')
               | Some body => k body w'
               end).
  { intros A k w'. unfold res_json. now destruct (json_body r). }
  repeat split.
  - unfold get_gist. cbn [py_add]. rewrite bind_lift_Ret. cbn [py_str].
    run (h_cached E key w Hkey).
    run (get_run E _ _ r rest w
                 (url_of_lookup (PStr (_u E ("/gist/" ++ s))) (auth_headers E key))
                 Hresp H401).
    rewrite Hstatus, Z.eqb_refl, Htail, headers_only. subst answer.
    now destruct (json_body r).
  - unfold get_gist_access. cbn [py_add]. rewrite bind_lift_Ret. cbn [py_add].
    rewrite bind_lift_Ret. cbn [py_str].
    run (h_cached E key w Hkey).
    run (get_run E _ _ r rest w
                 (url_of_lookup (PStr (_u E (("/gist/" ++ s) ++ "/check-access")))
                                (auth_headers E key))
                 Hresp H401).
    rewrite Hstatus, Z.eqb_refl, Htail, headers_only. subst answer.
    now destruct (json_body r).
  - intros kvs Hbody Hdata. subst answer. rewrite Hbody. cbn [getitem]. now rewrite Hdata.
Qed.

Lemma gist_lookup_on_200_witness :
  get_gist demo_env (PStr "alice/demo") (demo_world [ok_json gist_data; status_only 500])
  = (Ret gist_data,
     mkWorld [EvGet (PStr "https://api.jovian.ai/gist/alice/demo") PNone
                    {[ "headers" := auth_headers demo_env "tok" ]}]
             [status_only 500] {[ "API_KEY" := "tok" ]} ∅ PNone).
Proof.
  exact (proj1 (gist_lookup_on_200 demo_env "alice/demo" "tok" (ok_json gist_data)
                  [status_only 500] (demo_world [ok_json gist_data; status_only 500])
                  eq_refl eq_refl eq_refl)).
Defined.

(** * Further properties: what the requests do not depend on *)

Lemma bind_ext {A B} (c : M A) (k k' : A -> M B) w :
  (forall a w', k a w' = k' a w') -> bind c k w = bind c k' w.
Proof. intros H. unfold bind. destruct (c w) as [[a|e] w']; [apply H | reflexivity]. Qed.

Lemma bind_cong {A B} (c c' : M A) (k k' : A -> M B) w :
  c w = c' w -> (forall a w', k a w' = k' a w') -> bind c k w = bind c' k' w.
Proof.
  intros Hc H. unfold bind. rewrite Hc. destruct (c' w) as [[a|e] w']; [apply H | reflexivity].
Qed.

Lemma post_undecorated_data (kw kw' : gmap string pyval) w :
  delete "data" kw = delete "data" kw' ->
  post_undecorated [] kw w = post_undecorated [] kw' w.
Proof.
  intros H. unfold post_undecorated. cbn [bind_params]. rewrite !bind_lift_Ret.
  assert (Hurl : kw !! "url" = kw' !! "url").
  { rewrite <- (lookup_delete_ne kw "data" "url") by discriminate.
    rewrite <- (lookup_delete_ne kw' "data" "url") by discriminate. now rewrite H. }
  assert (Hrest : delete "json" (delete "data" (delete "url" kw))
                  = delete "json" (delete "data" (delete "url" kw'))).
  { rewrite (delete_delete kw "data" "url"), (delete_delete kw' "data" "url").
    now rewrite H. }
  now rewrite Hurl, Hrest.
Qed.

Lemma post_data_irrelevant (E : Env) n :
  forall last (kw kw' : gmap string pyval) w,
    delete "data" kw = delete "data" kw' ->
    retry_loop E n last post_undecorated [] kw w
    = retry_loop E n last post_undecorated [] kw' w.
Proof.
  induction n as [|n IH]; intros last kw kw' w H; [reflexivity |].
  rewrite !retry_loop_S.
  apply bind_cong; [now apply post_undecorated_data |]. intros res w1.
  destruct (status_code res =? 401); [| reflexivity].
  apply bind_ext. intros _ w2. apply bind_ext. intros _ w3. apply bind_ext. intros h w4.
  apply IH. rewrite !delete_insert_ne by discriminate. now rewrite H.
Qed.

Lemma create_gist_simple_secret (E : Env) filename gist_slug secret secret' w :
  create_gist_simple E filename gist_slug secret w
  = create_gist_simple E filename gist_slug secret' w.
Proof.
  unfold create_gist_simple. apply bind_ext. intros h w1.
  destruct (env_open_error E filename); [reflexivity |].
  apply bind_ext. intros _ w2. destruct (truthy gist_slug); [reflexivity |].
  apply bind_cong; [| reflexivity].
  unfold post, retry. apply post_data_irrelevant.
  rewrite !(delete_insert_ne _ "data" "url") by discriminate.
  now rewrite !delete_insert_eq.
Qed.

(** X11.  The [privacy] argument of [commit] has no effect whatsoever:
    its only use is the form field [public] of the request that creates a
    project, and [post] drops form data, so two commits that differ only
    in [privacy] do the same thing in every world. *)
Theorem commit_ignores_privacy (E : Env) (depth : nat) (message : pyval)
        (files outputs : paths_arg) (environment : option string) (privacy privacy' : pyval)
        (filename : option string) (project : pyval) (new_project git_commit : bool)
        (git_message : pyval) (w : World) :
  commit E depth message files outputs environment privacy filename project
         new_project git_commit git_message w
  = commit E depth message files outputs environment privacy' filename project
           new_project git_commit git_message w.
Proof.
  unfold commit. destruct (_ && _); [reflexivity |].
  apply bind_ext. intros _ w1. destruct (_parse_filename E filename) as [f|]; [| reflexivity].
  apply bind_ext. intros [title id] w2.
  apply bind_cong; [apply create_gist_simple_secret | reflexivity].
Qed.

(** X12.  Likewise the [artifact] argument of [upload_file] changes
    nothing: the request, the answer and the world are the same whatever
    it is. *)
Theorem upload_file_ignores_artifact (E : Env) (gist_slug file version artifact artifact' : pyval)
        (w : World) :
  upload_file E gist_slug file version artifact w
  = upload_file E gist_slug file version artifact' w.
Proof.
  unfold upload_file. do 3 (apply bind_ext; intros ? ?). apply bind_ext. intros h w1.
  apply bind_cong; [| reflexivity].
  unfold post, retry. apply post_data_irrelevant.
  rewrite !(delete_insert_ne _ "data" "url"), !(delete_insert_ne _ "data" "files")
    by discriminate.
  now rewrite !delete_insert_eq.
Qed.

(** * Further properties: the resolver *)

(** X13.  Resolving without an explicit name is resolving the remembered
    name: the last slug used in this process if there is one (the rc file
    and the filename are then not looked at), else the rc entry of the
    file.  With nothing remembered the answer is [(None, None)] and no
    request is made. *)
Theorem parse_project_uses_remembered_name (E : Env) (project : pyval) (filename : string)
        (new_project : bool) (w : World) :
  _parse_project E project filename new_project w
  = _parse_project E (local_project project filename new_project w) filename true w
  /\ (is_none (w_current_slug w) = false ->
      forall filename',
        _parse_project E PNone filename' false w
        = _parse_project E (w_current_slug w) filename' true w)
  /\ (local_project project filename new_project w = PNone ->
      _parse_project E project filename new_project w = (Ret (PNone, PNone), w)).
Proof.
  assert (Hgen : forall pr f np,
             _parse_project E pr f np w
             = _parse_project E (local_project pr f np w) f true w).
  { intros pr f np. unfold _parse_project.
    run (local_lookup_run pr f np w).
    run (local_lookup_run (local_project pr f np w) f true w). reflexivity. }
  repeat split.
  - apply Hgen.
  - intros Hcur filename'. rewrite (Hgen PNone filename' false).
    unfold local_project. cbn [negb is_none andb]. now rewrite Hcur.
  - intros Hnone. rewrite Hgen, Hnone. reflexivity.
Qed.

Lemma parse_project_uses_remembered_name_witness :
  let w := mkWorld [] [not_found] {[ "API_KEY" := "tok" ]}
                   {[ "train.py" := PStr "alice/from-rc" ]} (PStr "alice/in-memory") in
  _parse_project demo_env PNone "other.py" false w
  = _parse_project demo_env (PStr "alice/in-memory") "other.py" true w.
Proof.
  intros w.
  exact (proj1 (proj2 (parse_project_uses_remembered_name demo_env PNone "train.py" false w))
               eq_refl "other.py").
Defined.

(** What the lookups log and send: the expired-key line with the error
    flag, key prompts, and GET requests without [params]. *)
Section LookupEvents.
Context (E : Env) (P : event -> Prop).
Hypothesis P_expired : P (EvLog "The current API key is invalid or expired." true).
Hypothesis P_prompt : forall again, P (EvKeyPrompt again).
Hypothesis P_get : forall url kwargs, P (EvGet url PNone kwargs).

Lemma lookup_mkget url kwargs : emits P (mkget url PNone kwargs).
Proof.
  intros w. exists [EvGet url PNone kwargs]. unfold mkget.
  destruct (w_responses w); simpl; (split; [reflexivity |]); constructor; auto.
Qed.

Lemma lookup_h : emits P (_h E).
Proof.
  unfold _h, get_api_key, validate_api_key, read_or_request_api_key, request_api_key.
  apply emits_bind; [| intros; apply emits_ret].
  apply emits_bind; [now apply emits_silent | intros creds].
  destruct (creds !! env_token_key E); [apply emits_ret |].
  apply emits_bind.
  { apply emits_bind; [apply emits_emit, P_prompt | intros; apply emits_ret]. }
  intros key. apply emits_bind.
  { apply emits_bind; [apply lookup_mkget | intros; apply emits_ret]. }
  intros ok. apply emits_bind.
  - destruct ok; simpl; [apply emits_ret |].
    apply emits_bind; [apply emits_emit, P_expired | intros _].
    apply emits_bind.
    { apply emits_bind; [apply emits_emit, P_prompt | intros; apply emits_ret]. }
    intros key2. apply emits_bind.
    { apply emits_bind; [apply lookup_mkget | intros; apply emits_ret]. }
    intros ok2. destruct ok2; simpl; [apply emits_ret | apply emits_raise].
  - intros k. apply emits_bind; [now apply emits_silent | intros; apply emits_ret].
Qed.

Lemma lookup_get args kwargs : emits P (get E args kwargs).
Proof.
  unfold get, retry. generalize (@None Response). generalize 2%nat. intros n.
  revert kwargs. induction n as [|n IH]; intros kwargs last; simpl.
  - destruct last; [apply emits_ret | apply emits_raise].
  - apply emits_bind.
    { unfold get_undecorated, missing_url. apply emits_bind; [apply emits_lift |].
      intros [[|[url|] vs] rest]; try apply emits_raise. apply lookup_mkget. }
    intros res. destruct (status_code res =? 401); [| apply emits_ret].
    apply emits_bind; [apply emits_emit, P_expired | intros _].
    apply emits_bind; [now apply emits_silent | intros _].
    apply emits_bind; [apply lookup_h | intros h]. apply IH.
Qed.

Lemma lookup_raise_pretty {A} cls prefix res : emits P (@raise_pretty E A cls prefix res).
Proof.
  unfold raise_pretty. apply emits_bind; [apply emits_lift | intros].
  apply emits_bind; [apply emits_lift | intros]. apply emits_raise.
Qed.

Lemma lookup_get_gist slug : emits P (get_gist E slug).
Proof.
  unfold get_gist. apply emits_bind; [apply emits_lift | intros path].
  apply emits_bind; [apply lookup_h | intros h].
  apply emits_bind; [apply lookup_get | intros res].
  destruct (status_code res =? 200).
  - apply emits_bind; [apply emits_lift | intros; apply emits_lift].
  - apply emits_bind; [apply emits_lift | intros].
    apply emits_bind; [apply emits_lift | intros]. apply lookup_raise_pretty.
Qed.

Lemma lookup_get_gist_access slug : emits P (get_gist_access E slug).
Proof.
  unfold get_gist_access. apply emits_bind; [apply emits_lift | intros path].
  apply emits_bind; [apply emits_lift | intros path'].
  apply emits_bind; [apply lookup_h | intros h].
  apply emits_bind; [apply lookup_get | intros res].
  destruct (status_code res =? 200).
  - apply emits_bind; [apply emits_lift | intros; apply emits_lift].
  - apply emits_bind; [apply emits_lift | intros].
    apply emits_bind; [apply emits_lift | intros]. apply lookup_raise_pretty.
Qed.

End LookupEvents.

(** X14.  The resolver never logs the line of its branch for a project
    without an id: metadata whose [slug] is [None] makes the access
    lookup fail with [TypeError] before that branch is reached.  Nor does
    it ever send a POST: it only reads. *)
Theorem parse_project_never_creates (E : Env) (project : pyval) (filename : string)
        (new_project : bool) :
  emits (fun e => creating_line e = false)
        (_parse_project E project filename new_project)
  /\ emits (fun e => match e with EvPost _ _ _ _ => False | _ => True end)
           (_parse_project E project filename new_project).
Proof.
  split; [| now apply emits_parse_project].
  set (P := fun e => creating_line e = false).
  assert (P_expired : P (EvLog "The current API key is invalid or expired." true))
    by reflexivity.
  assert (P_prompt : forall again, P (EvKeyPrompt again)) by reflexivity.
  assert (P_get : forall url kwargs, P (EvGet url PNone kwargs)) by reflexivity.
  unfold _parse_project, api_undefined.
  apply emits_bind; [solve [repeat emits_step] | intros pj].
  destruct (is_none pj); [apply emits_ret |].
  apply emits_bind; [destruct (env_is_uuid E pj); [apply emits_ret | apply emits_lift] |].
  intros direct. apply emits_bind.
  { destruct direct; [now apply lookup_get_gist |].
    apply emits_bind; [apply emits_raise | intros user].
    do 3 (apply emits_bind; [apply emits_lift | intros ?]). now apply lookup_get_gist. }
  intros metadata. destruct (negb (truthy metadata)).
  { apply emits_bind_lift. intros m1 H1. apply emits_bind_lift. intros m2 H2.
    apply emits_bind; [| intros; apply emits_ret].
    apply emits_emit. destruct pj; try discriminate H1. injection H1 as <-.
    injection H2 as <-. reflexivity. }
  do 4 (apply emits_bind; [apply emits_lift | intros ?]).
  apply emits_bind_lift. intros project_id Hid.
  destruct project_id;
    try (intros w; exists []; cbn; rewrite app_nil_r; split; [reflexivity | constructor]);
    (apply emits_bind; [now apply lookup_get_gist_access | intros perms];
     apply emits_bind; [apply emits_lift | intros can_write];
     destruct (negb (truthy can_write)); [apply emits_ret |];
     cbn [is_none];
     apply emits_bind; [| intros; apply emits_ret];
     apply emits_bind_lift; intros m1 H1; apply emits_bind_lift; intros m2 H2;
     apply emits_bind_lift; intros m3 H3;
     apply emits_emit; destruct pj; try discriminate H1; injection H1 as <-;
     injection H2 as <-; injection H3 as <-; reflexivity).
Qed.

(** * Further properties: the state a commit leaves *)

Lemma only_logs_pure {A} (c : M A) : (forall w, snd (c w) = w) -> only_logs c.
Proof.
  intros H w. exists []. rewrite H, app_nil_r. now destruct w.
Qed.

Lemma only_logs_emit (e : event) : only_logs (emit e).
Proof. intros w. now exists [e]. Qed.

Lemma only_logs_bind {A B} (c : M A) (k : A -> M B) :
  only_logs c -> (forall a, only_logs (k a)) -> only_logs (bind c k).
Proof.
  intros Hc Hk w. unfold bind. destruct (Hc w) as [evs1 H1].
  destruct (c w) as [[a|e] w1]; cbn [snd] in *.
  - destruct (Hk a w1) as [evs2 H2]. exists (evs1 ++ evs2)%list.
    rewrite H2, H1. cbn. now rewrite app_assoc.
  - now exists evs1.
Qed.

Lemma only_logs_try_except {A} (c : M A) catches handler :
  only_logs c -> (forall e, only_logs (handler e)) -> only_logs (try_except c catches handler).
Proof.
  intros Hc Hh w. unfold try_except. destruct (Hc w) as [evs1 H1].
  destruct (c w) as [[a|e] w1]; cbn [snd] in *.
  - now exists evs1.
  - destruct (catches e); cbn [snd].
    + destruct (Hh e w1) as [evs2 H2]. exists (evs1 ++ evs2)%list.
      rewrite H2, H1. cbn. now rewrite app_assoc.
    + now exists evs1.
Qed.

Lemma only_logs_for_each {A} (l : list A) (body : A -> M unit) :
  (forall x, only_logs (body x)) -> only_logs (for_each l body).
Proof.
  intros Hb. induction l as [|x l IH]; simpl.
  - now apply only_logs_pure.
  - apply only_logs_bind; [apply Hb | intros _; exact IH].
Qed.

Ltac only_logs_step :=
  first
    [ solve [apply only_logs_pure; intros; reflexivity]
    | apply only_logs_emit
    | apply only_logs_bind; [| intros ?]
    | match goal with
      | |- only_logs (if ?b then _ else _) => destruct b
      | |- only_logs (match ?x with _ => _ end) => destruct x
      end ].

Lemma only_logs_attach_file (E : Env) path gist_slug version output :
  only_logs (_attach_file E path gist_slug version output).
Proof.
  intros w. destruct (attach_file_logs E path gist_slug version output w) as [msg ->].
  now exists [EvLog msg true].
Qed.

Lemma only_logs_attach_files (E : Env) depth :
  forall paths gist_slug version output,
    only_logs (_attach_files E depth paths gist_slug version output).
Proof.
  induction depth as [|d IH]; intros paths gist_slug version output.
  - now apply only_logs_pure.
  - cbn [_attach_files].
    match goal with |- only_logs (if ?b then _ else _) => destruct b end;
      [now apply only_logs_pure |].
    apply only_logs_bind; [apply only_logs_emit | intros _].
    apply only_logs_for_each. intros path.
    destruct (env_fs E path) as [[|entries]|].
    + apply IH.
    + apply only_logs_for_each. intros [[folder dirs] files].
      apply only_logs_for_each. intros fname. apply only_logs_attach_file.
    + apply only_logs_emit.
Qed.

Lemma only_logs_capture_environment (E : Env) environment gist_slug version :
  only_logs (_capture_environment E environment gist_slug version).
Proof.
  unfold _capture_environment, upload_conda_env, upload_pip_env, log.
  destruct environment as [environment|]; [| now apply only_logs_pure].
  apply only_logs_bind; [apply only_logs_emit | intros _].
  apply only_logs_bind.
  - destruct (_ || _); [| now apply only_logs_pure].
    apply only_logs_try_except; [| intros e]; repeat only_logs_step.
  - intros captured. destruct (_ && _); [| now apply only_logs_pure].
    apply only_logs_try_except; [| intros e]; repeat only_logs_step.
Qed.

Lemma only_logs_attach_records (E : Env) gist_slug version :
  only_logs (_attach_records E gist_slug version).
Proof.
  unfold _attach_records, get_record_slugs, api_undefined, log. repeat only_logs_step.
Qed.

(** X15.  Attaching files and outputs never gets as far as a request:
    whatever the paths name and however much room the call stack has,
    [_attach_files] appends log lines to the trace and does nothing else.
    It consumes no response of the transport and leaves the credentials
    store, the rc mapping and the remembered slug as they were, whether it
    returns or raises. *)
Theorem attach_files_only_log (E : Env) (depth : nat) (paths : paths_arg)
        (gist_slug version : pyval) (output : bool) :
  only_logs (_attach_files E depth paths gist_slug version output)
  /\ emits is_log_line (_attach_files E depth paths gist_slug version output).
Proof.
  split; [apply only_logs_attach_files |].
  apply emits_attach_files. intros msg err. exact I.
Qed.

(** X16.  Once the base file has been uploaded and the answer holds the
    four fields [commit] reads, the slug of the answer is remembered, in
    memory and in the rc mapping under the filename, whatever the later
    steps do (also when one of them raises); so the next call of the
    resolver without a name, for any file, is the resolution of that
    slug. *)
Theorem commit_remembers_slug (E : Env) (depth : nat) (message : pyval)
        (files outputs : paths_arg) (environment : option string) (privacy : pyval)
        (filename : option string) (project : pyval) (new_project git_commit : bool)
        (git_message : pyval) (f : string) (w0 w1 w2 : World)
        (project_title project_id res slug owner version title : pyval) :
  env_in_script E || env_in_notebook E = true ->
  _parse_filename E filename = Some f ->
  _parse_project E project f new_project (after_save E w0)
  = (Ret (project_title, project_id), w1) ->
  create_gist_simple E f project_id privacy w1 = (Ret res, w2) ->
  getitem res "slug" = Ret slug ->
  getitem res "owner" = Ret owner ->
  getitem res "version" = Ret version ->
  getitem res "title" = Ret title ->
  let w' := snd (commit E depth message files outputs environment privacy filename project
                        new_project git_commit git_message w0) in
  w_current_slug w' = slug
  /\ w_rc w' = <[f := slug]> (w_rc w2)
  /\ (is_none slug = false ->
      forall filename',
        _parse_project E PNone filename' false w'
        = _parse_project E slug filename' true w').
Proof.
  intros Hctx Hfn Hparse Hcreate Hslug Howner Hversion Htitle w'.
  assert (Hw' : exists evs,
             w' = mkWorld (w_trace w2 ++ evs)%list (w_responses w2) (w_creds w2)
                          (<[f := slug]> (w_rc w2)) slug).
  { subst w'. unfold commit.
    replace (negb (env_in_script E) && negb (env_in_notebook E)) with false
      by (destruct (env_in_script E), (env_in_notebook E); simpl in *; congruence).
    run (prelude_run E w0). rewrite Hfn. run Hparse. run Hcreate.
    run_pure Hslug. run_pure Howner. run_pure Hversion. run_pure Htitle.
    unfold bind at 1, write_current_slug at 1. unfold bind at 1, set_notebook_slug at 1.
    cbn [w_trace w_responses w_creds w_rc w_current_slug].
    match goal with
    | |- exists evs, snd (?c ?w) = _ =>
        assert (Hrest : only_logs c)
    end.
    { apply only_logs_bind; [apply only_logs_capture_environment | intros _].
      do 2 (apply only_logs_bind; [apply only_logs_attach_files | intros _]).
      apply only_logs_bind; [apply only_logs_attach_records | intros _].
      unfold log. repeat only_logs_step. }
    destruct (Hrest (mkWorld (w_trace w2) (w_responses w2) (w_creds w2)
                             (<[f := slug]> (w_rc w2)) slug)) as [evs Hevs].
    exists evs. exact Hevs. }
  destruct Hw' as [evs ->]. cbn [w_current_slug w_rc].
  repeat split.
  intros Hnone filename'. unfold _parse_project.
  rewrite !(bind_Ret _ _ _ _ _ (local_lookup_run _ _ _ _)).
  unfold local_project. cbn [negb is_none andb w_current_slug].
  rewrite Hnone. cbn [negb]. now rewrite Hnone.
Qed.

Lemma commit_remembers_slug_witness :
  let E := demo_env_with None None (inr [PStr "record-1"]) in
  let w0 := demo_world [ok_json gist_data] in
  let w' := snd (commit E 100 PNone (PathList ["README.md"]) (PathList []) None (PStr "auto")
                        None PNone false true (PStr "auto") w0) in
  w_current_slug w' = PStr "s1" /\ w_rc w' !! "train.py" = Some (PStr "s1").
Proof.
  intros E w0 w'.
  pose (w2 := snd (create_gist_simple E "train.py" PNone (PStr "auto") w0)).
  destruct (commit_remembers_slug E 100 PNone (PathList ["README.md"]) (PathList []) None
              (PStr "auto") None PNone false true (PStr "auto") "train.py" w0 w0 w2
              PNone PNone gist_data (PStr "s1") (PDict [("username", PStr "alice")])
              (PInt 3) (PStr "demo"))
    as (Hslug & Hrc & _); try (vm_compute; reflexivity).
  split; [exact Hslug |]. unfold w'. rewrite Hrc. apply lookup_insert_eq.
Defined.

(** X17.  The two early exits of [commit] do nothing but log: outside a
    script or notebook, one error line; with no filename to be had, the
    save prelude (inside a notebook) and then the filename hint, logged
    without the error flag.  No request is made and nothing is
    remembered. *)
Theorem commit_early_exits (E : Env) (depth : nat) (message : pyval)
        (files outputs : paths_arg) (environment : option string) (privacy : pyval)
        (filename : option string) (project : pyval) (new_project git_commit : bool)
        (git_message : pyval) (w : World) :
  (env_in_script E = false -> env_in_notebook E = false ->
   commit E depth message files outputs environment privacy filename project
          new_project git_commit git_message w
   = (Ret tt, logged "Failed to detect Jupyter notebook or Python script. Skipping.." true w))
  /\ (env_in_script E || env_in_notebook E = true ->
      _parse_filename E filename = None ->
      commit E depth message files outputs environment privacy filename project
             new_project git_commit git_message w
      = (Ret tt, logged (env_filename_msg E) false (after_save E w))).
Proof.
  split.
  - intros Hs Hn. unfold commit. now rewrite Hs, Hn.
  - intros Hctx Hfn. unfold commit.
    replace (negb (env_in_script E) && negb (env_in_notebook E)) with false
      by (destruct (env_in_script E), (env_in_notebook E); simpl in *; congruence).
    run (prelude_run E w). now rewrite Hfn.
Qed.

Lemma commit_early_exits_witness :
  commit nameless_notebook_env 100 PNone (PathList ["data"]) (PathList []) (Some "auto")
         (PStr "auto") None (PStr "alice/demo") false true (PStr "auto")
         (demo_world [ok_json gist_data])
  = (Ret tt,
     mkWorld [EvLog "Attempting to save notebook.." false; EvSaveNotebook; EvSleep 1;
              EvLog "Failed to detect notebook filename." false]
             [ok_json gist_data] {[ "API_KEY" := "tok" ]} ∅ PNone).
Proof.
  exact (proj2 (commit_early_exits nameless_notebook_env 100 PNone (PathList ["data"])
                  (PathList []) (Some "auto") (PStr "auto") None (PStr "alice/demo")
                  false true (PStr "auto") (demo_world [ok_json gist_data]))
               eq_refl eq_refl).
Defined.

(** * Further properties: environment capture *)

(** X18.  Mode ['auto']: conda capture is tried first.  If it succeeds
    pip is not tried; if it fails with [CondaError] the error is logged
    and pip capture is tried, its [Exception]s being logged as well; any
    other failure of conda capture is raised at once. *)
Theorem capture_auto (E : Env) (gist_slug version : pyval) (w : World) :
  _capture_environment E (Some "auto") gist_slug version w
  = match env_conda E with
    | None =>
        (Ret tt, appended [EvLog "Capturing environment.." false;
                           EvCondaCapture gist_slug version] w)
    | Some e =>
        if is_CondaError e then
          (caught_outcome is_Exception (env_pip E),
           appended ([EvLog "Capturing environment.." false;
                      EvCondaCapture gist_slug version;
                      EvLog (exn_msg e) true;
                      EvPipCapture gist_slug version]
                     ++ caught_line is_Exception (env_pip E)) w)
        else
          (Raise e, appended [EvLog "Capturing environment.." false;
                              EvCondaCapture gist_slug version] w)
    end.
Proof.
  unfold _capture_environment, upload_conda_env, upload_pip_env, try_except, bind, log,
    emit, ret, raise, appended, caught_outcome, caught_line.
  change ("auto" =? "auto")%string with true. change ("auto" =? "conda")%string with false.
  change ("auto" =? "pip")%string with false. cbn [orb andb negb].
  destruct (env_conda E) as [e|]; cbn [w_trace w_responses w_creds w_rc w_current_slug].
  - destruct (is_CondaError e); cbn [w_trace w_responses w_creds w_rc w_current_slug negb andb].
    + destruct (env_pip E) as [e'|]; cbn [w_trace w_responses w_creds w_rc w_current_slug].
      * destruct (is_Exception e'); cbn [w_trace w_responses w_creds w_rc w_current_slug];
          now rewrite <- ?app_assoc.
      * now rewrite <- ?app_assoc.
    + now rewrite <- ?app_assoc.
  - now rewrite <- ?app_assoc.
Qed.

(** X19.  Modes ['conda'] and ['pip'] try one capture only: a failed
    conda capture does not fall back to pip, and pip mode never tries
    conda.  Conda capture forgives [CondaError] alone, pip capture every
    [Exception]. *)
Theorem capture_single_mode (E : Env) (gist_slug version : pyval) (w : World) :
  _capture_environment E (Some "conda") gist_slug version w
  = (caught_outcome is_CondaError (env_conda E),
     appended ([EvLog "Capturing environment.." false; EvCondaCapture gist_slug version]
               ++ caught_line is_CondaError (env_conda E)) w)
  /\ _capture_environment E (Some "pip") gist_slug version w
     = (caught_outcome is_Exception (env_pip E),
        appended ([EvLog "Capturing environment.." false; EvPipCapture gist_slug version]
                  ++ caught_line is_Exception (env_pip E)) w).
Proof.
  unfold _capture_environment, upload_conda_env, upload_pip_env, try_except, bind, log,
    emit, ret, raise, appended, caught_outcome, caught_line.
  change ("conda" =? "auto")%string with false. change ("conda" =? "conda")%string with true.
  change ("conda" =? "pip")%string with false. change ("pip" =? "auto")%string with false.
  change ("pip" =? "conda")%string with false. change ("pip" =? "pip")%string with true.
  cbn [orb andb negb]. split.
  - destruct (env_conda E) as [e|]; cbn [w_trace w_responses w_creds w_rc w_current_slug].
    + destruct (is_CondaError e);
        cbn [w_trace w_responses w_creds w_rc w_current_slug negb andb orb];
        now rewrite <- ?app_assoc.
    + now rewrite <- ?app_assoc.
  - cbn [w_trace w_responses w_creds w_rc w_current_slug].
    destruct (env_pip E) as [e|]; cbn [w_trace w_responses w_creds w_rc w_current_slug].
    + destruct (is_Exception e); cbn [w_trace w_responses w_creds w_rc w_current_slug];
        now rewrite <- ?app_assoc.
    + now rewrite <- ?app_assoc.
Qed.

(** X20.  A mode that is none of ['auto'], ['conda'] and ['pip'] is not
    refused: the capture is announced in the log and nothing is captured.
    Mode [None] does nothing at all. *)
Theorem capture_unknown_mode (E : Env) (mode : string) (gist_slug version : pyval)
        (w : World) :
  mode <> "auto" -> mode <> "conda" -> mode <> "pip" ->
  _capture_environment E (Some mode) gist_slug version w
  = (Ret tt, logged "Capturing environment.." false w)
  /\ _capture_environment E None gist_slug version w = (Ret tt, w).
Proof.
  intros Ha Hc Hp. split; [| reflexivity].
  unfold _capture_environment.
  destruct (String.eqb_spec mode "auto"); [contradiction |].
  destruct (String.eqb_spec mode "conda"); [contradiction |].
  destruct (String.eqb_spec mode "pip"); [contradiction |].
  reflexivity.
Qed.

Lemma capture_unknown_mode_witness :
  _capture_environment (demo_env_with (Some (Exn CondaError "no conda")) None (inr []))
                       (Some "docker") (PStr "s1") (PInt 3) (demo_world [])
  = (Ret tt, logged "Capturing environment.." false (demo_world [])).
Proof.
  apply (proj1 (capture_unknown_mode
                  (demo_env_with (Some (Exn CondaError "no conda")) None (inr []))
                  "docker" (PStr "s1") (PInt 3) (demo_world [])
                  ltac:(discriminate) ltac:(discriminate) ltac:(discriminate))).
Defined.

(** * Further properties: attachments and records *)

Lemma for_each_missing (E : Env) (paths : list string) (k : string -> M unit) w :
  (forall p w', env_fs E p = None -> k p w' = (Ret tt, appended [ignoring_line p] w')) ->
  Forall (fun p => env_fs E p = None) paths ->
  for_each paths k w = (Ret tt, appended (map ignoring_line paths) w).
Proof.
  intros Hk Hall. revert w. induction Hall as [|p l Hp Hl IH]; intros w.
  - unfold appended. cbn. rewrite app_nil_r. now destruct w.
  - cbn [for_each map]. run (Hk p w Hp). rewrite IH. unfold appended. cbn.
    now rewrite <- app_assoc.
Qed.

(** X21.  Paths that do not exist are skipped one by one: after the
    announcement, one error line per path, in the order given, and the
    call returns; nothing else happens. *)
Theorem attach_missing_paths (E : Env) (depth : nat) (paths : list string)
        (gist_slug version : pyval) (output : bool) (w : World) :
  paths <> [] ->
  Forall (fun p => env_fs E p = None) paths ->
  _attach_files E (S depth) (PathList paths) gist_slug version output w
  = (Ret tt,
     appended (EvLog ("Uploading additional " ++ (if output then "outputs" else "files")
                      ++ "...") false
               :: map ignoring_line paths) w).
Proof.
  intros Hne Hall. destruct paths as [|p l]; [contradiction |].
  rewrite attach_files_unfold, run_log.
  rewrite (for_each_missing E (p :: l)); [| | exact Hall].
  - unfold appended, logged. cbn. now rewrite <- app_assoc.
  - intros q w' Hq. rewrite Hq. reflexivity.
Qed.

Lemma attach_missing_paths_witness :
  _attach_files demo_env 10 (PathList ["model.h5"; "logs"]) (PStr "s1") (PInt 3) true
                (demo_world [])
  = (Ret tt,
     mkWorld [EvLog "Uploading additional outputs..." false;
              ignoring_line "model.h5"; ignoring_line "logs"]
             [] {[ "API_KEY" := "tok" ]} ∅ PNone).
Proof.
  apply (attach_missing_paths demo_env 9 ["model.h5"; "logs"] (PStr "s1") (PInt 3) true
           (demo_world [])).
  - discriminate.
  - repeat constructor.
Defined.

(** X22.  With at least one record pending, attaching records announces
    itself in the log and then fails: the function it calls on the module
    [api] is not defined there. *)
Theorem attach_records_pending (E : Env) (first : pyval) (others : list pyval)
        (gist_slug version : pyval) (w : World) :
  env_record_slugs E = inr (first :: others) ->
  _attach_records E gist_slug version w
  = (Raise (Exn AttributeError "module 'jovian.utils.api' has no attribute 'post_records'"),
     logged "Attaching records (metrics, hyperparameters, datasets, git etc.)" false w).
Proof.
  intros H. unfold _attach_records, get_record_slugs. rewrite H. reflexivity.
Qed.

Lemma attach_records_pending_witness :
  _attach_records (demo_env_with None None (inr [PStr "r1"; PStr "r2"])) (PStr "s1") (PInt 3)
                  (demo_world [])
  = (Raise (Exn AttributeError "module 'jovian.utils.api' has no attribute 'post_records'"),
     logged "Attaching records (metrics, hyperparameters, datasets, git etc.)" false
            (demo_world [])).
Proof.
  exact (attach_records_pending (demo_env_with None None (inr [PStr "r1"; PStr "r2"]))
                                (PStr "r1") [PStr "r2"] (PStr "s1") (PInt 3)
                                (demo_world []) eq_refl).
Defined.

(** * Further properties: records and notifications *)

Lemma raise_pretty_message (E : Env) {A} cls (prefix m : string) res w :
  _msg res = PStr m ->
  @raise_pretty E A cls (PStr prefix) res w
  = (Raise (Exn cls (prefix ++ ("(HTTP " ++ pretty (status_code res) ++ ") ") ++ m)), w).
Proof. intros H. unfold raise_pretty, _pretty. rewrite H. reflexivity. Qed.

(** X23.  When the batch of records (or its association with a commit)
    is answered with a status other than 200 and a message can be
    extracted from the answer, the caller gets an [ApiError] whose text
    is the fixed prefix, the status in brackets and that message. *)
Theorem data_logging_error (E : Env) (blocks gist_slug version h : pyval) (m : string)
        (res : Response) (w w1 w2 : World) :
  _h E w = (Ret h, w1) ->
  status_code res <> 200 ->
  _msg res = PStr m ->
  let failure :=
    Raise (Exn ApiError ("Data logging failed: "
                         ++ ("(HTTP " ++ pretty (status_code res) ++ ") ") ++ m)) in
  (post E [PStr (_u E ("/data/record" ++ _v E version))]
        {[ "json" := blocks; "headers" := h ]} w1 = (Ret res, w2) ->
   post_blocks E blocks version w = (failure, w2))
  /\ (forall s,
         gist_slug = PStr s ->
         post E [PStr (_u E ((("/data/" ++ s) ++ "/commit") ++ _v E version))]
              {[ "json" := blocks; "headers" := h ]} w1 = (Ret res, w2) ->
         commit_records E gist_slug blocks version w = (failure, w2)).
Proof.
  intros Hh Hstatus Hmsg failure. split.
  - intros Hpost. unfold post_blocks. run Hh. run Hpost.
    destruct (Z.eqb_spec (status_code res) 200); [contradiction |].
    now apply raise_pretty_message.
  - intros s -> Hpost. unfold commit_records. repeat (cbn [py_add]; rewrite bind_lift_Ret).
    cbn [py_str]. run Hh. run Hpost.
    destruct (Z.eqb_spec (status_code res) 200); [contradiction |].
    now apply raise_pretty_message.
Qed.

Lemma data_logging_error_witness :
  post_blocks demo_env (PList []) (PInt 3)
              (demo_world [json_response 400 (PDict [("msg", PStr "bad record")])])
  = (Raise (Exn ApiError "Data logging failed: (HTTP 400) bad record"),
     mkWorld [EvPost (PStr "https://api.jovian.ai/data/record?gist_version=3") PNone PNone
                     {[ "headers" := auth_headers demo_env "tok" ]}]
             [] {[ "API_KEY" := "tok" ]} ∅ PNone).
Proof.
  pose (w := demo_world [json_response 400 (PDict [("msg", PStr "bad record")])]).
  pose (w2 := snd (post_blocks demo_env (PList []) (PInt 3) w)).
  change (post_blocks demo_env (PList []) (PInt 3) w
          = (Raise (Exn ApiError "Data logging failed: (HTTP 400) bad record"), w2)).
  apply (proj1 (data_logging_error demo_env (PList []) PNone (PInt 3)
                  (auth_headers demo_env "tok") "bad record"
                  (json_response 400 (PDict [("msg", PStr "bad record")])) w w w2
                  ltac:(vm_compute; reflexivity) ltac:(vm_compute; discriminate)
                  ltac:(vm_compute; reflexivity))).
  vm_compute. reflexivity.
Defined.

(** X24.  The Slack notification answers 200 with the whole JSON body
    (not its [data] field).  On any other final status it returns a fixed
    "not sent" answer when [safe] is set; without [safe] it raises
    [ApiError] with the prefix, the status in brackets and the message of
    the answer when that message is a string, and [TypeError] when it is
    not (no message in the body, say).  [safe] does not cover a failing
    authentication: that still raises. *)
Theorem slack_message_outcomes (E : Env) (data h : pyval) (safe : bool) (res : Response)
        (w w1 w2 : World) :
  (forall e, _h E w = (Raise e, w1) -> post_slack_message E data safe w = (Raise e, w1))
  /\ (_h E w = (Ret h, w1) ->
      post E [PStr (_u E "/slack/notify")] {[ "json" := data; "headers" := h ]} w1
      = (Ret res, w2) ->
      (status_code res = 200 -> post_slack_message E data safe w = (res_json res, w2))
      /\ (status_code res <> 200 ->
          post_slack_message E data true w
          = (Ret (PDict [("data", PDict [("messageSent", PBool false)])]), w2)
          /\ (forall m,
                 _msg res = PStr m ->
                 post_slack_message E data false w
                 = (Raise (Exn ApiError
                               ("Slack trigger failed: "
                                ++ ("(HTTP " ++ pretty (status_code res) ++ ") ") ++ m)),
                    w2))
          /\ ((forall m, _msg res <> PStr m) ->
              exists text,
                post_slack_message E data false w = (Raise (Exn TypeError text), w2)))).
Proof.
  split.
  - intros e He. unfold post_slack_message. now run He.
  - intros Hh Hpost. split.
    + intros H200. unfold post_slack_message. run Hh. run Hpost.
      now rewrite H200, Z.eqb_refl.
    + intros Hne. split; [| split].
      * unfold post_slack_message. run Hh. run Hpost.
        now destruct (Z.eqb_spec (status_code res) 200).
      * intros m Hm. unfold post_slack_message. run Hh. run Hpost.
        destruct (Z.eqb_spec (status_code res) 200); [contradiction |].
        now apply raise_pretty_message.
      * intros Hno. unfold post_slack_message. run Hh. run Hpost.
        destruct (Z.eqb_spec (status_code res) 200); [contradiction |].
        unfold raise_pretty, _pretty.
        destruct (_msg res) as [| | |m| | | |] eqn:Hm;
          try (eexists; reflexivity).
        now destruct (Hno m).
Qed.

Lemma slack_message_outcomes_witness :
  post_slack_message demo_env (PStr "training done") false
                     (demo_world [json_response 503 (PDict [("message", PStr "no hook")])])
  = (Raise (Exn ApiError "Slack trigger failed: (HTTP 503) no hook"),
     mkWorld [EvPost (PStr "https://api.jovian.ai/slack/notify") PNone PNone
                     {[ "headers" := auth_headers demo_env "tok" ]}]
             [] {[ "API_KEY" := "tok" ]} ∅ PNone).
Proof.
  pose (r := json_response 503 (PDict [("message", PStr "no hook")])).
  pose (w := demo_world [r]).
  pose (w2 := snd (post_slack_message demo_env (PStr "training done") false w)).
  change (post_slack_message demo_env (PStr "training done") false w
          = (Raise (Exn ApiError "Slack trigger failed: (HTTP 503) no hook"), w2)).
  apply (proj1 (proj2 (proj2 (proj2 (slack_message_outcomes demo_env (PStr "training done")
                  (auth_headers demo_env "tok") false r w w w2)
                  ltac:(vm_compute; reflexivity) ltac:(vm_compute; reflexivity))
                  ltac:(vm_compute; discriminate))) "no hook").
  vm_compute. reflexivity.
Defined.

(** * Further properties: uploads *)

Lemma post_run_keywords (E : Env) kwargs url r rest w :
  kwargs !! "url" = Some url ->
  w_responses w = r :: rest ->
  status_code r <> 401 ->
  post E [] kwargs w
  = (Ret r, requested (EvPost url PNone PNone
                              (delete "json" (delete "data" (delete "url" kwargs)))) w).
Proof.
  intros Hurl Hresp Hstatus. unfold post, retry. rewrite retry_loop_S.
  assert (H : post_undecorated [] kwargs w
              = (Ret r, requested (EvPost url PNone PNone
                                     (delete "json" (delete "data" (delete "url" kwargs)))) w)).
  { unfold post_undecorated. cbn [bind_params]. rewrite bind_lift_Ret, Hurl.
    now apply mkpost_run with (rest := rest). }
  run H. destruct (Z.eqb_spec (status_code r) 401); [contradiction | reflexivity].
Qed.

Lemma upload_keywords (url files data h : pyval) :
  delete "json" (delete "data" (delete "url"
    ({[ "url" := url; "files" := files; "data" := data; "headers" := h ]}
     : gmap string pyval)))
  = {[ "files" := files; "headers" := h ]}.
Proof.
  rewrite delete_insert_eq.
  rewrite !(delete_insert_ne _ "url") by discriminate.
  rewrite (delete_singleton_ne "url") by discriminate.
  rewrite (delete_insert_ne _ "data" "files") by discriminate.
  rewrite delete_insert_eq, (delete_singleton_ne "data") by discriminate.
  rewrite (delete_insert_ne _ "json" "files") by discriminate.
  now rewrite (delete_singleton_ne "json") by discriminate.
Qed.

Lemma create_keywords (url files data h : pyval) :
  delete "json" (delete "data" (delete "url"
    ({[ "url" := url; "data" := data; "files" := files; "headers" := h ]}
     : gmap string pyval)))
  = {[ "files" := files; "headers" := h ]}.
Proof.
  rewrite delete_insert_eq.
  rewrite !(delete_insert_ne _ "url") by discriminate.
  rewrite (delete_singleton_ne "url") by discriminate.
  rewrite delete_insert_eq.
  rewrite (delete_insert_ne _ "data" "files") by discriminate.
  rewrite (delete_singleton_ne "data") by discriminate.
  rewrite (delete_insert_ne _ "json" "files") by discriminate.
  now rewrite (delete_singleton_ne "json") by discriminate.
Qed.

Lemma url_of_create (url data files h : pyval) :
  ({[ "url" := url; "data" := data; "files" := files; "headers" := h ]}
   : gmap string pyval) !! "url" = Some url.
Proof. apply lookup_insert_eq. Qed.

Lemma url_of_upload (url files data h : pyval) :
  ({[ "url" := url; "files" := files; "data" := data; "headers" := h ]}
   : gmap string pyval) !! "url" = Some url.
Proof. apply lookup_insert_eq. Qed.

(** X25.  With a cached key, an upload answered 200 is one POST to the
    upload endpoint of the slug, with [?gist_version=<version>] appended
    exactly when a version is given, carrying the file and the headers
    and no form data; it returns the [data] field of the answer. *)
Theorem upload_file_on_200 (E : Env) (s key : string) (file version artifact : pyval)
        (r : Response) (rest : list Response) (w : World) :
  w_creds w !! env_token_key E = Some key ->
  w_responses w = r :: rest ->
  status_code r = 200 ->
  upload_file E (PStr s) file version artifact w
  = (match json_body r with
     | None => Raise (Exn ValueError "Expecting value")
     | Some body => getitem body "data"
     end,
     requested (EvPost (PStr (_u E ((("/gist/" ++ s) ++ "/upload")
                                    ++ match version with
                                       | PNone => ""
                                       | _ => "?gist_version=" ++ py_str E version
                                       end)))
                       PNone PNone
                       {[ "files" := PDict [("files", file)];
                          "headers" := auth_headers E key ]}) w).
Proof.
  intros Hkey Hresp Hstatus.
  assert (H401 : status_code r <> 401) by (rewrite Hstatus; discriminate).
  unfold upload_file. repeat (cbn [py_add]; rewrite bind_lift_Ret). cbn [py_str].
  run (h_cached E key w Hkey).
  run (post_run_keywords E _ _ r rest w
         (url_of_upload (PStr (_u E ((("/gist/" ++ s) ++ "/upload") ++ _v E version)))
                        (PDict [("files", file)])
                        (if truthy artifact then PDict [("artifact", PStr "true")]
                         else PDict [])
                        (auth_headers E key))
         Hresp H401).
  rewrite Hstatus, Z.eqb_refl, upload_keywords. unfold res_json, _v.
  destruct (json_body r); reflexivity.
Qed.

Lemma upload_file_on_200_witness :
  upload_file demo_env (PStr "s1") (PFile "model.h5") (PInt 3) (PBool true)
              (demo_world [ok_json (PStr "uploaded")])
  = (Ret (PStr "uploaded"),
     mkWorld [EvPost (PStr "https://api.jovian.ai/gist/s1/upload?gist_version=3") PNone PNone
                     {[ "files" := PDict [("files", PFile "model.h5")];
                        "headers" := auth_headers demo_env "tok" ]}]
             [] {[ "API_KEY" := "tok" ]} ∅ PNone).
Proof.
  exact (upload_file_on_200 demo_env "s1" "tok" (PFile "model.h5") (PInt 3) (PBool true)
                            (ok_json (PStr "uploaded")) []
                            (demo_world [ok_json (PStr "uploaded")])
                            eq_refl eq_refl eq_refl).
Defined.

(** X26.  Uploading the base file with a cached key: a file that cannot
    be opened raises [OSError] before anything is logged or sent; without
    a slug (also with an empty one) the file goes in one POST to the
    endpoint that creates projects; with a slug it is an upload to that
    project. *)
Theorem create_gist_simple_with_key (E : Env) (filename key : string) (gist_slug secret : pyval)
        (w : World) :
  w_creds w !! env_token_key E = Some key ->
  (forall m, env_open_error E filename = Some m ->
             create_gist_simple E filename gist_slug secret w = (Raise (Exn OSError m), w))
  /\ (env_open_error E filename = None ->
      truthy gist_slug = true ->
      create_gist_simple E filename gist_slug secret w
      = upload_file E gist_slug (PTuple [PStr filename; PFile filename]) PNone (PBool false)
                    (logged "Uploading notebook.." false w))
  /\ (env_open_error E filename = None ->
      truthy gist_slug = false ->
      forall r rest,
        w_responses w = r :: rest ->
        status_code r = 200 ->
        create_gist_simple E filename gist_slug secret w
        = (match json_body r with
           | None => Raise (Exn ValueError "Expecting value")
           | Some body => getitem body "data"
           end,
           requested (EvPost (PStr (_u E "/gist/create")) PNone PNone
                             {[ "files" := PDict [("files",
                                                   PTuple [PStr filename; PFile filename])];
                                "headers" := auth_headers E key ]})
                     (logged "Uploading notebook.." false w))).
Proof.
  intros Hkey. repeat split.
  - intros m Hopen. unfold create_gist_simple. run (h_cached E key w Hkey).
    now rewrite Hopen.
  - intros Hopen Hslug. unfold create_gist_simple. run (h_cached E key w Hkey).
    now rewrite Hopen, run_log, Hslug.
  - intros Hopen Hslug r rest Hresp Hstatus.
    assert (H401 : status_code r <> 401) by (rewrite Hstatus; discriminate).
    unfold create_gist_simple. run (h_cached E key w Hkey).
    rewrite Hopen, run_log, Hslug.
    run (post_run_keywords E _ _ r rest (logged "Uploading notebook.." false w)
           (url_of_create (PStr (_u E "/gist/create"))
                          (PDict [("public", PInt (if truthy secret then 0 else 1))])
                          (PDict [("files", PTuple [PStr filename; PFile filename])])
                          (auth_headers E key))
           Hresp H401).
    rewrite Hstatus, Z.eqb_refl, create_keywords. unfold res_json.
    destruct (json_body r); reflexivity.
Qed.

Lemma create_gist_simple_with_key_witness :
  create_gist_simple demo_env "train.py" PNone (PBool true)
                     (demo_world [ok_json (PStr "created")])
  = (Ret (PStr "created"),
     mkWorld [EvLog "Uploading notebook.." false;
              EvPost (PStr "https://api.jovian.ai/gist/create") PNone PNone
                     {[ "files" := PDict [("files",
                                           PTuple [PStr "train.py"; PFile "train.py"])];
                        "headers" := auth_headers demo_env "tok" ]}]
             [] {[ "API_KEY" := "tok" ]} ∅ PNone).
Proof.
  exact (proj2 (proj2 (create_gist_simple_with_key demo_env "train.py" "tok" PNone (PBool true)
                         (demo_world [ok_json (PStr "created")]) eq_refl))
               eq_refl eq_refl (ok_json (PStr "created")) [] eq_refl eq_refl).
Defined.

(** * Further properties: attaching a directory *)

Lemma attach_file_run (E : Env) path gist_slug version output w :
  _attach_file E path gist_slug version output w
  = (Ret tt, appended [EvLog (attach_error E path) true] w).
Proof.
  unfold _attach_file, try_except, attach_error.
  destruct (env_open_error E path) as [m|]; reflexivity.
Qed.

Lemma appended_nil w : appended [] w = w.
Proof. unfold appended. rewrite app_nil_r. now destruct w. Qed.

Lemma appended_app evs evs' w : appended evs' (appended evs w) = appended (evs ++ evs') w.
Proof. unfold appended. cbn. now rewrite <- app_assoc. Qed.

Lemma for_each_appends {A} (l : list A) (body : A -> M unit) (evs : A -> list event) :
  (forall x w, body x w = (Ret tt, appended (evs x) w)) ->
  forall w, for_each l body w = (Ret tt, appended (flat_map evs l) w).
Proof.
  intros Hb. induction l as [|x l IH]; intros w.
  - cbn. now rewrite appended_nil.
  - cbn [for_each flat_map]. run (Hb x w). now rewrite IH, appended_app.
Qed.

Lemma flat_map_singleton {A B} (f : A -> B) (l : list A) :
  flat_map (fun x => [f x]) l = map f l.
Proof. induction l as [|x l IH]; cbn; [reflexivity | now rewrite IH]. Qed.

Lemma flat_map_map_each {A B C} (f : A -> list B) (g : B -> C) (l : list A) :
  flat_map (fun x => map g (f x)) l = map g (flat_map f l).
Proof.
  induction l as [|x l IH]; cbn; [reflexivity |]. now rewrite IH, map_app.
Qed.

(** X27.  Attaching a directory uploads nothing: every file [os.walk]
    finds below it is tried in walk order, and every try ends in one
    logged error, the error of [open] or else the [TypeError] of taking
    the directory name of a file object.  The call itself returns. *)
Theorem attach_directory_only_logs (E : Env) (depth : nat) (p : string)
        (entries : list (string * fsnode)) (gist_slug version : pyval) (output : bool)
        (w : World) :
  env_fs E p = Some (FsDir entries) ->
  _attach_files E (S depth) (PathList [p]) gist_slug version output w
  = (Ret tt,
     appended (EvLog ("Uploading additional " ++ (if output then "outputs" else "files")
                      ++ "...") false
               :: map (fun f => EvLog (attach_error E f) true)
                      (walked_files p (FsDir entries))) w).
Proof.
  intros Hfs. rewrite attach_files_unfold, run_log.
  cbn [for_each]. rewrite Hfs.
  set (w1 := logged _ false w).
  assert (H : for_each (os_walk p (FsDir entries))
                (fun '(folder, _, files) =>
                   for_each files (fun fname =>
                     _attach_file E (os_path_join folder fname) gist_slug version output)) w1
              = (Ret tt,
                 appended (map (fun f => EvLog (attach_error E f) true)
                               (walked_files p (FsDir entries))) w1)).
  { unfold walked_files. rewrite <- flat_map_map_each.
    apply for_each_appends. intros [[folder dirs] files] w'.
    rewrite (for_each_appends files _
               (fun fname => [EvLog (attach_error E (os_path_join folder fname)) true])).
    - now rewrite flat_map_singleton, map_map.
    - intros fname w''. apply attach_file_run. }
  run H. unfold ret, w1, logged, appended. cbn. now rewrite <- app_assoc.
Qed.

Lemma attach_directory_only_logs_witness :
  _attach_files demo_env 10 (PathList ["data"]) (PStr "s1") (PInt 3) false (demo_world [])
  = (Ret tt,
     mkWorld [EvLog "Uploading additional files..." false;
              EvLog "expected str, bytes or os.PathLike object" true;
              EvLog "expected str, bytes or os.PathLike object" true]
             [] {[ "API_KEY" := "tok" ]} ∅ PNone).
Proof.
  exact (attach_directory_only_logs demo_env 9 "data"
           [("a.csv", FsFile); ("raw", FsDir [("b.csv", FsFile)])]
           (PStr "s1") (PInt 3) false (demo_world []) eq_refl).
Defined.

(** * The later steps of a commit, event by event *)

Lemma capture_environment_run (E : Env) environment gist_slug version w :
  capture_caught E environment ->
  _capture_environment E environment gist_slug version w
  = (Ret tt, appended (capture_trace E environment gist_slug version) w).
Proof.
  intros [Hconda Hpip].
  destruct environment as [mode|]; [| cbn; now rewrite appended_nil].
  unfold capture_trace, tries_pip, tries_conda in *.
  unfold _capture_environment, upload_conda_env, upload_pip_env, try_except, bind, log,
    emit, ret, raise, appended, caught_line.
  destruct (String.eqb mode "auto"), (String.eqb mode "conda"), (String.eqb mode "pip");
    cbn [orb andb negb] in *;
    destruct (env_conda E) as [ec|];
    try rewrite (Hconda eq_refl ec eq_refl);
    cbn [w_trace w_responses w_creds w_rc w_current_slug negb andb orb bool_decide] in *;
    rewrite ?bool_decide_eq_true_2, ?bool_decide_eq_false_2 in * by congruence;
    cbn [w_trace w_responses w_creds w_rc w_current_slug negb andb orb] in *;
    try (destruct (env_pip E) as [ep|];
         try rewrite (Hpip eq_refl ep eq_refl);
         cbn [w_trace w_responses w_creds w_rc w_current_slug negb andb orb]);
    cbn [app]; rewrite <- ?app_assoc; reflexivity.
Qed.

Lemma capture_environment_conda_raises (E : Env) environment gist_slug version e w :
  tries_conda environment = true ->
  env_conda E = Some e ->
  is_CondaError e = false ->
  _capture_environment E environment gist_slug version w
  = (Raise e, appended [EvLog "Capturing environment.." false;
                        EvCondaCapture gist_slug version] w).
Proof.
  intros Hmode Hconda He.
  destruct environment as [mode|]; [| discriminate].
  unfold tries_conda in Hmode.
  unfold _capture_environment, upload_conda_env, try_except, bind, log, emit, ret, raise,
    appended.
  rewrite Hmode, Hconda. cbn [w_trace w_responses w_creds w_rc w_current_slug].
  rewrite He. cbn [w_trace w_responses w_creds w_rc w_current_slug].
  now rewrite <- app_assoc.
Qed.

Lemma for_each_appends_on {A} (l : list A) (body : A -> M unit) (evs : A -> list event)
      (Q : A -> Prop) :
  (forall x w, Q x -> body x w = (Ret tt, appended (evs x) w)) ->
  Forall Q l ->
  forall w, for_each l body w = (Ret tt, appended (flat_map evs l) w).
Proof.
  intros Hb Hall. induction Hall as [|x l Hx Hl IH]; intros w.
  - cbn. now rewrite appended_nil.
  - cbn [for_each flat_map]. run (Hb x w Hx). now rewrite IH, appended_app.
Qed.

(** The walk of one directory: an attempt, and so an error line, for
    every file below it. *)
Lemma attach_directory_run (E : Env) p entries gist_slug version output w :
  for_each (os_walk p (FsDir entries))
    (fun '(folder, _, files) =>
       for_each files (fun fname =>
         _attach_file E (os_path_join folder fname) gist_slug version output)) w
  = (Ret tt,
     appended (map (fun f => EvLog (attach_error E f) true)
                   (walked_files p (FsDir entries))) w).
Proof.
  unfold walked_files. rewrite <- flat_map_map_each.
  apply for_each_appends. intros [[folder dirs] files] w'.
  rewrite (for_each_appends files _
             (fun fname => [EvLog (attach_error E (os_path_join folder fname)) true])).
  - now rewrite flat_map_singleton, map_map.
  - intros fname w''. apply attach_file_run.
Qed.

(** [_attach_files] on directories and missing paths: it returns, and
    what it logs is [attach_lines]. *)
Lemma attach_files_run (E : Env) depth paths gist_slug version output w :
  dirs_or_missing E paths ->
  _attach_files E (S depth) paths gist_slug version output w
  = (Ret tt, appended (attach_lines E paths output) w).
Proof.
  unfold dirs_or_missing. intros Hall. cbn [_attach_files].
  assert (Hbody : forall l,
             Forall (fun p => env_fs E p <> Some FsFile) l ->
             (log ("Uploading additional " ++ (if output then "outputs" else "files") ++ "...")
                  false >>
              for_each l (fun path =>
                match env_fs E path with
                | Some (FsDir entries) =>
                    for_each (os_walk path (FsDir entries)) (fun '(folder, _, files) =>
                      for_each files (fun fname =>
                        _attach_file E (os_path_join folder fname) gist_slug version output))
                | Some FsFile => _attach_files E depth (PathStr path) gist_slug version output
                | None => log ("Ignoring " ++ dq ++ path ++ dq ++ " (not found)") true
                end)) w
             = (Ret tt,
                appended (EvLog ("Uploading additional "
                                 ++ (if output then "outputs" else "files") ++ "...") false
                          :: flat_map (path_lines E) l) w)).
  { intros l Hl. rewrite run_log.
    rewrite (for_each_appends_on l _ (path_lines E) (fun p => env_fs E p <> Some FsFile));
      [| | exact Hl].
    - unfold logged, appended. cbn. now rewrite <- app_assoc.
    - intros p w' Hp. unfold path_lines.
      destruct (env_fs E p) as [[|entries]|]; [congruence | | reflexivity].
      apply attach_directory_run. }
  destruct paths as [s | l].
  - destruct s as [|c s]; [cbn; now rewrite appended_nil |].
    change (String.eqb (String c s) "") with false. cbv iota.
    now rewrite Hbody.
  - destruct l as [|p l]; [cbn; now rewrite appended_nil |].
    change (Nat.eqb (length (p :: l)) 0) with false. cbv iota.
    now rewrite Hbody.
Qed.

Lemma attach_records_raises (E : Env) gist_slug version e w :
  env_record_slugs E = inl e -> _attach_records E gist_slug version w = (Raise e, w).
Proof. intros H. unfold _attach_records, get_record_slugs. rewrite H. reflexivity. Qed.

(** The record step and the success message only append to the trace. *)
Lemma emits_after_attachments (E : Env) gist_slug version owner title :
  emits (fun _ => True)
    (_attach_records E gist_slug version >>
     let* username := lift (getitem owner "username") in
     let* m := lift (py_add (PStr ("Committed successfully! " ++ env_webapp_url E)) username) in
     let* m := lift (py_add m (PStr "/")) in
     let* m := lift (py_add m title) in
     log (py_str E m) false).
Proof.
  assert (P_log : forall msg err, (fun _ : event => True) (EvLog msg err)) by (intros; exact I).
  apply emits_bind; [apply emits_attach_records; auto | intros _].
  repeat emits_step.
Qed.

(** C3, as the code has it.  Take a commit that has detected its
    context, resolved its filename and its project and uploaded the base
    file, the answer holding [slug], [owner], [version] and [title].

    Caught: an individual file attachment never raises, it ends in one
    line logged with the error flag.  When conda capture (where the mode
    tries it) fails with [CondaError] at most, pip capture (where it runs:
    mode ['pip'], or mode ['auto'] after conda capture has not succeeded)
    with an [Exception] at most, and [files] and [outputs] name
    directories and missing paths only, the capture and both attachment
    steps run: after the upload the trace goes on with exactly the capture
    events with the error line of each caught failure, then for [files]
    and for [outputs] the announcement and one error line per file below
    a directory and per missing path.  With no record pending and the
    owner's name and the title strings, the commit then returns and the
    one event that follows is the success message.

    Not caught: a failing record flush leaves the commit as an exception
    after the attachments, and a conda capture failing with anything but
    [CondaError] leaves it at once; in both cases no success message is
    logged. *)
Theorem commit_tolerates_caught_failures (E : Env) (depth : nat) (message : pyval)
        (files outputs : paths_arg) (environment : option string) (privacy : pyval)
        (filename : option string) (project : pyval) (new_project git_commit : bool)
        (git_message : pyval) (f : string) (w0 w1 w2 : World)
        (project_title project_id res slug owner version title : pyval) :
  env_in_script E || env_in_notebook E = true ->
  _parse_filename E filename = Some f ->
  _parse_project E project f new_project (after_save E w0)
  = (Ret (project_title, project_id), w1) ->
  create_gist_simple E f project_id privacy w1 = (Ret res, w2) ->
  getitem res "slug" = Ret slug ->
  getitem res "owner" = Ret owner ->
  getitem res "version" = Ret version ->
  getitem res "title" = Ret title ->
  let run := commit E depth message files outputs environment privacy filename project
                    new_project git_commit git_message w0 in
  let steps := (capture_trace E environment slug version
                ++ attach_lines E files false ++ attach_lines E outputs false)%list in
  (forall path gist_slug version output w,
      _attach_file E path gist_slug version output w
      = (Ret tt, logged (attach_error E path) true w))
  /\
  (capture_caught E environment ->
   dirs_or_missing E files ->
   dirs_or_missing E outputs ->
   (0 < depth)%nat ->
   (exists rest, w_trace (snd run) = (w_trace w2 ++ steps ++ rest)%list)
   /\ (forall username title_text,
          env_record_slugs E = inr [] ->
          getitem owner "username" = Ret (PStr username) ->
          title = PStr title_text ->
          fst run = Ret tt
          /\ w_trace (snd run)
             = (w_trace w2 ++ steps
                ++ [EvLog (((("Committed successfully! " ++ env_webapp_url E) ++ username)
                            ++ "/") ++ title_text) false])%list)
   /\ (forall e,
          env_record_slugs E = inl e ->
          fst run = Raise e /\ w_trace (snd run) = (w_trace w2 ++ steps)%list))
  /\
  (forall e,
      tries_conda environment = true ->
      env_conda E = Some e ->
      is_CondaError e = false ->
      fst run = Raise e
      /\ w_trace (snd run)
         = (w_trace w2 ++ [EvLog "Capturing environment.." false;
                           EvCondaCapture slug version])%list).
Proof.
  intros Hctx Hfn Hparse Hcreate Hslug Howner Hversion Htitle run steps.
  set (wa := mkWorld (w_trace w2) (w_responses w2) (w_creds w2)
                     (<[f := slug]> (w_rc w2)) slug).
  assert (Hrun : run
                 = (_capture_environment E environment slug version >>
                    _attach_files E depth files slug version false >>
                    _attach_files E depth outputs slug version false >>
                    _attach_records E slug version >>
                    let* username := lift (getitem owner "username") in
                    let* m := lift (py_add (PStr ("Committed successfully! "
                                                  ++ env_webapp_url E)) username) in
                    let* m := lift (py_add m (PStr "/")) in
                    let* m := lift (py_add m title) in
                    log (py_str E m) false) wa).
  { subst run. unfold commit.
    replace (negb (env_in_script E) && negb (env_in_notebook E)) with false
      by (destruct (env_in_script E), (env_in_notebook E); simpl in *; congruence).
    run (prelude_run E w0). rewrite Hfn. run Hparse. run Hcreate.
    run_pure Hslug. run_pure Howner. run_pure Hversion. run_pure Htitle.
    unfold bind at 1, write_current_slug at 1. unfold bind at 1, set_notebook_slug at 1.
    reflexivity. }
  split; [intros; apply attach_file_run |]. split.
  - intros Hcaught Hfiles Houtputs Hdepth.
    destruct depth as [|d]; [lia |].
    assert (Hsteps : forall {A} (k : M A),
               (_capture_environment E environment slug version >>
                _attach_files E (S d) files slug version false >>
                _attach_files E (S d) outputs slug version false >> k) wa
               = k (appended steps wa)).
    { intros A k.
      run (capture_environment_run E environment slug version wa Hcaught).
      run (attach_files_run E d files slug version false
             (appended (capture_trace E environment slug version) wa) Hfiles).
      run (attach_files_run E d outputs slug version false
             (appended (attach_lines E files false)
                (appended (capture_trace E environment slug version) wa)) Houtputs).
      now rewrite !appended_app, <- ?app_assoc. }
    split; [| split].
    + rewrite Hrun, Hsteps.
      destruct (emits_after_attachments E slug version owner title (appended steps wa))
        as (rest & Hrest & _).
      exists rest. rewrite Hrest. cbn. now rewrite <- app_assoc.
    + intros username title_text Hrecords Huser ->. rewrite Hrun, Hsteps.
      run (attach_records_nothing E slug version (appended steps wa) Hrecords).
      run_pure Huser. cbn [py_add]. rewrite !bind_lift_Ret. cbn [py_add].
      rewrite !bind_lift_Ret. cbn [py_str].
      split; [reflexivity |]. cbn. now rewrite <- app_assoc.
    + intros e Hrecords. rewrite Hrun, Hsteps.
      run (attach_records_raises E slug version e (appended steps wa) Hrecords).
      split; reflexivity.
  - intros e Hmode Hconda He. rewrite Hrun.
    run (capture_environment_conda_raises E environment slug version e wa Hmode Hconda He).
    split; reflexivity.
Qed.

Lemma commit_tolerates_caught_failures_witness :
  let E := demo_env_with (Some (Exn CondaError "conda: command not found"))
                         (Some (Exn Exception "pip freeze failed")) (inr []) in
  let run := commit E 100 (PStr "v1") (PathList ["data"; "missing.txt"]) (PathStr "logs")
                    (Some "auto") (PStr "auto") None PNone false true (PStr "auto")
                    (demo_world [ok_json gist_data]) in
  fst run = Ret tt
  /\ w_trace (snd run)
     = [EvLog "Uploading notebook.." false;
        EvPost (PStr "https://api.jovian.ai/gist/create") PNone PNone
               {[ "files" := PDict [("files", PTuple [PStr "train.py"; PFile "train.py"])];
                  "headers" := auth_headers E "tok" ]};
        EvLog "Capturing environment.." false;
        EvCondaCapture (PStr "s1") (PInt 3);
        EvLog "conda: command not found" true;
        EvPipCapture (PStr "s1") (PInt 3);
        EvLog "pip freeze failed" true;
        EvLog "Uploading additional files..." false;
        EvLog "expected str, bytes or os.PathLike object" true;
        EvLog "expected str, bytes or os.PathLike object" true;
        ignoring_line "missing.txt";
        EvLog "Uploading additional files..." false;
        ignoring_line "logs";
        EvLog "Committed successfully! https://jovian.ml/alice/demo" false].
Proof.
  intros E run.
  pose (w0 := demo_world [ok_json gist_data]).
  pose (w2 := snd (create_gist_simple E "train.py" PNone (PStr "auto") w0)).
  destruct (commit_tolerates_caught_failures E 100 (PStr "v1")
              (PathList ["data"; "missing.txt"]) (PathStr "logs") (Some "auto")
              (PStr "auto") None PNone false true (PStr "auto")
              "train.py" w0 w0 w2 PNone PNone gist_data (PStr "s1")
              (PDict [("username", PStr "alice")]) (PInt 3) (PStr "demo"))
    as (_ & Hcaught & _); try (vm_compute; reflexivity).
  destruct Hcaught as (_ & Hreturns & _).
  - split; intros _ e He; injection He as <-; reflexivity.
  - repeat constructor; vm_compute; discriminate.
  - repeat constructor; vm_compute; discriminate.
  - lia.
  - apply (Hreturns "alice" "demo"); reflexivity.
Defined.

(** * Further properties: committing to a named project *)

Section FirstRequests.
Context (E : Env) (P : event -> Prop).
Hypothesis P_log : forall msg err, P (EvLog msg err).
Hypothesis P_prompt : forall again, P (EvKeyPrompt again).
Hypothesis P_get : forall url kwargs, P (EvGet url PNone kwargs).

(** A POST called with keywords only starts with the request to its
    [url], carrying the keywords that are left. *)
Lemma post_starts_with kwargs url w :
  kwargs !! "url" = Some url ->
  (forall rest, P (EvPost url PNone PNone rest)) ->
  extends P (w_trace w
             ++ [EvPost url PNone PNone
                        (delete "json" (delete "data" (delete "url" kwargs)))])%list
          (post E [] kwargs) w.
Proof.
  intros Hurl HP.
  unfold post, retry. rewrite retry_loop_S. apply extends_bind.
  - unfold post_undecorated, extends. cbn [bind_params]. rewrite bind_lift_Ret, Hurl.
    exists []. unfold mkpost. destruct (w_responses w); simpl;
      (split; [now rewrite app_nil_r | constructor]).
  - intros res. destruct (status_code res =? 401); [| apply emits_ret].
    apply emits_bind; [apply emits_log; auto | intros _].
    apply emits_bind; [now apply emits_silent | intros _].
    apply emits_bind; [apply emits_h; auto | intros h].
    apply (emits_retry_loop E P P_log P_prompt P_get (fun kw => kw !! "url" = Some url)).
    + intros kw Hkw. apply emits_post_undecorated. cbn [bind_params].
      intros u vs rest Heq. rewrite Hkw in Heq. injection Heq as <- _ _. apply HP.
    + intros kw h' Hkw. now rewrite lookup_insert_ne.
    + now rewrite lookup_insert_ne.
Qed.

Lemma upload_file_starts_with s file key w :
  w_creds w !! env_token_key E = Some key ->
  (forall rest, P (EvPost (PStr (_u E ("/gist/" ++ s ++ "/upload"))) PNone PNone rest)) ->
  extends P (w_trace w
             ++ [EvPost (PStr (_u E ("/gist/" ++ s ++ "/upload"))) PNone PNone
                        {[ "files" := PDict [("files", file)];
                           "headers" := auth_headers E key ]}])%list
          (upload_file E (PStr s) file PNone (PBool false)) w.
Proof.
  intros Hkey HP.
  assert (Hext := post_starts_with
              {[ "url" := PStr (_u E ("/gist/" ++ s ++ "/upload"));
                 "files" := PDict [("files", file)];
                 "data" := PDict [];
                 "headers" := auth_headers E key ]}
              (PStr (_u E ("/gist/" ++ s ++ "/upload"))) w
              (url_of_upload _ _ _ _) HP).
  rewrite upload_keywords in Hext.
  unfold upload_file, extends. cbn [truthy _v].
  repeat (cbn [py_add]; rewrite bind_lift_Ret). cbn [py_str].
  replace ((("/gist/" ++ s) ++ "/upload") ++ "")%string with ("/gist/" ++ s ++ "/upload")%string
    by (now rewrite !append_assoc).
  run (h_cached E key w Hkey). fold (extends P). apply extends_bind; [exact Hext |].
  intros res. destruct (status_code res =? 200).
  - apply emits_bind; [apply emits_lift | intros; apply emits_lift].
  - apply emits_raise_pretty.
Qed.

Lemma create_gist_starts_with f gist_slug secret key w :
  w_creds w !! env_token_key E = Some key ->
  env_open_error E f = None ->
  truthy gist_slug = false ->
  (forall rest, P (EvPost (PStr (_u E "/gist/create")) PNone PNone rest)) ->
  extends P (w_trace w
             ++ [EvLog "Uploading notebook.." false;
                 EvPost (PStr (_u E "/gist/create")) PNone PNone
                        {[ "files" := PDict [("files", PTuple [PStr f; PFile f])];
                           "headers" := auth_headers E key ]}])%list
          (create_gist_simple E f gist_slug secret) w.
Proof.
  intros Hkey Hopen Hslug HP.
  assert (Hext := post_starts_with
              {[ "url" := PStr (_u E "/gist/create");
                 "data" := PDict [("public", PInt (if truthy secret then 0 else 1))];
                 "files" := PDict [("files", PTuple [PStr f; PFile f])];
                 "headers" := auth_headers E key ]}
              (PStr (_u E "/gist/create")) (logged "Uploading notebook.." false w)
              (url_of_create _ _ _ _) HP).
  rewrite create_keywords in Hext.
  unfold create_gist_simple, extends.
  run (h_cached E key w Hkey). rewrite Hopen, run_log, Hslug.
  fold (extends P). apply extends_bind.
  - unfold logged in Hext. cbn [w_trace] in Hext. now rewrite <- app_assoc in Hext.
  - intros res. destruct (status_code res =? 200).
    + apply emits_bind; [apply emits_lift | intros; apply emits_lift].
    + apply emits_raise_pretty.
Qed.

End FirstRequests.

Lemma commit_after_prelude (E : Env) depth message files outputs environment privacy filename
      f project new_project git_commit git_message w :
  env_in_script E || env_in_notebook E = true ->
  _parse_filename E filename = Some f ->
  commit E depth message files outputs environment privacy filename project new_project
         git_commit git_message w
  = (let* resolved := _parse_project E project f new_project in
     let '(project_title, project_id) := resolved in
     let* res := create_gist_simple E f project_id privacy in
     let* slug := lift (getitem res "slug") in
     let* owner := lift (getitem res "owner") in
     let* version := lift (getitem res "version") in
     let* title := lift (getitem res "title") in
     write_current_slug slug >>
     set_notebook_slug f slug >>
     _capture_environment E environment slug version >>
     _attach_files E depth files slug version false >>
     _attach_files E depth outputs slug version false >>
     _attach_records E slug version >>
     let* username := lift (getitem owner "username") in
     let* m := lift (py_add (PStr ("Committed successfully! " ++ env_webapp_url E)) username) in
     let* m := lift (py_add m (PStr "/")) in
     let* m := lift (py_add m title) in
     log (py_str E m) false) (after_save E w).
Proof.
  intros Hctx Hfn. unfold commit.
  replace (negb (env_in_script E) && negb (env_in_notebook E)) with false
    by (destruct (env_in_script E), (env_in_notebook E); simpl in *; congruence).
  run (prelude_run E w). now rewrite Hfn.
Qed.

(** What follows the upload of the base file emits nothing but log
    lines and capture events. *)
Lemma emits_after_upload (E : Env) (P : event -> Prop) depth files outputs environment f res :
  (forall msg err, P (EvLog msg err)) ->
  (forall s v, P (EvCondaCapture s v)) ->
  (forall s v, P (EvPipCapture s v)) ->
  emits P
    (let* slug := lift (getitem res "slug") in
     let* owner := lift (getitem res "owner") in
     let* version := lift (getitem res "version") in
     let* title := lift (getitem res "title") in
     write_current_slug slug >>
     set_notebook_slug f slug >>
     _capture_environment E environment slug version >>
     _attach_files E depth files slug version false >>
     _attach_files E depth outputs slug version false >>
     _attach_records E slug version >>
     let* username := lift (getitem owner "username") in
     let* m := lift (py_add (PStr ("Committed successfully! " ++ env_webapp_url E)) username) in
     let* m := lift (py_add m (PStr "/")) in
     let* m := lift (py_add m title) in
     log (py_str E m) false).
Proof.
  intros P_log P_conda P_pip.
  do 4 (apply emits_bind; [apply emits_lift | intros ?]).
  do 2 (apply emits_bind; [solve [apply emits_silent; intros; reflexivity] | intros _]).
  apply emits_bind; [apply emits_capture_environment; auto | intros _].
  do 2 (apply emits_bind; [apply emits_attach_files; auto | intros _]).
  apply emits_bind; [apply emits_attach_records; auto | intros _].
  repeat emits_step.
Qed.

(** X28.  What [new_project=True] does and does not switch off.  With an
    explicit name that the code fetches as it is (an id or an owner/title
    name), found on the service with write access, the commit goes on,
    after the two lookups, with the line for an update, the upload line
    and one POST to the upload endpoint of the project found, carrying
    the base file and the headers around the cached key and no form data;
    nothing in the whole run is sent to the endpoint that creates
    projects.  For any explicit name the commit is the same with
    [new_project=True] as with [new_project=False].  Without a name,
    [new_project=True] makes the commit create a project whatever the
    last slug used and the rc mapping hold: after the prelude it goes
    straight to the upload line and a POST to the creating endpoint. *)
Theorem commit_new_project_direct_name (E : Env) (depth : nat) (message : pyval)
        (files outputs : paths_arg) (environment : option string) (privacy : pyval)
        (filename : option string) (f : string) (git_commit : bool) (git_message : pyval) :
  env_in_script E || env_in_notebook E = true ->
  _parse_filename E filename = Some f ->
  env_open_error E f = None ->
  (forall (p s key : string) (w0 w1 w2 : World)
          (md owner username title name perms can_write : pyval),
      (if env_is_uuid E (PStr p) then Ret true else py_contains "/" (PStr p)) = Ret true ->
      get_gist E (PStr p) (after_save E w0) = (Ret md, w1) ->
      truthy md = true ->
      getitem md "owner" = Ret owner ->
      getitem owner "username" = Ret username ->
      getitem md "title" = Ret title ->
      py_add username title = Ret name ->
      getitem md "slug" = Ret (PStr s) ->
      s <> "" ->
      get_gist_access E (PStr s) w1 = (Ret perms, w2) ->
      getitem perms "write" = Ret can_write ->
      truthy can_write = true ->
      w_creds w2 !! env_token_key E = Some key ->
      exists before after,
        w_trace w2 = (w_trace w0 ++ before)%list
        /\ w_trace (snd (commit E depth message files outputs environment privacy filename
                                (PStr p) true git_commit git_message w0))
           = (w_trace w2
              ++ [EvLog (((("Updating notebook " ++ dq) ++ p) ++ dq ++ " on ")
                         ++ env_webapp_url E) false;
                  EvLog "Uploading notebook.." false;
                  EvPost (PStr (_u E ("/gist/" ++ s ++ "/upload"))) PNone PNone
                         {[ "files" := PDict [("files", PTuple [PStr f; PFile f])];
                            "headers" := auth_headers E key ]}]
              ++ after)%list
        /\ Forall (fun e => creates_project E e = false) before
        /\ Forall (fun e => creates_project E e = false) after)
  /\ (forall project new_project w,
         is_none project = false ->
         commit E depth message files outputs environment privacy filename project
                new_project git_commit git_message w
         = commit E depth message files outputs environment privacy filename project
                  true git_commit git_message w)
  /\ (forall key w,
         w_creds w !! env_token_key E = Some key ->
         exists after,
           w_trace (snd (commit E depth message files outputs environment privacy filename
                                PNone true git_commit git_message w))
           = (w_trace (after_save E w)
              ++ [EvLog "Uploading notebook.." false;
                  EvPost (PStr (_u E "/gist/create")) PNone PNone
                         {[ "files" := PDict [("files", PTuple [PStr f; PFile f])];
                            "headers" := auth_headers E key ]}]
              ++ after)%list).
Proof.
  intros Hctx Hfn Hopen. split; [| split].
  - intros p s key w0 w1 w2 md owner username title name perms can_write
           Hdirect Hmd Htruthy Howner Huser Htitle Hname Hid Hs Hacc Hwrite Hyes Hkey.
    set (P := fun e => creates_project E e = false).
    set (updating := (((("Updating notebook " ++ dq) ++ p) ++ dq ++ " on ")
                      ++ env_webapp_url E)%string).
    assert (Hparse : _parse_project E (PStr p) f true (after_save E w0)
                     = (Ret (name, PStr s), logged updating false w2)).
    { unfold _parse_project.
      run (local_lookup_run (PStr p) f true (after_save E w0)).
      change (local_project (PStr p) f true (after_save E w0)) with (PStr p). cbn [is_none].
      run (direct_run E (PStr p) (after_save E w0) Hdirect).
      run Hmd. rewrite Htruthy. cbn [negb].
      run_pure Howner. run_pure Huser. run_pure Htitle. run_pure Hname. run_pure Hid.
      run Hacc. run_pure Hwrite. rewrite Hyes. reflexivity. }
    assert (Hpre : exists pre, w_trace (after_save E w0) = (w_trace w0 ++ pre)%list
                               /\ Forall P pre).
    { unfold after_save. destruct (env_in_notebook E).
      - eexists. split; [reflexivity |]. repeat constructor.
      - exists []. split; [now rewrite app_nil_r | constructor]. }
    destruct Hpre as (pre & Hpre & HPpre).
    destruct (emits_get_gist E P (fun _ _ => eq_refl) (fun _ => eq_refl) (fun _ _ => eq_refl)
                (PStr p) (after_save E w0)) as (evs1 & Ht1 & HP1).
    rewrite Hmd in Ht1. cbn [snd] in Ht1.
    destruct (emits_get_gist_access E P (fun _ _ => eq_refl) (fun _ => eq_refl)
                (fun _ _ => eq_refl) (PStr s) w1) as (evs2 & Ht2 & HP2).
    rewrite Hacc in Ht2. cbn [snd] in Ht2.
    pose (w3 := logged updating false w2).
    pose (w4 := logged "Uploading notebook.." false w3).
    assert (Hup := upload_file_starts_with E P (fun _ _ => eq_refl) (fun _ => eq_refl)
                     (fun _ _ => eq_refl) s (PTuple [PStr f; PFile f]) key w4 Hkey
                     (fun rest => upload_is_not_create E s _ PNone PNone rest eq_refl)).
    assert (Hcommit :
              extends P (w_trace w4
                         ++ [EvPost (PStr (_u E ("/gist/" ++ s ++ "/upload"))) PNone PNone
                                    {[ "files" := PDict [("files", PTuple [PStr f; PFile f])];
                                       "headers" := auth_headers E key ]}])%list
                      (commit E depth message files outputs environment privacy filename
                              (PStr p) true git_commit git_message) w0).
    { unfold extends. rewrite (commit_after_prelude E _ _ _ _ _ _ _ f); auto.
      run Hparse. fold w3. fold (extends P). apply extends_bind.
      - unfold create_gist_simple, extends.
        run (h_cached E key w3 Hkey). rewrite Hopen, run_log. fold w4.
        replace (truthy (PStr s)) with true
          by (simpl; destruct (String.eqb_spec s ""); [contradiction | reflexivity]).
        exact Hup.
      - intros res. apply emits_after_upload; intros; reflexivity. }
    destruct Hcommit as (evs4 & Ht4 & HP4).
    exists (pre ++ evs1 ++ evs2)%list, evs4. repeat split.
    + rewrite Ht2, Ht1, Hpre. now rewrite <- !app_assoc.
    + rewrite Ht4. unfold w4, w3, logged. cbn [w_trace]. now rewrite <- !app_assoc.
    + rewrite !Forall_app. auto.
    + exact HP4.
  - intros project new_project w Hnone.
    rewrite !(commit_after_prelude E _ _ _ _ _ _ _ f) by auto.
    unfold _parse_project. now rewrite Hnone, !andb_false_r.
  - intros key w Hkey.
    assert (Hkey' : w_creds (after_save E w) !! env_token_key E = Some key).
    { unfold after_save. now destruct (env_in_notebook E). }
    assert (Hcommit :
              extends (fun _ => True)
                      (w_trace (after_save E w)
                       ++ [EvLog "Uploading notebook.." false;
                           EvPost (PStr (_u E "/gist/create")) PNone PNone
                                  {[ "files" := PDict [("files", PTuple [PStr f; PFile f])];
                                     "headers" := auth_headers E key ]}])%list
                      (commit E depth message files outputs environment privacy filename
                              PNone true git_commit git_message) w).
    { unfold extends. rewrite (commit_after_prelude E _ _ _ _ _ _ _ f); auto.
      assert (Hparse : _parse_project E PNone f true (after_save E w)
                       = (Ret (PNone, PNone), after_save E w)) by reflexivity.
      run Hparse.
      fold (extends (fun _ : event => True)). apply extends_bind.
      - apply create_gist_starts_with; auto.
      - intros res. apply emits_after_upload; auto. }
    destruct Hcommit as (after & Ht & _). exists after. now rewrite Ht, <- app_assoc.
Qed.

Lemma commit_new_project_direct_name_witness :
  exists before after,
    w_trace (snd (commit demo_env 100 PNone (PathList []) (PathList []) None (PStr "auto")
                         None (PStr "alice/demo") true true (PStr "auto")
                         (demo_world [ok_json gist_data; ok_json read_write;
                                      ok_json gist_data])))
    = (before
       ++ [EvLog ("Updating notebook " ++ dq ++ "alice/demo" ++ dq
                  ++ " on https://jovian.ml/") false;
           EvLog "Uploading notebook.." false;
           EvPost (PStr "https://api.jovian.ai/gist/s1/upload") PNone PNone
                  {[ "files" := PDict [("files", PTuple [PStr "train.py"; PFile "train.py"])];
                     "headers" := auth_headers demo_env "tok" ]}]
       ++ after)%list
    /\ Forall (fun e => creates_project demo_env e = false) before
    /\ Forall (fun e => creates_project demo_env e = false) after.
Proof.
  pose (w0 := demo_world [ok_json gist_data; ok_json read_write; ok_json gist_data]).
  pose (w1 := snd (get_gist demo_env (PStr "alice/demo") w0)).
  pose (w2 := snd (get_gist_access demo_env (PStr "s1") w1)).
  destruct (proj1 (commit_new_project_direct_name demo_env 100 PNone (PathList [])
                     (PathList []) None (PStr "auto") None "train.py" true (PStr "auto")
                     eq_refl eq_refl eq_refl)
                  "alice/demo" "s1" "tok" w0 w1 w2 gist_data
                  (PDict [("username", PStr "alice")]) (PStr "alice") (PStr "demo")
                  (PStr "alicedemo") read_write (PBool true))
    as (before & after & Hbefore & Htrace & Hb & Ha);
    try (vm_compute; reflexivity); [discriminate |].
  exists before, after. split; [| split; [exact Hb | exact Ha]].
  refine (eq_trans Htrace _). rewrite Hbefore. reflexivity.
Defined.
